(** * Signal-to-lead pipeline: a shallow embedding of
      [app/ml/product_inference.py] and [app/services/lead_processor.py],
      with the loops of [app/services/scraper_scheduler.py] and the
      keyword filters of [app/scrapers/rss_scraper.py].

    Text is modelled as [string] (ASCII text: [lower] maps A-Z to a-z and
    [strip] removes the ASCII white space Python's [str.strip] removes).
    Python's [float] is IEEE 754 binary64 and is modelled by the kernel's
    primitive floats, so every sum, comparison and rounding below is the
    one the interpreter performs. *)

From Stdlib Require Import String Ascii List ZArith Lia Bool PeanoNat.
From Stdlib Require Import Floats Uint63 Sorted Permutation.
Import ListNotations.

Set Warnings "-inexact-float".

Local Open Scope string_scope.
Local Open Scope list_scope.

(** ** Python strings *)

Module PyStr.

(** [c.lower()] on an ASCII character. *)
Definition lower_ascii (c : ascii) : ascii :=
  let n := nat_of_ascii c in
  if (65 <=? n)%nat && (n <=? 90)%nat then ascii_of_nat (n + 32) else c.

(** [s.lower()]. *)
Fixpoint lower (s : string) : string :=
  match s with
  | EmptyString => EmptyString
  | String c t => String (lower_ascii c) (lower t)
  end.

(** The characters [str.isspace] accepts: tab, line feed, vertical tab,
    form feed, carriage return, the four separators 28-31 and the space. *)
Definition is_space (c : ascii) : bool :=
  let n := nat_of_ascii c in
  ((9 <=? n)%nat && (n <=? 13)%nat) || ((28 <=? n)%nat && (n <=? 32)%nat).

(** [s.lstrip()]. *)
Fixpoint lstrip (s : string) : string :=
  match s with
  | EmptyString => EmptyString
  | String c t => if is_space c then lstrip t else s
  end.

(** [s.rstrip()]: a white-space character is dropped when everything
    after it has been dropped too. *)
Fixpoint rstrip (s : string) : string :=
  match s with
  | EmptyString => EmptyString
  | String c t =>
      match rstrip t with
      | EmptyString => if is_space c then EmptyString else String c EmptyString
      | t' => String c t'
      end
  end.

(** [s.strip()]. *)
Definition strip (s : string) : string := rstrip (lstrip s).

(** [s.replace(' ', '')]. *)
Fixpoint remove_spaces (s : string) : string :=
  match s with
  | EmptyString => EmptyString
  | String c t =>
      if Ascii.eqb c " "%char then remove_spaces t else String c (remove_spaces t)
  end.

(** [needle in hay]: [needle] occurs in [hay] as a substring. *)
Fixpoint contains (needle hay : string) : bool :=
  String.prefix needle hay ||
  match hay with
  | EmptyString => false
  | String _ t => contains needle t
  end.

(** [sep.join(parts)]. *)
Definition join (sep : string) (parts : list string) : string :=
  String.concat sep parts.

(** Truth value of a string: [''] is false. *)
Definition truthy (s : string) : bool :=
  match s with EmptyString => false | _ => true end.

(** Truth value of an optional string: [None] and [''] are false. *)
Definition truthy_opt (o : option string) : bool :=
  match o with Some s => truthy s | None => false end.

(** [a or b] on optional strings. *)
Definition or_opt (a b : option string) : option string :=
  if truthy_opt a then a else b.

(** [list(set(xs))]: the distinct elements of [xs].  Python leaves the
    order of a set unspecified; the first occurrences are kept here, and
    nothing below depends on the order. *)
Fixpoint distinct (xs : list string) : list string :=
  match xs with
  | [] => []
  | x :: t => x :: filter (fun y => negb (String.eqb x y)) (distinct t)
  end.

End PyStr.

(** ** Python floats *)

Module PyFloat.

(** Round-half-even of [a / b] for [0 <= a], [0 < b]. *)
Definition div_half_even (a b : Z) : Z :=
  let q := (a / b)%Z in
  let r := (a mod b)%Z in
  if (2 * r <? b)%Z then q
  else if (b <? 2 * r)%Z then (q + 1)%Z
  else if Z.even q then q else (q + 1)%Z.

(** The integer nearest to [k * |x|] (ties to even) for a finite [x] and
    [0 < k], computed on the exact value [m * 2^e] of [x], and the sign
    of [x]; [None] for an infinity or a NaN. *)
Definition scaled_nearest (k : Z) (x : float) : option (bool * Z) :=
  match Prim2SF x with
  | S754_zero s => Some (s, 0%Z)
  | S754_finite s m e =>
      let num := (Z.pos m * k)%Z in
      Some (s, if (0 <=? e)%Z then (num * 2 ^ e)%Z
               else div_half_even num (2 ^ (- e)))
  | S754_infinity _ => None
  | S754_nan => None
  end.

(** The float of an integer [0 <= n < 2^53] (exact). *)
Definition of_Z (n : Z) : float := PrimFloat.of_uint63 (Uint63.of_Z n).

(** [round(x, 2)]: the double nearest to the two-decimal number nearest
    to [x].  CPython rounds the exact value of [x] to two decimals
    (ties to even) and converts the decimal string back; the quotient of
    the exact integer [n] by [100] is that conversion.  From [2^46] on
    the doubles are more than 0.01 apart and [round] returns [x]. *)
Definition round2 (x : float) : float :=
  match scaled_nearest 100 x with
  | None => x
  | Some (s, n) =>
      if (2 ^ 53 <=? n)%Z then x
      else if s then (- (of_Z n / 100))%float else (of_Z n / 100)%float
  end.

(** [int(round(x))] for a finite [x] (0 for an infinity or a NaN, where
    Python raises; no caller in this program reaches that case). *)
Definition round_int (x : float) : Z :=
  match scaled_nearest 1 x with
  | None => 0%Z
  | Some (s, n) => if s then (- n)%Z else n
  end.

(** [min(a, b)]: Python returns [a] unless [b < a]. *)
Definition min (a b : float) : float := if (b <? a)%float then b else a.

(** [max(a, b)]: Python returns [a] unless [b > a]. *)
Definition max (a b : float) : float := if (a <? b)%float then b else a.

End PyFloat.

(** ** [ProductInferenceEngine] (app/ml/product_inference.py) *)

Module ProductInferenceEngine.

Record ProductData := mkProductData {
  keywords : list string;
  equipment : list string;
  industries : list string
}.

(** [self.product_keywords]: the catalogue, in declaration order (a Python
    dict iterates in insertion order). *)
Definition product_keywords : list (string * ProductData) :=
  [ ("FO", mkProductData
       ["furnace oil"; "fuel oil"; "fo "; "heavy fuel"; "boiler fuel"; "industrial fuel"]
       ["boiler"; "furnace"; "kiln"; "dryer"; "thermal power"]
       ["power"; "textile"; "ceramic"; "steel"; "cement"]);
    ("HSD", mkProductData
       ["high speed diesel"; "hsd"; "diesel"; "auto diesel"]
       ["generator"; "genset"; "diesel generator"; "dgset"; "vehicle"; "truck"]
       ["logistics"; "transport"; "construction"; "mining"; "power backup"]);
    ("LDO", mkProductData
       ["light diesel oil"; "ldo"; "light fuel"]
       ["furnace"; "dryer"; "small boiler"]
       ["small industry"; "tea estate"; "food processing"]);
    ("LSHS", mkProductData
       ["low sulphur heavy stock"; "lshs"; "low sulfur fuel"; "marine fuel"]
       ["ship"; "vessel"; "marine engine"]
       ["shipping"; "marine"; "port"]);
    ("SKO", mkProductData
       ["superior kerosene oil"; "sko"; "kerosene"]
       ["burner"; "lamp"; "heater"]
       ["domestic"; "rural"; "heating"]);
    ("Hexane", mkProductData
       ["hexane"; "n-hexane"; "solvent extraction"]
       ["extraction unit"; "solvent plant"]
       ["edible oil"; "vegetable oil"; "oil extraction"; "solvent extraction"]);
    ("Solvent 1425", mkProductData
       ["solvent 1425"; "mineral spirits"; "paint solvent"]
       ["paint plant"; "coating unit"]
       ["paint"; "coating"; "ink"; "resin"]);
    ("Mineral Turpentine Oil", mkProductData
       ["mineral turpentine"; "mto"; "turpentine oil"; "white spirit"]
       ["paint mixer"; "thinner unit"]
       ["paint"; "varnish"; "polish"; "cleaning"]);
    ("Jute Batch Oil", mkProductData
       ["jute batching oil"; "jbo"; "jute oil"; "batching oil"]
       ["jute mill"; "textile machinery"]
       ["jute"; "textile"; "jute processing"]);
    ("Bitumen", mkProductData
       ["bitumen"; "asphalt"; "road tar"; "paving material"]
       ["paver"; "road roller"; "hot mix plant"]
       ["road construction"; "highway"; "infrastructure"; "roofing"]);
    ("Marine Bunker Fuel", mkProductData
       ["bunker fuel"; "marine diesel"; "ship fuel"; "bunker oil"]
       ["ship"; "vessel"; "tanker"; "cargo ship"]
       ["shipping"; "marine"; "port operations"]);
    ("Sulphur", mkProductData
       ["sulphur"; "sulfur"; "molten sulphur"; "elemental sulfur"]
       ["chemical reactor"; "fertilizer plant"]
       ["fertilizer"; "chemical"; "acid manufacturing"]);
    ("Propylene", mkProductData
       ["propylene"; "propene"; "polypropylene feedstock"]
       ["polymerization unit"; "chemical reactor"]
       ["petrochemical"; "plastic"; "polymer"]) ].

Record Recommendation := mkRecommendation {
  product : string;
  confidence : float;
  reason : string
}.

(** The dict [analyze_text] returns. *)
Record Analysis := mkAnalysis {
  recommended_products : list Recommendation;
  detected_keywords : list string;
  detected_equipment : list string;
  intent_strength : string;
  urgency_score : float
}.

(** One of the three inner loops of [analyze_text]: for each term found in
    the lowered text, [score += weight], the term is appended to the
    detected list and its reason to [reasons]. *)
Fixpoint scan_terms (text_lower : string) (weight : float)
    (label : string -> string) (terms : list string)
    (score : float) (reasons found : list string)
    : float * list string * list string :=
  match terms with
  | [] => (score, reasons, found)
  | term :: rest =>
      if PyStr.contains (PyStr.lower term) text_lower
      then scan_terms text_lower weight label rest
             (score + weight)%float (reasons ++ [label term]) (found ++ [term])
      else scan_terms text_lower weight label rest score reasons found
  end.

Definition keyword_reason (keyword : string) : string :=
  "Mentioned '" ++ keyword ++ "'".

Definition equipment_reason (equipment : string) : string :=
  "Equipment: '" ++ equipment ++ "' detected".

Definition industry_reason (industry : string) : string :=
  "Industry: '" ++ industry ++ "' match".

(** The body of the loop over products for one product: the three scans
    in order (keywords, equipment, industries).  Returns the raw score,
    the reasons and the two detected lists as extended. *)
Definition score_product (text_lower : string) (data : ProductData)
    (detected_keywords detected_equipment : list string)
    : float * list string * list string * list string :=
  let '(score, reasons, detected_keywords) :=
    scan_terms text_lower 0.4 keyword_reason (keywords data)
      0%float [] detected_keywords in
  let '(score, reasons, detected_equipment) :=
    scan_terms text_lower 0.3 equipment_reason (equipment data)
      score reasons detected_equipment in
  let '(score, reasons, _) :=
    scan_terms text_lower 0.2 industry_reason (industries data)
      score reasons [] in
  (score, reasons, detected_keywords, detected_equipment).

(** An item of [product_scores]: product, capped score, reasons. *)
Definition Scored : Type := string * (float * list string).

Definition scored_score (x : Scored) : float := fst (snd x).

(** The loop over [self.product_keywords.items()]: [product_scores]
    receives an entry (capped at 1.0) when the raw score is positive. *)
Fixpoint scan_products (text_lower : string)
    (catalogue : list (string * ProductData))
    (product_scores : list Scored)
    (detected_keywords detected_equipment : list string)
    : list Scored * list string * list string :=
  match catalogue with
  | [] => (product_scores, detected_keywords, detected_equipment)
  | (name, data) :: rest =>
      let '(score, reasons, detected_keywords, detected_equipment) :=
        score_product text_lower data detected_keywords detected_equipment in
      let product_scores :=
        if (0 <? score)%float
        then product_scores ++ [(name, (PyFloat.min score 1.0, reasons))]
        else product_scores in
      scan_products text_lower rest product_scores
        detected_keywords detected_equipment
  end.

(** [sorted(items, key=score, reverse=True)]: Python's sort is stable and
    compares keys with [<] only; with [reverse=True] items of equal key
    keep their original order.  [insert_desc x l] puts [x], which came
    before every item of [l], ahead of the first item whose key is not
    greater than its own. *)
Fixpoint insert_desc (x : Scored) (l : list Scored) : list Scored :=
  match l with
  | [] => [x]
  | y :: rest =>
      if (scored_score x <? scored_score y)%float
      then y :: insert_desc x rest
      else x :: l
  end.

Definition sorted_desc (l : list Scored) : list Scored :=
  fold_right insert_desc [] l.

Definition recommend (x : Scored) : Recommendation :=
  mkRecommendation (fst x) (PyFloat.round2 (scored_score x))
    (PyStr.join "; " (snd (snd x))).

Definition high_intent_keywords : list string :=
  ["tender"; "rfq"; "quotation"; "procurement"; "bid"; "supply required"].

Definition medium_intent_keywords : list string :=
  ["expansion"; "new plant"; "commissioning"; "setting up"].

(** [sum(1 for kw in kws if kw in text)]. *)
Definition count_matches (kws : list string) (text : string) : nat :=
  length (filter (fun kw => PyStr.contains kw text) kws).

Definition _calculate_intent_strength (text : string) : string :=
  let high_count := count_matches high_intent_keywords text in
  let medium_count := count_matches medium_intent_keywords text in
  if (0 <? high_count)%nat then "high"
  else if (0 <? medium_count)%nat then "medium"
  else "low".

Definition urgency_keywords : list (string * float) :=
  [ ("immediate", 1.0%float); ("urgent", 0.9%float); ("asap", 0.9%float);
    ("this month", 0.8%float); ("tender", 0.7%float); ("deadline", 0.7%float);
    ("soon", 0.6%float); ("upcoming", 0.5%float) ].

Definition _calculate_urgency (text : string) : float :=
  fold_left
    (fun max_urgency kv =>
       if PyStr.contains (fst kv) text
       then PyFloat.max max_urgency (snd kv) else max_urgency)
    urgency_keywords 0%float.

Definition analyze_text (text : string) : Analysis :=
  let text_lower := PyStr.lower text in
  let '(product_scores, detected_keywords, detected_equipment) :=
    scan_products text_lower product_keywords [] [] [] in
  let sorted_products := firstn 3 (sorted_desc product_scores) in
  mkAnalysis
    (map recommend sorted_products)
    (PyStr.distinct detected_keywords)
    (PyStr.distinct detected_equipment)
    (_calculate_intent_strength text_lower)
    (_calculate_urgency text_lower).

(** [d.get(key, default)] on a dict written as an association list. *)
Fixpoint dict_get (d : list (string * float)) (key : string) (default : float)
    : float :=
  match d with
  | [] => default
  | (k, v) :: rest => if String.eqb k key then v else dict_get rest key default
  end.

Definition intent_scores : list (string * float) :=
  [("high", 30%float); ("medium", 20%float); ("low", 10%float)].

Definition size_scores : list (string * float) :=
  [("enterprise", 10%float); ("large", 8%float); ("medium", 6%float);
   ("small", 4%float)].

(** [sum(p['confidence'] for p in ps)]: the additions from 0, left to
    right, each rounded (the interpreter up to 3.11; later ones carry a
    compensation term through the sum that can change its last bit). *)
Definition sum_confidence (ps : list Recommendation) : float :=
  fold_left (fun acc p => (acc + confidence p)%float) ps 0%float.

Definition calculate_lead_score (analysis : Analysis) (company_size : string)
    : float :=
  let confidence_score :=
    match recommended_products analysis with
    | [] => 0%float
    | ps =>
        let avg_confidence :=
          (sum_confidence ps / PyFloat.of_Z (Z.of_nat (length ps)))%float in
        (avg_confidence * 40)%float
    end in
  let intent_score := dict_get intent_scores (intent_strength analysis) 10%float in
  let urgency := (urgency_score analysis * 20)%float in
  let size_score := dict_get size_scores company_size 6%float in
  let total_score :=
    (confidence_score + intent_score + urgency + size_score)%float in
  PyFloat.round2 (PyFloat.min total_score 100%float).

Definition states : list string :=
  [ "Maharashtra"; "Gujarat"; "Tamil Nadu"; "Karnataka"; "Delhi";
    "Uttar Pradesh"; "West Bengal"; "Rajasthan"; "Madhya Pradesh";
    "Andhra Pradesh"; "Telangana"; "Kerala"; "Punjab"; "Haryana"; "Bihar";
    "Odisha"; "Assam"; "Jharkhand" ].

Definition extract_location (text : string) : list string :=
  let text_lower := PyStr.lower text in
  filter (fun state => PyStr.contains (PyStr.lower state) text_lower) states.

End ProductInferenceEngine.

(** ** [fuzz.ratio] (the fuzzywuzzy package)

    [_find_or_create_company] is written against an arbitrary similarity
    function; the properties of entity resolution below hold for every
    such function.  [Fuzz.ratio] is the one the package computes with its
    Levenshtein backend, [int(round(100 * 2*M/T))] with [M] the length of a
    longest common subsequence and [T] the two lengths added; it serves to
    run the pipeline on concrete repositories. *)

Module Fuzz.

(** One row of the longest-common-subsequence table: [prev] is the row
    above from the current column on, [diag] the entry above-left and
    [left] the entry to the left. *)
Fixpoint lcs_row (x : ascii) (b : list ascii) (prev : list nat)
    (diag left : nat) : list nat :=
  match b, prev with
  | y :: b', p :: prev' =>
      let cell := if Ascii.eqb x y then S diag else Nat.max p left in
      cell :: lcs_row x b' prev' p cell
  | _, _ => []
  end.

Definition lcs (a b : list ascii) : nat :=
  last
    (fold_left (fun prev x => 0 :: lcs_row x b (tl prev) 0 0) a
       (repeat 0 (S (length b))))
    0.

Definition ratio (s1 s2 : string) : Z :=
  if String.eqb s1 s2 then 100%Z
  else if (String.length s1 =? 0)%nat || (String.length s2 =? 0)%nat then 0%Z
  else
    let matches := Z.of_nat (lcs (list_ascii_of_string s1) (list_ascii_of_string s2)) in
    let total := Z.of_nat (String.length s1 + String.length s2) in
    PyFloat.round_int
      (100 * (PyFloat.of_Z (2 * matches) / PyFloat.of_Z total))%float.

End Fuzz.

(** ** The ORM models (app/models/models.py), with the columns the
       pipeline reads or writes *)

Module Company.
Record t := mk {
  id : nat;
  name : string;
  normalized_name : option string;
  website : option string;
  industry : option string;
  city : option string;
  state : option string;
  company_size : option string
}.
End Company.

Module Source.
Record t := mk {
  id : nat;
  domain : string;
  url : string;
  category : string;
  trust_score : float;
  last_crawled : option nat;
  is_active : bool
}.
End Source.

Module Officer.
Record t := mk {
  id : nat;
  email : string;
  territory_state : option string;
  notification_enabled : bool;
  is_active : bool
}.
End Officer.

Module Lead.
Record t := mk {
  id : nat;
  company_id : nat;
  source_id : nat;
  signal_text : string;
  signal_url : option string;
  signal_date : nat;
  signal_type : string;
  detected_keywords : list string;
  detected_equipment : list string;
  detected_locations : list string;
  recommended_products : list ProductInferenceEngine.Recommendation;
  lead_score : float;
  intent_strength : string;
  urgency_days : nat;
  confidence : float;
  assigned_officer_id : option nat;
  territory_state : option string;
  status : string;
  next_action : string
}.
End Lead.

(** The [signal_data] dict: a key that is absent is [None]. *)
Module Signal.
Record t := mk {
  company_name : option string;
  signal_text : option string;
  signal_url : option string;
  signal_type : option string;
  source_domain : option string;
  industry : option string;
  location : option string;
  state : option string;
  website : option string
}.
End Signal.

(** ** [LeadProcessor] (app/services/lead_processor.py) *)

Module LeadProcessor.

Import ProductInferenceEngine.

Record Tables := mkTables {
  companies : list Company.t;
  sources : list Source.t;
  leads : list Lead.t;
  officers : list Officer.t
}.

(** The state the processor works on: the database as committed, the
    session's view of it (the committed rows and the changes of the open
    transaction: queries read this view, [commit] makes it the committed
    state, [rollback] drops it), and the alerts handed to the e-mail
    service. *)
Record State := mkState {
  committed : Tables;
  working : Tables;
  outbox : list (string * nat)
}.

Definition db_commit (st : State) : State :=
  mkState (working st) (working st) (outbox st).

Definition db_rollback (st : State) : State :=
  mkState (committed st) (committed st) (outbox st).

Definition with_working (st : State) (t : Tables) : State :=
  mkState (committed st) t (outbox st).

(** The id the database gives a new row: one more than the largest in use. *)
Definition next_id (ids : list nat) : nat := S (list_max ids).

(** What the methods that read dict keys with [signal_data[key]] can
    raise. *)
Inductive exn := KeyError (key : string).

Inductive outcome (A : Type) :=
| Returned (value : A)
| Raised (error : exn).
Arguments Returned {A} value.
Arguments Raised {A} error.

(** [self.inference_engine]: the three methods the processor calls. *)
Record InferenceEngine := mkEngine {
  engine_analyze_text : string -> Analysis;
  engine_calculate_lead_score : Analysis -> string -> float;
  engine_extract_location : string -> list string
}.

(** [ProductInferenceEngine()], as [LeadProcessor.__init__] builds it. *)
Definition default_engine : InferenceEngine :=
  mkEngine analyze_text calculate_lead_score extract_location.

(** [dict.get(key, default)] for a string-valued key. *)
Definition get_or (o : option string) (default : string) : string :=
  match o with Some s => s | None => default end.

Section Processor.

(** [fuzz.ratio]. *)
Variable fuzz_ratio : string -> string -> Z.
(** [self.inference_engine]. *)
Variable inference_engine : InferenceEngine.
(** The reading of [datetime.utcnow()].  The code reads the clock anew at
    every use; one reading stands here for the readings of a run, so a
    statement that compares the stamps of two calls gives each call its
    own reading. *)
Variable utcnow : nat.

(** The loop over [all_companies]: the first company whose similarity
    is above 85 is returned. *)
Fixpoint fuzzy_match (normalized_name : string) (all_companies : list Company.t)
    : option Company.t :=
  match all_companies with
  | [] => None
  | existing :: rest =>
      let similarity :=
        fuzz_ratio normalized_name (get_or (Company.normalized_name existing) "") in
      if (85 <? similarity)%Z then Some existing
      else fuzzy_match normalized_name rest
  end.

(** The exact match [Company.name == company_name] compares the strings
    character by character, as a database does under a binary collation. *)
Definition _find_or_create_company (signal_data : Signal.t) (st : State)
    : State * option Company.t :=
  let company_name := PyStr.strip (get_or (Signal.company_name signal_data) "") in
  if negb (PyStr.truthy company_name) then (st, None)
  else
    let normalized_name := PyStr.remove_spaces (PyStr.lower company_name) in
    match find (fun c => String.eqb (Company.name c) company_name)
               (companies (working st)) with
    | Some company => (st, Some company)
    | None =>
        match fuzzy_match normalized_name (companies (working st)) with
        | Some existing => (st, Some existing)
        | None =>
            let w := working st in
            let company :=
              Company.mk (next_id (map Company.id (companies w)))
                company_name (Some normalized_name)
                (Signal.website signal_data)
                (Signal.industry signal_data)
                (Signal.location signal_data)
                (Signal.state signal_data)
                None in
            let st :=
              with_working st
                (mkTables (companies w ++ [company]) (sources w) (leads w)
                   (officers w)) in
            (db_commit st, Some company)
        end
    end.

(** [source.last_crawled = datetime.utcnow()] on the row of [source]. *)
Definition touch_source (source : Source.t) : Source.t :=
  Source.mk (Source.id source) (Source.domain source) (Source.url source)
    (Source.category source) (Source.trust_score source) (Some utcnow)
    (Source.is_active source).

Definition _get_or_create_source (domain : string) (st : State)
    : State * option Source.t :=
  let '(st, source) :=
    match find (fun s => String.eqb (Source.domain s) domain)
               (sources (working st)) with
    | Some source => (st, source)
    | None =>
        let w := working st in
        let source :=
          Source.mk (next_id (map Source.id (sources w))) domain
            ("https://" ++ domain) "unknown" 0.5%float None true in
        let st :=
          with_working st
            (mkTables (companies w) (sources w ++ [source]) (leads w)
               (officers w)) in
        (db_commit st, source)
    end in
  let w := working st in
  let source := touch_source source in
  let st :=
    with_working st
      (mkTables (companies w)
         (map (fun s => if (Source.id s =? Source.id source)%nat then source else s)
              (sources w))
         (leads w) (officers w)) in
  (db_commit st, Some source).

Definition opt_string_eqb (o : option string) (s : string) : bool :=
  match o with Some x => String.eqb x s | None => false end.

Definition _assign_officer (state : string) (st : State) : option Officer.t :=
  match find (fun o => opt_string_eqb (Officer.territory_state o) state
                       && Officer.is_active o)
             (officers (working st)) with
  | Some officer => Some officer
  | None => find Officer.is_active (officers (working st))
  end.

Definition _calculate_urgency_days (urgency_score : float) : nat :=
  if (0.8 <=? urgency_score)%float then 7
  else if (0.6 <=? urgency_score)%float then 14
  else if (0.4 <=? urgency_score)%float then 30
  else 60.

Definition _suggest_next_action (analysis : Analysis) : string :=
  let intent := intent_strength analysis in
  if String.eqb intent "high"
  then "Contact immediately - High intent signal detected (tender/procurement)"
  else if String.eqb intent "medium"
  then "Schedule call within 3 days - Expansion/new facility signal"
  else "Research company and prepare pitch - General signal".

(** [_send_lead_notification]: the alert is handed to the e-mail service;
    whatever the service raises is caught and logged inside the method,
    so the caller sees no failure. *)
Definition _send_lead_notification (lead : Lead.t) (officer : Officer.t)
    (st : State) : State :=
  mkState (committed st) (working st)
    (outbox st ++ [(Officer.email officer, Lead.id lead)]).

(** Step 6, first line: [signal_data.get('state') or company.state or
    (locations[0] if locations else None)]. *)
Definition territory_of (signal_data : Signal.t) (company : Company.t)
    (locations : list string) : option string :=
  PyStr.or_opt (Signal.state signal_data)
    (PyStr.or_opt (Company.state company) (hd_error locations)).

(** Step 6, second line: [self._assign_officer(territory_state) if
    territory_state else None]. *)
Definition officer_for (territory_state : option string) (st : State)
    : option Officer.t :=
  match territory_state with
  | Some state => if PyStr.truthy state then _assign_officer state st else None
  | None => None
  end.

(** Step 7: the [Lead(...)] object, with the id the database gives it. *)
Definition new_lead (signal_data : Signal.t) (company : Company.t)
    (source : Source.t) (signal_text : string) (analysis : Analysis)
    (top : Recommendation) (lead_score : float) (locations : list string)
    (territory_state : option string) (assigned_officer : option Officer.t)
    (st : State) : Lead.t :=
  Lead.mk (next_id (map Lead.id (leads (working st))))
    (Company.id company) (Source.id source) signal_text
    (Signal.signal_url signal_data) utcnow
    (get_or (Signal.signal_type signal_data) "unknown")
    (ProductInferenceEngine.detected_keywords analysis)
    (ProductInferenceEngine.detected_equipment analysis)
    locations (recommended_products analysis) lead_score
    (intent_strength analysis)
    (_calculate_urgency_days (urgency_score analysis))
    (confidence top)
    (option_map Officer.id assigned_officer)
    territory_state "new" (_suggest_next_action analysis).

(** [self.db.add(lead); self.db.commit()]. *)
Definition add_lead (lead : Lead.t) (st : State) : State :=
  let w := working st in
  db_commit
    (with_working st
       (mkTables (companies w) (sources w) (leads w ++ [lead]) (officers w))).

(** Step 8: the alert goes out when an officer was assigned and has
    notifications enabled. *)
Definition notify (lead : Lead.t) (assigned_officer : option Officer.t)
    (st : State) : State :=
  match assigned_officer with
  | Some officer =>
      if Officer.notification_enabled officer
      then _send_lead_notification lead officer st else st
  | None => st
  end.

(** [company.company_size or "medium"]. *)
Definition size_of (company : Company.t) : string :=
  if PyStr.truthy_opt (Company.company_size company)
  then get_or (Company.company_size company) "medium" else "medium".

(** The [try] block of [process_signal]. *)
Definition process_signal_body (signal_data : Signal.t) (st : State)
    : State * outcome (option nat) :=
  let '(st, company) := _find_or_create_company signal_data st in
  match company with
  | None => (st, Returned None)
  | Some company =>
  match Signal.source_domain signal_data with
  | None => (st, Raised (KeyError "source_domain"))
  | Some domain =>
  let '(st, source) := _get_or_create_source domain st in
  match source with
  | None => (st, Returned None)
  | Some source =>
  match Signal.signal_text signal_data with
  | None => (st, Raised (KeyError "signal_text"))
  | Some signal_text =>
  let analysis := engine_analyze_text inference_engine signal_text in
  match recommended_products analysis with
  | [] => (st, Returned None)
  | top :: _ =>
  let lead_score :=
    engine_calculate_lead_score inference_engine analysis (size_of company) in
  if (lead_score <? 30)%float then (st, Returned None)
  else
    let locations := engine_extract_location inference_engine signal_text in
    let territory_state := territory_of signal_data company locations in
    let assigned_officer := officer_for territory_state st in
    let lead :=
      new_lead signal_data company source signal_text analysis top lead_score
        locations territory_state assigned_officer st in
    let st := add_lead lead st in
    let st := notify lead assigned_officer st in
    (st, Returned (Some (Lead.id lead)))
  end end end end end.

(** [process_signal]: the [try] block, and the [except Exception] clause
    that rolls the session back and returns [None]. *)
Definition process_signal (signal_data : Signal.t) (st : State)
    : State * option nat :=
  match process_signal_body signal_data st with
  | (st, Returned lead_id) => (st, lead_id)
  | (st, Raised _) => (db_rollback st, None)
  end.

(** The dict [batch_process_signals] returns. *)
Record BatchResults := mkResults {
  processed : nat;
  created : nat;
  skipped : nat;
  errors : nat
}.

(** Truth value of [lead_id]: [None] and [0] are false. *)
Definition lead_id_truthy (lead_id : option nat) : bool :=
  match lead_id with
  | Some n => negb (n =? 0)%nat
  | None => false
  end.

(** The loop of [batch_process_signals]. *)
Fixpoint batch_loop (signals : list Signal.t) (st : State)
    (results : BatchResults) : State * BatchResults :=
  match signals with
  | [] => (st, results)
  | signal :: rest =>
      let results :=
        mkResults (S (processed results)) (created results) (skipped results)
          (errors results) in
      let '(st, lead_id) := process_signal signal st in
      let results :=
        if lead_id_truthy lead_id
        then mkResults (processed results) (S (created results))
               (skipped results) (errors results)
        else mkResults (processed results) (created results)
               (S (skipped results)) (errors results) in
      batch_loop rest st results
  end.

Definition batch_process_signals (signals : list Signal.t) (st : State)
    : State * BatchResults :=
  batch_loop signals st (mkResults 0 0 0 0).

End Processor.

End LeadProcessor.

(** ** Vocabulary of the statements *)

Module Spec.

Import ProductInferenceEngine LeadProcessor.

(** One of the markers [kws] occurs in [text]. *)
Definition mentions (kws : list string) (text : string) : Prop :=
  exists kw, In kw kws /\ PyStr.contains kw text = true.

(** The company name the resolver works on: [signal_data.get(
    'company_name', '').strip()]. *)
Definition candidate_name (signal_data : Signal.t) : string :=
  PyStr.strip (get_or (Signal.company_name signal_data) "").

(** The key compared by the fuzzy match: [name.lower().replace(' ', '')]. *)
Definition normalize (name : string) : string :=
  PyStr.remove_spaces (PyStr.lower name).

(** [existing.normalized_name or '']. *)
Definition stored_normalized (c : Company.t) : string :=
  get_or (Company.normalized_name c) "".

(** The similarity the resolver computes between the candidate of a
    signal and an existing company. *)
Definition similarity (fuzz_ratio : string -> string -> Z)
    (signal_data : Signal.t) (c : Company.t) : Z :=
  fuzz_ratio (normalize (candidate_name signal_data)) (stored_normalized c).

(** The session holds no uncommitted change. *)
Definition clean (st : State) : Prop := working st = committed st.

Definition empty_tables : Tables := mkTables [] [] [] [].

Definition empty_state : State := mkState empty_tables empty_tables [].

(** A state whose committed database holds the given companies. *)
Definition state_of_companies (cs : list Company.t) : State :=
  let t := mkTables cs [] [] [] in mkState t t [].

Definition company_named (id : nat) (name : string) : Company.t :=
  Company.mk id name (Some (normalize name)) None None None None None.

(** A signal carrying a company name only. *)
Definition name_only (name : string) : Signal.t :=
  Signal.mk (Some name) None None None None None None None None.

(** A signal carrying a name, a text and a source domain. *)
Definition plain_signal (name text domain : string) : Signal.t :=
  Signal.mk (Some name) (Some text) None None (Some domain)
    None None None None.

(** The composite score the pipeline computes for a signal, when it gets
    as far as the score gate: the company resolves, the signal has its
    source domain and its text, and the analysis recommends a product. *)
Definition composite_score (fuzz_ratio : string -> string -> Z)
    (engine : InferenceEngine) (signal_data : Signal.t) (st : State)
    : option float :=
  match snd (_find_or_create_company fuzz_ratio signal_data st),
        Signal.source_domain signal_data, Signal.signal_text signal_data with
  | Some company, Some _, Some text =>
      let analysis := engine_analyze_text engine text in
      match recommended_products analysis with
      | [] => None
      | _ :: _ =>
          Some (engine_calculate_lead_score engine analysis (size_of company))
      end
  | _, _, _ => None
  end.

(** A value that is supplied: neither missing nor the empty string. *)
Definition supplied (o : option string) : option string :=
  match o with
  | Some s => if String.eqb s "" then None else Some s
  | None => None
  end.

(** Territory selection in the words of the statement: the signal's state
    if supplied, else the company's state if supplied, else the first
    extracted location, else none. *)
Definition territory_rule (signal_state company_state : option string)
    (locations : list string) : option string :=
  match supplied signal_state with
  | Some s => Some s
  | None =>
      match supplied company_state with
      | Some s => Some s
      | None => hd_error locations
      end
  end.

(** Every character of [s] is white space. *)
Fixpoint blank (s : string) : bool :=
  match s with
  | EmptyString => true
  | String c t => PyStr.is_space c && blank t
  end.

(** *** Concrete repositories and signals *)

Definition tata_steels : Company.t := company_named 1 "Tata Steels Limited".

Definition tata_steel : Company.t := company_named 2 "Tata Steel Limited".

Definition adani_power : Company.t := company_named 1 "Adani Power Limited".

(** A signal as the scrapers build them, with a state. *)
Definition signal_in (name text domain state : string) : Signal.t :=
  Signal.mk (Some name) (Some text) None (Some "news") (Some domain)
    None None (Some state) None.

Definition officer (id : nat) (email state : string) : Officer.t :=
  Officer.mk id email (Some state) true true.

(** A database with two officers and no other row. *)
Definition officers_only : State :=
  let t :=
    mkTables [] [] []
      [officer 1 "mh@hpcl.example" "Maharashtra";
       officer 2 "gj@hpcl.example" "Gujarat"] in
  mkState t t [].

(** An engine that recommends one product and reports a fixed score. *)
Definition fixed_score_engine (score : float) : InferenceEngine :=
  mkEngine
    (fun _ => mkAnalysis [mkRecommendation "FO" 1.0%float "fixed"] [] []
                "low" 0%float)
    (fun _ _ => score)
    (fun _ => []).

(** *** The lead score, in the words of the statement *)

(** The intent bucket: high 30, medium 20, low (and anything else) 10. *)
Definition intent_bucket (intent : string) : float :=
  if String.eqb intent "high" then 30%float
  else if String.eqb intent "medium" then 20%float
  else 10%float.

(** The size bucket: enterprise 10, large 8, medium 6, small 4, any other
    size 6. *)
Definition size_bucket (size : string) : float :=
  if String.eqb size "enterprise" then 10%float
  else if String.eqb size "large" then 8%float
  else if String.eqb size "medium" then 6%float
  else if String.eqb size "small" then 4%float
  else 6%float.

(** The mean of the confidences, summed from the left. *)
Definition mean_confidence (confidences : list float) : float :=
  (fold_left PrimFloat.add confidences 0
   / PyFloat.of_Z (Z.of_nat (length confidences)))%float.

(** Mean confidence times 40, or 0 without recommendations. *)
Definition confidence_part (confidences : list float) : float :=
  match confidences with
  | [] => 0%float
  | _ :: _ => (mean_confidence confidences * 40)%float
  end.

Definition weighted_sum (analysis : Analysis) (company_size : string) : float :=
  (confidence_part (map confidence (recommended_products analysis))
   + intent_bucket (intent_strength analysis)
   + urgency_score analysis * 20
   + size_bucket company_size)%float.

(** [0 <= x <= 100]. *)
Definition in_range (x : float) : bool :=
  ((0 <=? x) && (x <=? 100))%float.

(** In range, and on one side of the gate: below 30 or at least 30. *)
Definition gate_sound (x : float) : bool :=
  (in_range x && ((x <? 30) || (30 <=? x)))%float.

(** *** The values the classifier can produce *)

(** [w] added [n] times to [s], one addition after the other. *)
Definition bump (w : float) (n : nat) (s : float) : float :=
  Nat.iter n (fun x => (x + w)%float) s.

(** The raw score of a product of which [k] keywords, [e] equipment terms
    and [i] industry terms occur: the additions in the order the loops
    perform them. *)
Definition raw_score (k e i : nat) : float :=
  bump 0.2 i (bump 0.3 e (bump 0.4 k 0)).

Definition confidence_values : list float :=
  [0.2; 0.3; 0.4; 0.5; 0.6; 0.7; 0.8; 0.9; 1.0]%float.

Definition urgency_values : list float :=
  [0; 0.5; 0.6; 0.7; 0.8; 0.9; 1.0]%float.

Definition intent_values : list float := [30; 20; 10]%float.

Definition size_values : list float := [10; 8; 6; 4]%float.

(** The lists over [values] of length at most [n]. *)
Fixpoint lists_upto {A : Type} (n : nat) (values : list A) : list (list A) :=
  match n with
  | O => [[]]
  | S m => [] :: flat_map (fun v => map (cons v) (lists_upto m values)) values
  end.

(** The score of an analysis with the given confidences, intent bucket,
    urgency and size bucket. *)
Definition score_of (confidences : list float)
    (intent urgency size : float) : float :=
  PyFloat.round2
    (PyFloat.min (confidence_part confidences + intent + urgency * 20 + size)
       100)%float.

(** [P] holds of the score of every analysis the classifier can produce:
    up to three recommendations with confidences 0.2 to 1.0, the three
    intent buckets, the urgency lexicon's values, the four size buckets. *)
Definition every_score (P : float -> bool) : bool :=
  forallb (fun confidences =>
    forallb (fun intent =>
      forallb (fun urgency =>
        forallb (fun size => P (score_of confidences intent urgency size))
          size_values)
        urgency_values)
      intent_values)
    (lists_upto 3 confidence_values).

(** A stored item of [product_scores] is the capped raw score of some
    count of matched terms within the catalogue's list lengths. *)
Definition reachable (x : Scored) : Prop :=
  exists k e i,
    (k <= 6)%nat /\ (e <= 6)%nat /\ (i <= 5)%nat /\
    (0 <? raw_score k e i)%float = true /\
    scored_score x = PyFloat.min (raw_score k e i) 1.0.

(** The position of a product in the catalogue. *)
Fixpoint index_of (name : string) (names : list string) : option nat :=
  match names with
  | [] => None
  | n :: rest =>
      if String.eqb n name then Some 0%nat
      else option_map S (index_of name rest)
  end.

Definition declaration_index (name : string) : option nat :=
  index_of name (map fst product_keywords).

(** *** A batch of five signals *)

Definition batch_of_five : list Signal.t :=
  [ plain_signal "NTPC Ltd"
      "NTPC invites tenders for supply of furnace oil for boiler operations"
      "gem.gov.in";
    plain_signal "Asian Paints Ltd" "Asian Paints opens a paint store"
      "economictimes.indiatimes.com";
    Signal.mk (Some "JSW Steel Ltd") (Some "JSW Steel tender for diesel supply")
      None None None None None None None;
    plain_signal "Marico Ltd" "Marico launches a printing ink brand"
      "economictimes.indiatimes.com";
    plain_signal "Indian Railways" "Urgent requirement of diesel for genset"
      "gem.gov.in" ].

(** The state the batch has reached after its first [n] signals. *)
Definition state_after (n : nat) : State :=
  fst (batch_process_signals Fuzz.ratio default_engine 0
         (firstn n batch_of_five) empty_state).

End Spec.

(** ** [ScraperScheduler] (app/services/scraper_scheduler.py) *)

Module ScraperScheduler.

Import LeadProcessor.

(** The dict [run_all_scrapers] returns. *)
Record Results := mkResults {
  gem_tenders : nat;
  et_news : nat;
  rss_articles : nat;
  leads_created : nat;
  errors : list string
}.

Section Scheduler.

Variable fuzz_ratio : string -> string -> Z.
Variable inference_engine : InferenceEngine.
Variable utcnow : nat.

(** One of the three loops of [run_all_scrapers]: for each signal the
    [try] block calls [process_signal]; when a lead comes back the counter
    is incremented and then the success line is logged, which reads
    [signal['company_name']] and raises [KeyError] if the key is absent;
    the [except] clause appends [str(e)] to the errors. *)
Fixpoint process_all (signals : list Signal.t) (st : State)
    (leads_created : nat) (errors : list string)
    : State * nat * list string :=
  match signals with
  | [] => (st, leads_created, errors)
  | signal :: rest =>
      let '(st, lead) := process_signal fuzz_ratio inference_engine utcnow signal st in
      if lead_id_truthy lead then
        match Signal.company_name signal with
        | Some _ => process_all rest st (S leads_created) errors
        | None =>
            process_all rest st (S leads_created) (errors ++ ["'company_name'"])
        end
      else process_all rest st leads_created errors
  end.

(** [run_all_scrapers], given what the three scrapers return: a session
    is opened on the database ([SessionLocal()]), the three lists are
    processed in turn, and the session is closed, which drops whatever
    it has not committed. *)
Definition run_all_scrapers (gem et rss : list Signal.t)
    (db : Tables) (sent : list (string * nat))
    : Tables * list (string * nat) * Results :=
  let st := mkState db db sent in
  let '(st, created, errs) := process_all gem st 0 [] in
  let '(st, created, errs) := process_all et st created errs in
  let '(st, created, errs) := process_all rss st created errs in
  let st := db_rollback st in
  (committed st, outbox st,
   mkResults (length gem) (length et) (length rss) created errs).

End Scheduler.

End ScraperScheduler.

(** ** [RSSFeedScraper]: the two keyword filters
       (app/scrapers/rss_scraper.py) *)

Module RSSFeedScraper.

Definition relevant_keywords : list string :=
  [ "expansion"; "plant"; "project"; "investment"; "tender";
    "power"; "energy"; "fuel"; "diesel"; "petroleum"; "oil";
    "construction"; "infrastructure"; "manufacturing";
    "steel"; "cement"; "chemical"; "refinery"; "pipeline";
    "bitumen"; "road"; "highway"; "railway" ].

(** The loop of [_is_relevant]: true at the first keyword found. *)
Fixpoint any_keyword (keywords : list string) (text_lower : string) : bool :=
  match keywords with
  | [] => false
  | keyword :: rest =>
      if PyStr.contains keyword text_lower then true
      else any_keyword rest text_lower
  end.

Definition _is_relevant (text : string) : bool :=
  any_keyword relevant_keywords (PyStr.lower text).

(** The loop of [_extract_keywords]. *)
Fixpoint found_keywords (keywords : list string) (text_lower : string)
    : list string :=
  match keywords with
  | [] => []
  | keyword :: rest =>
      if PyStr.contains keyword text_lower
      then keyword :: found_keywords rest text_lower
      else found_keywords rest text_lower
  end.

Definition _extract_keywords (text : string) : list string :=
  firstn 5 (found_keywords relevant_keywords (PyStr.lower text)).

End RSSFeedScraper.

(** ** Vocabulary of the further statements *)

Module Conditions.

Import ProductInferenceEngine LeadProcessor Spec.

(** How many of [terms] occur in the lowered text. *)
Definition hits (text_lower : string) (terms : list string) : nat :=
  length (filter (fun t => PyStr.contains (PyStr.lower t) text_lower) terms).

(** Some keyword, equipment term or industry term of the catalogue occurs
    in the text, letter case apart. *)
Definition term_occurs (text : string) : Prop :=
  exists name data term,
    In (name, data) product_keywords /\
    In term (keywords data ++ equipment data ++ industries data) /\
    PyStr.contains (PyStr.lower term) (PyStr.lower text) = true.

(** The counts of matched terms a product can have. *)
Definition all_counts : list (nat * nat * nat) :=
  flat_map (fun k =>
    flat_map (fun e => map (fun i => (k, e, i)) (seq 0 6)) (seq 0 7))
    (seq 0 7).

(** The capped scores a product can have. *)
Definition capped_scores : list float :=
  map (fun c => PyFloat.min (raw_score (fst (fst c)) (snd (fst c)) (snd c)) 1.0)
    all_counts.

(** [a] does not rank below [b]. *)
Definition not_below (a b : float) : Prop := (a <? b)%float = false.

(** The capped scores with their roundings to two decimals. *)
Definition rounded_scores : list (float * float) :=
  map (fun x => (x, PyFloat.round2 x)) capped_scores.

(** For two capped scores given with their roundings: [<] is asymmetric
    and rounding keeps the order. *)
Definition order_kept (p q : float * float) : bool :=
  (implb (fst p <? fst q) (negb (fst q <? fst p))
   && implb (negb (fst p <? fst q)) (negb (snd p <? snd q)))%float.

Definition every_order_kept : bool :=
  let l := rounded_scores in
  forallb (fun p => forallb (order_kept p) l) l.

(** An item of [product_scores] whose score is a capped score. *)
Definition capped (x : Scored) : Prop := In (scored_score x) capped_scores.

(** [a] does not rank below [b] in [product_scores]. *)
Definition ranks (a b : Scored) : Prop :=
  not_below (scored_score a) (scored_score b).

(** Primary keys and unique columns hold no value twice. *)
Definition unique_keys (t : Tables) : Prop :=
  NoDup (map Company.id (companies t)) /\
  NoDup (map Company.name (companies t)) /\
  NoDup (map Source.id (sources t)) /\
  NoDup (map Source.domain (sources t)) /\
  NoDup (map Lead.id (leads t)).

(** The foreign keys of a lead: its company, its source and, when it has
    one, its assigned officer are rows of the database. *)
Definition references_kept (t : Tables) : Prop :=
  forall lead, In lead (leads t) ->
    In (Lead.company_id lead) (map Company.id (companies t)) /\
    In (Lead.source_id lead) (map Source.id (sources t)) /\
    (forall id, Lead.assigned_officer_id lead = Some id ->
                In id (map Officer.id (officers t))).

(** The alert [process_signal] sends for a lead, if any. *)
Definition alert_for (lead : Lead.t) (st : State) : list (string * nat) :=
  match officer_for (Lead.territory_state lead) st with
  | Some o =>
      if Officer.notification_enabled o
      then [(Officer.email o, Lead.id lead)] else []
  | None => []
  end.

End Conditions.

(** * Properties *)

Import ProductInferenceEngine LeadProcessor Spec.

(** ** The classifier: intent strength *)

Lemma count_matches_positive (kws : list string) (text : string) :
  (0 < count_matches kws text)%nat <-> mentions kws text.
Proof.
  unfold count_matches, mentions.
  induction kws as [|kw kws IH]; simpl.
  - split; [lia | intros (kw & [] & _)].
  - destruct (PyStr.contains kw text) eqn:Hkw; simpl.
    + split; [intros _; exists kw; auto | lia].
    + rewrite IH. split.
      * intros (k & Hin & Hk). exists k; auto.
      * intros (k & [Heq | Hin] & Hk); [subst; congruence | exists k; auto].
Qed.

Lemma count_matches_zero (kws : list string) (text : string) :
  ~ mentions kws text -> count_matches kws text = 0%nat.
Proof.
  intros H. destruct (count_matches kws text) eqn:E; [reflexivity|].
  exfalso. apply H, count_matches_positive. lia.
Qed.

Lemma analyze_text_intent_strength (text : string) :
  intent_strength (analyze_text text)
    = _calculate_intent_strength (PyStr.lower text).
Proof.
  unfold analyze_text.
  destruct (scan_products (PyStr.lower text) product_keywords [] [] [])
    as [[ps dk] de].
  reflexivity.
Qed.

(** C8. Intent strength is decided by presence, not by count: "high" as
    soon as one high-intent marker occurs in the text, whatever medium
    markers occur with it; otherwise "medium" when a medium marker occurs;
    otherwise "low".  [analyze_text] applies this to the lowered text. *)
Theorem intent_strength_by_presence (text : string) :
  (mentions high_intent_keywords text ->
     _calculate_intent_strength text = "high") /\
  (~ mentions high_intent_keywords text ->
   mentions medium_intent_keywords text ->
     _calculate_intent_strength text = "medium") /\
  (~ mentions high_intent_keywords text ->
   ~ mentions medium_intent_keywords text ->
     _calculate_intent_strength text = "low") /\
  intent_strength (analyze_text text)
    = _calculate_intent_strength (PyStr.lower text).
Proof.
  unfold _calculate_intent_strength. repeat split.
  - intros H. apply count_matches_positive in H.
    destruct (count_matches high_intent_keywords text); [lia | reflexivity].
  - intros Hh Hm. rewrite (count_matches_zero _ _ Hh).
    apply count_matches_positive in Hm.
    destruct (count_matches medium_intent_keywords text); [lia | reflexivity].
  - intros Hh Hm.
    rewrite (count_matches_zero _ _ Hh), (count_matches_zero _ _ Hm).
    reflexivity.
  - apply analyze_text_intent_strength.
Qed.

Example intent_tender_and_expansion :
  intent_strength
    (analyze_text "Tender floated for the plant expansion, new plant commissioning")
  = "high".
Proof. vm_compute. reflexivity. Qed.

(** ** Entity resolution *)

Lemma find_app_last {A : Type} (f : A -> bool) (l : list A) (x : A) :
  find f (l ++ [x]) =
  match find f l with Some y => Some y | None => if f x then Some x else None end.
Proof.
  induction l as [|a l IH]; simpl; [reflexivity|].
  destruct (f a); [reflexivity | exact IH].
Qed.

Lemma truthy_false_iff (s : string) : PyStr.truthy s = false <-> s = "".
Proof. destruct s; simpl; split; congruence. Qed.

Lemma list_max_ge (l : list nat) (n : nat) : In n l -> (n <= list_max l)%nat.
Proof.
  intros H. pose proof (proj1 (list_max_le l (list_max l)) (Nat.le_refl _)) as F.
  rewrite Forall_forall in F. exact (F n H).
Qed.

Lemma next_id_fresh (l : list nat) : ~ In (next_id l) l.
Proof. intros H. apply list_max_ge in H. unfold next_id in H. lia. Qed.

Section Resolution.

Variable fuzz_ratio : string -> string -> Z.

Lemma fuzzy_match_first (norm : string) (before after : list Company.t)
    (c : Company.t) :
  Forall (fun e => (fuzz_ratio norm (stored_normalized e) <= 85)%Z) before ->
  (85 < fuzz_ratio norm (stored_normalized c))%Z ->
  fuzzy_match fuzz_ratio norm (before ++ c :: after) = Some c.
Proof.
  intros Hb Hc. induction Hb as [|e before He _ IH]; simpl.
  - unfold stored_normalized in Hc.
    destruct (Z.ltb_spec 85 (fuzz_ratio norm (get_or (Company.normalized_name c) "")));
      [reflexivity | lia].
  - unfold stored_normalized in He.
    destruct (Z.ltb_spec 85 (fuzz_ratio norm (get_or (Company.normalized_name e) "")));
      [lia | exact IH].
Qed.

Lemma fuzzy_match_none (norm : string) (l : list Company.t) :
  Forall (fun e => (fuzz_ratio norm (stored_normalized e) <= 85)%Z) l ->
  fuzzy_match fuzz_ratio norm l = None.
Proof.
  intros H. induction H as [|e l He _ IH]; simpl; [reflexivity|].
  unfold stored_normalized in He.
  destruct (Z.ltb_spec 85 (fuzz_ratio norm (get_or (Company.normalized_name e) "")));
    [lia | exact IH].
Qed.

Lemma fuzzy_match_in (norm : string) (l : list Company.t) (c : Company.t) :
  fuzzy_match fuzz_ratio norm l = Some c -> In c l.
Proof.
  induction l as [|e l IH]; simpl; [discriminate|].
  destruct (85 <? _)%Z; [intros [= ->]; auto | auto].
Qed.

(** C3, as the code has it. When no company has exactly the candidate's
    name, the resolver returns the first company, in repository order,
    whose stored normalized name is more than 85 similar to the normalized
    candidate (the scan stops there: later companies are not compared,
    however similar), and leaves the repository as it is; when every
    company is at most 85 similar it creates, and commits, a new record
    with a fresh id, the trimmed name and its normalized name. *)
Theorem fuzzy_resolution_first_above_85 (signal_data : Signal.t) (st : State) :
  candidate_name signal_data <> "" ->
  find (fun c => String.eqb (Company.name c) (candidate_name signal_data))
       (companies (working st)) = None ->
  (forall before c after,
      companies (working st) = before ++ c :: after ->
      Forall (fun e => (similarity fuzz_ratio signal_data e <= 85)%Z) before ->
      (85 < similarity fuzz_ratio signal_data c)%Z ->
      _find_or_create_company fuzz_ratio signal_data st = (st, Some c)) /\
  (Forall (fun e => (similarity fuzz_ratio signal_data e <= 85)%Z) (companies (working st)) ->
   exists c,
     snd (_find_or_create_company fuzz_ratio signal_data st) = Some c /\
     ~ In (Company.id c) (map Company.id (companies (working st))) /\
     Company.name c = candidate_name signal_data /\
     Company.normalized_name c = Some (normalize (candidate_name signal_data)) /\
     companies (committed (fst (_find_or_create_company fuzz_ratio signal_data st)))
       = companies (working st) ++ [c]).
Proof.
  intros Hname Hexact. unfold similarity.
  unfold _find_or_create_company. fold (candidate_name signal_data).
  fold (normalize (candidate_name signal_data)).
  destruct (PyStr.truthy (candidate_name signal_data)) eqn:Ht;
    [| apply truthy_false_iff in Ht; contradiction].
  simpl negb. cbv iota. rewrite Hexact. split.
  - intros before c after Hsplit Hb Hc. rewrite Hsplit.
    rewrite (fuzzy_match_first _ before after c Hb Hc). reflexivity.
  - intros Hall. rewrite (fuzzy_match_none _ _ Hall).
    eexists. simpl. repeat split. apply next_id_fresh.
Qed.

(** A signal whose trimmed company name is not empty resolves to a
    company, and that company is a row of the repository the call
    leaves: the row it matched or the row it created. *)
Lemma find_or_create_company_some (signal_data : Signal.t) (st : State) :
  candidate_name signal_data <> "" ->
  exists c,
    snd (_find_or_create_company fuzz_ratio signal_data st) = Some c /\
    In c (companies
            (working (fst (_find_or_create_company fuzz_ratio signal_data st)))) /\
    (In c (companies (working st)) \/
     (Company.name c = candidate_name signal_data /\
      ~ In (Company.id c) (map Company.id (companies (working st))) /\
      In c (companies
              (committed
                 (fst (_find_or_create_company fuzz_ratio signal_data st)))))).
Proof.
  intros Hname. unfold _find_or_create_company.
  fold (candidate_name signal_data).
  destruct (PyStr.truthy (candidate_name signal_data)) eqn:Ht;
    [| apply truthy_false_iff in Ht; contradiction].
  simpl negb. cbv iota.
  destruct (find _ (companies (working st))) as [c|] eqn:Hexact.
  - exists c. simpl. pose proof (proj1 (find_some _ _ Hexact)). auto.
  - destruct (fuzzy_match _ _ (companies (working st))) as [c|] eqn:Hfuzzy.
    + exists c. simpl. pose proof (fuzzy_match_in _ _ _ Hfuzzy). auto.
    + eexists. simpl. split; [reflexivity|].
      split; [apply in_or_app; right; left; reflexivity|].
      right. split; [reflexivity|]. split; [apply next_id_fresh|].
      apply in_or_app. right. left. reflexivity.
Qed.

(** C9. Resolving the same signal twice in a row gives the same company
    both times, and the second call changes nothing.  When the trimmed
    name is not empty both calls do return a company, the same one, with
    the same [Company.id]: it is a row of the repository the first call
    leaves, either a row that was there before or the row the first call
    created and committed under a fresh id, and the second call finds
    it there. *)
Theorem resolve_twice_same_company (signal_data : Signal.t) (st : State) :
  snd (_find_or_create_company fuzz_ratio signal_data
         (fst (_find_or_create_company fuzz_ratio signal_data st)))
    = snd (_find_or_create_company fuzz_ratio signal_data st) /\
  option_map Company.id
    (snd (_find_or_create_company fuzz_ratio signal_data
            (fst (_find_or_create_company fuzz_ratio signal_data st))))
    = option_map Company.id
        (snd (_find_or_create_company fuzz_ratio signal_data st)) /\
  fst (_find_or_create_company fuzz_ratio signal_data
         (fst (_find_or_create_company fuzz_ratio signal_data st)))
    = fst (_find_or_create_company fuzz_ratio signal_data st) /\
  (candidate_name signal_data <> "" ->
   exists c,
     snd (_find_or_create_company fuzz_ratio signal_data st) = Some c /\
     snd (_find_or_create_company fuzz_ratio signal_data
            (fst (_find_or_create_company fuzz_ratio signal_data st)))
       = Some c /\
     In c (companies
             (working
                (fst (_find_or_create_company fuzz_ratio signal_data st)))) /\
     (In c (companies (working st)) \/
      (Company.name c = candidate_name signal_data /\
       ~ In (Company.id c) (map Company.id (companies (working st))) /\
       In c (companies
               (committed
                  (fst (_find_or_create_company fuzz_ratio signal_data st))))))).
Proof.
  assert (H :
    _find_or_create_company fuzz_ratio signal_data
      (fst (_find_or_create_company fuzz_ratio signal_data st))
    = (fst (_find_or_create_company fuzz_ratio signal_data st),
       snd (_find_or_create_company fuzz_ratio signal_data st))).
  { unfold _find_or_create_company.
    destruct (PyStr.truthy (PyStr.strip (get_or (Signal.company_name signal_data) "")))
      eqn:Ht; simpl negb; cbv iota; [| reflexivity].
    destruct (find _ (companies (working st))) as [c|] eqn:Hexact.
    - simpl fst. rewrite Hexact. reflexivity.
    - destruct (fuzzy_match _ _ (companies (working st))) as [c|] eqn:Hfuzzy.
      + simpl fst. rewrite Hexact, Hfuzzy. reflexivity.
      + simpl fst. simpl working. simpl companies.
        rewrite find_app_last, Hexact. simpl Company.name.
        rewrite String.eqb_refl. reflexivity. }
  rewrite H. simpl.
  split; [reflexivity|]. split; [reflexivity|]. split; [reflexivity|].
  intros Hname.
  destruct (find_or_create_company_some signal_data st Hname)
    as (c & Hc & Hin & Hrow).
  exists c. auto.
Qed.

End Resolution.

(** ** The pipeline *)

Section Pipeline.

Variable fuzz_ratio : string -> string -> Z.
Variable inference_engine : InferenceEngine.
Variable utcnow : nat.

(** What company resolution leaves alone and what it adds. *)
Lemma find_or_create_company_frame (signal_data : Signal.t) (st : State) :
  let st1 := fst (_find_or_create_company fuzz_ratio signal_data st) in
  leads (working st1) = leads (working st) /\
  officers (working st1) = officers (working st) /\
  sources (working st1) = sources (working st) /\
  outbox st1 = outbox st /\
  (exists cs, companies (working st1) = companies (working st) ++ cs) /\
  (clean st -> clean st1) /\
  (forall c, snd (_find_or_create_company fuzz_ratio signal_data st) = Some c ->
             In c (companies (working st1))).
Proof.
  unfold _find_or_create_company, clean.
  destruct (PyStr.truthy _); simpl negb; cbv iota.
  2:{ simpl. repeat split; auto. exists []. now rewrite app_nil_r. discriminate. }
  destruct (find _ (companies (working st))) as [c|] eqn:Hexact.
  { simpl. repeat split; auto. exists []. now rewrite app_nil_r.
    intros c' [= <-]. apply (find_some _ _ Hexact). }
  destruct (fuzzy_match _ _ _) as [c|] eqn:Hfuzzy.
  { simpl. repeat split; auto. exists []. now rewrite app_nil_r.
    intros c' [= <-]. apply (fuzzy_match_in _ _ _ _ Hfuzzy). }
  simpl. repeat split; auto.
  - eexists. reflexivity.
  - intros c' [= <-]. apply in_or_app. right. left. reflexivity.
Qed.

(** What the source upsert leaves alone; it always commits. *)
Lemma get_or_create_source_frame (domain : string) (st : State) :
  let st2 := fst (_get_or_create_source utcnow domain st) in
  leads (working st2) = leads (working st) /\
  officers (working st2) = officers (working st) /\
  companies (working st2) = companies (working st) /\
  outbox st2 = outbox st /\
  clean st2 /\
  exists source, snd (_get_or_create_source utcnow domain st) = Some source.
Proof.
  unfold _get_or_create_source, clean.
  destruct (find _ (sources (working st))) as [s|]; simpl;
    repeat split; eauto.
Qed.

(** The source the upsert returns carries the domain and is committed. *)
Lemma get_or_create_source_persisted (domain : string) (st : State) :
  exists source,
    snd (_get_or_create_source utcnow domain st) = Some source /\
    Source.domain source = domain /\
    In source
       (sources (committed (fst (_get_or_create_source utcnow domain st)))).
Proof.
  unfold _get_or_create_source.
  destruct (find _ (sources (working st))) as [s|] eqn:Hfind.
  - apply find_some in Hfind. destruct Hfind as [Hin Hdom].
    apply String.eqb_eq in Hdom.
    exists (touch_source utcnow s). simpl. repeat split; [exact Hdom|].
    apply in_map_iff. exists s. split; [| exact Hin].
    rewrite Nat.eqb_refl. reflexivity.
  - eexists. simpl. repeat split.
    apply in_map_iff. eexists. split.
    2:{ apply in_or_app. right. left. reflexivity. }
    simpl. rewrite Nat.eqb_refl. reflexivity.
Qed.

Lemma notify_tables (lead : Lead.t) (officer : option Officer.t) (st : State) :
  committed (notify lead officer st) = committed st /\
  working (notify lead officer st) = working st.
Proof.
  unfold notify, _send_lead_notification.
  destruct officer as [o|]; [destruct (Officer.notification_enabled o)|]; auto.
Qed.

(** Runs the [try] block symbolically: one goal per way out of it. *)
Ltac run_body signal_data st :=
  unfold process_signal, process_signal_body;
  let st1 := fresh "st1" in
  let company := fresh "company" in
  let Hfocc := fresh "Hfocc" in
  destruct (_find_or_create_company fuzz_ratio signal_data st)
    as [st1 [company|]] eqn:Hfocc;
  cbv beta iota zeta;
  [ let domain := fresh "domain" in
    let Hdom := fresh "Hdom" in
    destruct (Signal.source_domain signal_data) as [domain|] eqn:Hdom;
    cbv beta iota zeta;
    [ let st2 := fresh "st2" in
      let source := fresh "source" in
      let Hgocs := fresh "Hgocs" in
      destruct (_get_or_create_source utcnow domain st1)
        as [st2 [source|]] eqn:Hgocs;
      cbv beta iota zeta;
      [ pose proof (get_or_create_source_frame domain st1) as Hsrc;
        cbv zeta in Hsrc; rewrite Hgocs in Hsrc; simpl fst in Hsrc;
        simpl snd in Hsrc;
        let text := fresh "text" in
        let Htext := fresh "Htext" in
        destruct (Signal.signal_text signal_data) as [text|] eqn:Htext;
        cbv beta iota zeta;
        [ let top := fresh "top" in
          let Hrec := fresh "Hrec" in
          destruct (recommended_products
                      (engine_analyze_text inference_engine text))
            as [|top ?] eqn:Hrec;
          cbv beta iota zeta;
          [ | let Hgate := fresh "Hgate" in
              destruct (PrimFloat.ltb
                          (engine_calculate_lead_score inference_engine
                             (engine_analyze_text inference_engine text)
                             (size_of company)) 30) eqn:Hgate;
              cbv beta iota zeta ]
        | ]
      | exfalso;
        destruct (get_or_create_source_frame domain st1)
          as (_ & _ & _ & _ & _ & (? & Hsome));
        rewrite Hgocs in Hsome; discriminate Hsome ]
    | ]
  | ].

(** Once step 2 has run, a source of the signal's domain is committed,
    whatever happens afterwards. *)
Lemma process_signal_source_persisted (signal_data : Signal.t) (st : State)
    (c : Company.t) (d : string) :
  snd (_find_or_create_company fuzz_ratio signal_data st) = Some c ->
  Signal.source_domain signal_data = Some d ->
  exists source,
    Source.domain source = d /\
    In source
       (sources (committed
                   (fst (process_signal fuzz_ratio inference_engine utcnow
                           signal_data st)))).
Proof.
  run_body signal_data st; simpl fst; simpl snd; intros Hc Hd;
    try discriminate Hc; try discriminate Hd;
    injection Hd as <-;
    destruct (get_or_create_source_persisted domain st1)
      as (s & Hs & Hsd & Hin);
    rewrite Hgocs in Hs, Hin; simpl fst in Hin;
    exists s; (split; [exact Hsd|]);
    try rewrite (proj1 (notify_tables _ _ _));
    destruct Hsrc as (_ & _ & _ & _ & Gclean & _); unfold clean in Gclean;
    unfold add_lead, db_rollback; simpl; try rewrite Gclean; exact Hin.
Qed.

(** What [process_signal] does to the session and to the companies and
    leads. *)
Lemma process_signal_effects (signal_data : Signal.t) (st : State) :
  clean st ->
  clean (fst (process_signal fuzz_ratio inference_engine utcnow signal_data st)) /\
  (snd (process_signal fuzz_ratio inference_engine utcnow signal_data st) = None ->
   leads (committed
            (fst (process_signal fuzz_ratio inference_engine utcnow signal_data st)))
     = leads (committed st)) /\
  (exists cs,
     companies (committed
                  (fst (process_signal fuzz_ratio inference_engine utcnow
                          signal_data st)))
       = companies (committed st) ++ cs) /\
  (forall c,
     snd (_find_or_create_company fuzz_ratio signal_data st) = Some c ->
     In c (companies (committed
                        (fst (process_signal fuzz_ratio inference_engine utcnow
                                signal_data st))))).
Proof.
  intros Hclean.
  pose proof (find_or_create_company_frame signal_data st) as F1.
  cbv zeta in F1.
  destruct F1 as (Fl & _ & _ & _ & (cs & Fc) & Fclean & Fin).
  specialize (Fclean Hclean).
  revert Fl Fc Fclean Fin.
  run_body signal_data st; simpl fst; simpl snd;
    intros Fl Fc Fclean Fin; unfold clean in *;
    try (destruct Hsrc as (Gl & _ & Gc & _ & Gclean & _));
    try (rewrite (proj1 (notify_tables _ _ _)), (proj2 (notify_tables _ _ _));
         unfold add_lead; simpl committed; simpl working; simpl leads;
         simpl companies).
  all: repeat split; try discriminate; try (intros _); try (exists cs);
    try (intros c0 Hc0; specialize (Fin c0 Hc0));
    unfold db_rollback; simpl committed; congruence.
Qed.

(** C1, as the code has it. [process_signal] returns a value in every
    case: when the [try] block raises, the [except] clause rolls the
    session back and the result is [None].  Started on a clean session it
    ends on a clean one, and a call that returns [None] adds no lead.  But
    what the block committed on its way stays committed: the committed
    companies only grow, and the company step 1 matched or created and
    the source step 2 upserted are in the committed database afterwards
    even when a later step raised. *)
Theorem process_signal_failure_keeps_committed_rows
    (signal_data : Signal.t) (st : State) :
  clean st ->
  (forall st1 e,
      process_signal_body fuzz_ratio inference_engine utcnow signal_data st
        = (st1, Raised e) ->
      process_signal fuzz_ratio inference_engine utcnow signal_data st
        = (db_rollback st1, None)) /\
  clean (fst (process_signal fuzz_ratio inference_engine utcnow signal_data st)) /\
  (snd (process_signal fuzz_ratio inference_engine utcnow signal_data st) = None ->
   leads (committed
            (fst (process_signal fuzz_ratio inference_engine utcnow signal_data st)))
     = leads (committed st)) /\
  (exists cs,
     companies (committed
                  (fst (process_signal fuzz_ratio inference_engine utcnow
                          signal_data st)))
       = companies (committed st) ++ cs) /\
  (forall c,
     snd (_find_or_create_company fuzz_ratio signal_data st) = Some c ->
     In c (companies (committed
                        (fst (process_signal fuzz_ratio inference_engine utcnow
                                signal_data st)))) /\
     (forall domain,
         Signal.source_domain signal_data = Some domain ->
         exists source,
           Source.domain source = domain /\
           In source
              (sources (committed
                          (fst (process_signal fuzz_ratio inference_engine
                                  utcnow signal_data st)))))).
Proof.
  intros Hclean.
  destruct (process_signal_effects signal_data st Hclean)
    as (Hc & Hleads & Hcompanies & Hin).
  split.
  { intros st1 e Hbody. unfold process_signal. rewrite Hbody. reflexivity. }
  split; [exact Hc|]. split; [exact Hleads|]. split; [exact Hcompanies|].
  intros c Hresolved. split; [exact (Hin c Hresolved)|].
  intros domain Hdomain.
  exact (process_signal_source_persisted signal_data st c domain Hresolved
           Hdomain).
Qed.

(** The gate of [process_signal], whatever the engine: a lead is persisted
    only when the composite score is not below 30, and then with that
    score; a signal whose score is below 30 returns [None] and adds no
    lead, one whose score is not below 30 gets its lead. *)
Lemma score_gate_any_engine (signal_data : Signal.t) (st : State) :
  (forall id,
      snd (process_signal fuzz_ratio inference_engine utcnow signal_data st)
        = Some id ->
      exists score lead,
        composite_score fuzz_ratio inference_engine signal_data st = Some score /\
        (score <? 30)%float = false /\
        Lead.id lead = id /\ Lead.lead_score lead = score /\
        leads (committed
                 (fst (process_signal fuzz_ratio inference_engine utcnow
                         signal_data st)))
          = leads (working st) ++ [lead]) /\
  (forall score,
      composite_score fuzz_ratio inference_engine signal_data st = Some score ->
      (score <? 30)%float = true ->
      snd (process_signal fuzz_ratio inference_engine utcnow signal_data st) = None /\
      leads (committed
               (fst (process_signal fuzz_ratio inference_engine utcnow
                       signal_data st)))
        = leads (working st)) /\
  (forall score,
      composite_score fuzz_ratio inference_engine signal_data st = Some score ->
      (score <? 30)%float = false ->
      exists id,
        snd (process_signal fuzz_ratio inference_engine utcnow signal_data st)
          = Some id) /\
  (composite_score fuzz_ratio inference_engine signal_data st = Some 29.99%float ->
   snd (process_signal fuzz_ratio inference_engine utcnow signal_data st) = None /\
   leads (committed
            (fst (process_signal fuzz_ratio inference_engine utcnow
                    signal_data st)))
     = leads (working st)) /\
  (composite_score fuzz_ratio inference_engine signal_data st = Some 30.0%float ->
   exists id,
     snd (process_signal fuzz_ratio inference_engine utcnow signal_data st)
       = Some id).
Proof.
  assert (Hlow : forall score,
    composite_score fuzz_ratio inference_engine signal_data st = Some score ->
    (score <? 30)%float = true ->
    snd (process_signal fuzz_ratio inference_engine utcnow signal_data st) = None /\
    leads (committed
             (fst (process_signal fuzz_ratio inference_engine utcnow
                     signal_data st)))
      = leads (working st)).
  { intros score. unfold composite_score.
    pose proof (find_or_create_company_frame signal_data st) as F1.
    cbv zeta in F1. destruct F1 as (Fl & _).
    revert Fl.
    run_body signal_data st; simpl fst; simpl snd; cbv beta iota;
      intros Fl Hscore Hlt; try discriminate Hscore.
    - destruct Hsrc as (Gl & _ & _ & _ & Gclean & _). unfold clean in Gclean.
      split; [reflexivity | congruence].
    - injection Hscore as <-. congruence. }
  assert (Hhigh : forall score,
    composite_score fuzz_ratio inference_engine signal_data st = Some score ->
    (score <? 30)%float = false ->
    exists id,
      snd (process_signal fuzz_ratio inference_engine utcnow signal_data st)
        = Some id).
  { intros score. unfold composite_score.
    run_body signal_data st; simpl fst; simpl snd; cbv beta iota;
      intros Hscore Hge; try discriminate Hscore.
    - injection Hscore as <-. congruence.
    - eexists. reflexivity. }
  split; [| split; [exact Hlow | split; [exact Hhigh | split]]].
  - intros id. unfold composite_score.
    pose proof (find_or_create_company_frame signal_data st) as F1.
    cbv zeta in F1. destruct F1 as (Fl & _).
    revert Fl.
    run_body signal_data st; simpl fst; simpl snd; cbv beta iota;
      intros Fl Hid; try discriminate Hid.
    injection Hid as <-.
    destruct Hsrc as (Gl & _).
    match goal with
    | |- context [add_lead ?L _] => exists (Lead.lead_score L), L
    end.
    split; [reflexivity|]. split; [exact Hgate|].
    split; [reflexivity|]. split; [reflexivity|].
    rewrite (proj1 (notify_tables _ _ _)). unfold add_lead. simpl.
    congruence.
  - intros H. apply (Hlow _ H). reflexivity.
  - intros H. apply (Hhigh _ H). reflexivity.
Qed.

Lemma territory_of_rule (signal_data : Signal.t) (company : Company.t)
    (locations : list string) :
  territory_of signal_data company locations
    = territory_rule (Signal.state signal_data) (Company.state company) locations.
Proof.
  unfold territory_of, territory_rule, PyStr.or_opt, PyStr.truthy_opt, supplied.
  destruct (Signal.state signal_data) as [[|a s]|];
    destruct (Company.state company) as [[|b t]|]; reflexivity.
Qed.

Lemma territory_rule_nonempty (signal_state company_state : option string)
    (locations : list string) :
  ~ In "" locations ->
  territory_rule signal_state company_state locations <> Some "".
Proof.
  intros Hloc. unfold territory_rule, supplied.
  destruct signal_state as [[|a s]|]; simpl; try discriminate;
    destruct company_state as [[|b t]|]; simpl; try discriminate;
    destruct locations as [|l ls]; simpl; try discriminate;
    intros [= ->]; apply Hloc; left; reflexivity.
Qed.

Lemma officer_for_officers (territory : option string) (st st' : State) :
  officers (working st') = officers (working st) ->
  officer_for territory st' = officer_for territory st.
Proof.
  intros H. unfold officer_for, _assign_officer. rewrite H. reflexivity.
Qed.

(** C10. The lead of an accepted signal has as territory the signal's
    state if supplied, else the company's state if supplied, else the
    first extracted location, else none, where an empty string counts as
    not supplied.  So an empty-string state is never the territory (no
    extracted location being empty); the officer is the one routing gives
    for that territory, and a lead without territory has no officer: an
    empty state assigns none by itself. *)
Theorem empty_state_is_no_territory (signal_data : Signal.t) (st : State)
    (id : nat) :
  snd (process_signal fuzz_ratio inference_engine utcnow signal_data st) = Some id ->
  exists company text lead,
    snd (_find_or_create_company fuzz_ratio signal_data st) = Some company /\
    Signal.signal_text signal_data = Some text /\
    In lead (leads (committed
                      (fst (process_signal fuzz_ratio inference_engine utcnow
                              signal_data st)))) /\
    Lead.id lead = id /\
    Lead.territory_state lead
      = territory_rule (Signal.state signal_data) (Company.state company)
          (engine_extract_location inference_engine text) /\
    (~ In "" (engine_extract_location inference_engine text) ->
     Lead.territory_state lead <> Some "") /\
    Lead.assigned_officer_id lead
      = option_map Officer.id (officer_for (Lead.territory_state lead) st) /\
    (Lead.territory_state lead = None \/ Lead.territory_state lead = Some "" ->
     Lead.assigned_officer_id lead = None) /\
    (supplied (Signal.state signal_data) = None ->
     supplied (Company.state company) = None ->
     engine_extract_location inference_engine text = [] ->
     Lead.territory_state lead = None /\ Lead.assigned_officer_id lead = None).
Proof.
  run_body signal_data st; simpl fst; simpl snd; cbv beta iota;
    intros Hid; try discriminate Hid.
  injection Hid as <-.
  exists company, text.
  match goal with |- context [add_lead ?L _] => exists L end.
  split; [reflexivity|]. split; [reflexivity|].
  split.
  { rewrite (proj1 (notify_tables _ _ _)). unfold add_lead. simpl.
    apply in_or_app. right. left. reflexivity. }
  split; [reflexivity|].
  simpl Lead.territory_state. simpl Lead.assigned_officer_id.
  rewrite territory_of_rule.
  split; [reflexivity|].
  split; [apply territory_rule_nonempty|].
  split.
  { f_equal. apply officer_for_officers.
    pose proof (find_or_create_company_frame signal_data st) as F1.
    cbv zeta in F1. rewrite Hfocc in F1. simpl fst in F1.
    destruct F1 as (_ & Fo & _). destruct Hsrc as (_ & Go & _). congruence. }
  assert (Hnone :
    territory_rule (Signal.state signal_data) (Company.state company)
      (engine_extract_location inference_engine text) = None \/
    territory_rule (Signal.state signal_data) (Company.state company)
      (engine_extract_location inference_engine text) = Some "" ->
    option_map Officer.id
      (officer_for
         (territory_rule (Signal.state signal_data) (Company.state company)
            (engine_extract_location inference_engine text)) st2) = None).
  { intros [-> | ->]; reflexivity. }
  split; [exact Hnone|].
  intros Hs Hc Hl.
  assert (Ht : territory_rule (Signal.state signal_data) (Company.state company)
                 (engine_extract_location inference_engine text) = None).
  { unfold territory_rule. rewrite Hs, Hc, Hl. reflexivity. }
  split; [exact Ht | apply Hnone; left; exact Ht].
Qed.

End Pipeline.

(** ** Entity resolution on a blank name *)

Lemma lstrip_empty_iff (s : string) : PyStr.lstrip s = "" <-> blank s = true.
Proof.
  induction s as [|c t IH]; simpl; [tauto|].
  destruct (PyStr.is_space c); simpl; [exact IH | split; discriminate].
Qed.

Lemma rstrip_empty_iff (s : string) : PyStr.rstrip s = "" <-> blank s = true.
Proof.
  induction s as [|c t IH]; simpl; [tauto|].
  destruct (PyStr.rstrip t) as [|d u].
  - destruct (PyStr.is_space c); simpl.
    + split; [intros _; apply IH; reflexivity | reflexivity].
    + split; discriminate.
  - split; [discriminate|].
    intros H. apply andb_true_iff in H. destruct H as [_ H].
    apply IH in H. discriminate H.
Qed.

Lemma lstrip_blank (s : string) : blank (PyStr.lstrip s) = true -> blank s = true.
Proof.
  induction s as [|c t IH]; simpl; [auto|].
  destruct (PyStr.is_space c) eqn:Hc; simpl; [exact IH|].
  rewrite Hc. simpl. discriminate.
Qed.

Lemma strip_empty_iff (s : string) : PyStr.strip s = "" <-> blank s = true.
Proof.
  unfold PyStr.strip. rewrite rstrip_empty_iff. split.
  - apply lstrip_blank.
  - intros H. apply lstrip_empty_iff in H. rewrite H. reflexivity.
Qed.

(** C4, as the code has it. The resolver returns [None] exactly when the
    company name is empty after trimming, that is when it is missing or
    made of white space only; the [try] block then completes with [None]
    and nothing is raised.  For any other name it returns a company of
    the repository, and one it had to create is committed by the call. *)
Theorem resolver_none_iff_blank_name
    (fuzz_ratio : string -> string -> Z) (signal_data : Signal.t) (st : State) :
  (snd (_find_or_create_company fuzz_ratio signal_data st) = None
     <-> candidate_name signal_data = "") /\
  (candidate_name signal_data = ""
     <-> blank (get_or (Signal.company_name signal_data) "") = true) /\
  (candidate_name signal_data = "" ->
   _find_or_create_company fuzz_ratio signal_data st = (st, None) /\
   forall engine utcnow,
     process_signal_body fuzz_ratio engine utcnow signal_data st
       = (st, Returned None)) /\
  (forall c,
     snd (_find_or_create_company fuzz_ratio signal_data st) = Some c ->
     In c (companies
             (working (fst (_find_or_create_company fuzz_ratio signal_data st)))) /\
     (~ In c (companies (working st)) ->
      In c (companies
              (committed
                 (fst (_find_or_create_company fuzz_ratio signal_data st)))))).
Proof.
  assert (Hblank : candidate_name signal_data = "" ->
                   _find_or_create_company fuzz_ratio signal_data st = (st, None)).
  { intros H. unfold _find_or_create_company.
    fold (candidate_name signal_data). rewrite H. reflexivity. }
  split; [| split; [apply strip_empty_iff | split]].
  - split.
    + unfold _find_or_create_company. fold (candidate_name signal_data).
      destruct (PyStr.truthy (candidate_name signal_data)) eqn:Ht.
      * simpl negb. cbv iota.
        destruct (find _ _); [discriminate|].
        destruct (fuzzy_match _ _ _); discriminate.
      * intros _. apply truthy_false_iff. exact Ht.
    + intros H. rewrite (Hblank H). reflexivity.
  - intros H. split; [exact (Hblank H)|].
    intros engine utcnow. unfold process_signal_body.
    rewrite (Hblank H). reflexivity.
  - intros c Hc.
    split; [apply (find_or_create_company_frame fuzz_ratio signal_data st); exact Hc|].
    revert Hc. unfold _find_or_create_company.
    destruct (PyStr.truthy _); simpl negb; cbv iota; [|discriminate].
    destruct (find _ (companies (working st))) as [c1|] eqn:Hexact.
    { simpl. intros [= <-] Hnot. exfalso. apply Hnot.
      apply (find_some _ _ Hexact). }
    destruct (fuzzy_match _ _ _) as [c1|] eqn:Hfuzzy.
    { simpl. intros [= <-] Hnot. exfalso. apply Hnot.
      apply (fuzzy_match_in _ _ _ _ Hfuzzy). }
    simpl. intros [= <-] _. apply in_or_app. right. left. reflexivity.
Qed.

(** C4, the claim as stated fails: on a name of three spaces the resolver
    returns the value [None] and the [try] block of [process_signal]
    completes with it; no error of any kind is raised. *)
Lemma blank_name_returns_none_without_error :
  _find_or_create_company Fuzz.ratio (name_only "   ") empty_state
    = (empty_state, None) /\
  process_signal_body Fuzz.ratio default_engine 0 (name_only "   ") empty_state
    = (empty_state, Returned None).
Proof. split; vm_compute; reflexivity. Qed.

(** ** Entity resolution on concrete repositories *)

(** C3, the claim as stated fails. (1) With "Tata Steels Limited" (id 1,
    similarity 89) stored before "Tata Steel Limited" (id 2, similarity
    91), the candidate "The Tata Steel Limited" resolves to id 1: the
    first company above the threshold, not the highest-scoring one.
    (2) The candidate "Adani Power Mumbai Limited" is exactly 85 similar
    to the stored "Adani Power Limited" and does not resolve to it: a new
    record with id 2 is created. *)
Lemma first_match_wins_and_85_is_rejected :
  similarity Fuzz.ratio (name_only "The Tata Steel Limited") tata_steels = 89%Z /\
  similarity Fuzz.ratio (name_only "The Tata Steel Limited") tata_steel = 91%Z /\
  snd (_find_or_create_company Fuzz.ratio (name_only "The Tata Steel Limited")
         (state_of_companies [tata_steels; tata_steel]))
    = Some tata_steels /\
  similarity Fuzz.ratio (name_only "Adani Power Mumbai Limited") adani_power
    = 85%Z /\
  option_map Company.id
    (snd (_find_or_create_company Fuzz.ratio
            (name_only "Adani Power Mumbai Limited")
            (state_of_companies [adani_power])))
    = Some 2%nat.
Proof. repeat split; vm_compute; reflexivity. Qed.

(** "Tata Steel Ltd" is 86 similar to the stored "Tata Steel Limited" and
    resolves to it. *)
Lemma fuzzy_resolution_witness :
  similarity Fuzz.ratio (name_only "Tata Steel Ltd") tata_steel = 86%Z /\
  _find_or_create_company Fuzz.ratio (name_only "Tata Steel Ltd")
    (state_of_companies [tata_steel])
  = (state_of_companies [tata_steel], Some tata_steel).
Proof.
  split; [vm_compute; reflexivity|].
  apply (proj1 (fuzzy_resolution_first_above_85 Fuzz.ratio
                  (name_only "Tata Steel Ltd") (state_of_companies [tata_steel])
                  ltac:(vm_compute; discriminate)
                  ltac:(vm_compute; reflexivity))
           [] tata_steel []).
  - reflexivity.
  - constructor.
  - vm_compute. reflexivity.
Defined.

Lemma resolve_twice_witness :
  exists c,
    snd (_find_or_create_company Fuzz.ratio (name_only "Tata Power Limited")
           (state_of_companies [tata_steel])) = Some c /\
    snd (_find_or_create_company Fuzz.ratio (name_only "Tata Power Limited")
           (fst (_find_or_create_company Fuzz.ratio
                   (name_only "Tata Power Limited")
                   (state_of_companies [tata_steel])))) = Some c /\
    In c (companies
            (working
               (fst (_find_or_create_company Fuzz.ratio
                       (name_only "Tata Power Limited")
                       (state_of_companies [tata_steel]))))) /\
    option_map Company.id
      (snd (_find_or_create_company Fuzz.ratio (name_only "Tata Power Limited")
              (state_of_companies [tata_steel]))) = Some 3%nat.
Proof.
  destruct (resolve_twice_same_company Fuzz.ratio
              (name_only "Tata Power Limited")
              (state_of_companies [tata_steel])) as (_ & _ & _ & Hsome).
  destruct Hsome as (c & Hfirst & Hsecond & Hin & _).
  - vm_compute. discriminate.
  - exists c. split; [exact Hfirst|]. split; [exact Hsecond|].
    split; [exact Hin|]. vm_compute. reflexivity.
Defined.

Example tata_power_is_a_new_company :
  similarity Fuzz.ratio (name_only "Tata Power Limited") tata_steel = 75%Z /\
  option_map Company.id
    (snd (_find_or_create_company Fuzz.ratio (name_only "Tata Power Limited")
            (state_of_companies [tata_steel])))
    = Some 3%nat.
Proof. split; vm_compute; reflexivity. Qed.

(** ** The pipeline on concrete signals *)

(** C1, the claim as stated fails: a signal without its [source_domain]
    key makes the [try] block raise [KeyError] after step 1 has created
    and committed the company; [process_signal] returns [None], and the
    company "Acme Corp" is in the committed database, which was empty. *)
Lemma failure_after_company_commit :
  snd (process_signal_body Fuzz.ratio default_engine 0
         (name_only "Acme Corp") empty_state)
    = Raised (KeyError "source_domain") /\
  snd (process_signal Fuzz.ratio default_engine 0
         (name_only "Acme Corp") empty_state) = None /\
  map Company.name
    (companies (committed
                  (fst (process_signal Fuzz.ratio default_engine 0
                          (name_only "Acme Corp") empty_state))))
    = ["Acme Corp"] /\
  companies (committed empty_state) = [].
Proof. repeat split; vm_compute; reflexivity. Qed.

(** The same signal, through the theorem: the session ends clean, no lead
    was added, and the resolved company is committed. *)
Lemma failure_keeps_company_witness :
  clean empty_state /\
  clean (fst (process_signal Fuzz.ratio default_engine 0
                (name_only "Acme Corp") empty_state)) /\
  leads (committed
           (fst (process_signal Fuzz.ratio default_engine 0
                   (name_only "Acme Corp") empty_state)))
    = leads (committed empty_state) /\
  In (company_named 1 "Acme Corp")
     (companies (committed
                   (fst (process_signal Fuzz.ratio default_engine 0
                           (name_only "Acme Corp") empty_state)))).
Proof.
  pose proof (process_signal_failure_keeps_committed_rows Fuzz.ratio
                default_engine 0 (name_only "Acme Corp") empty_state eq_refl)
    as (_ & Hclean & Hleads & _ & Hin).
  split; [reflexivity|]. split; [exact Hclean|].
  split; [apply Hleads; vm_compute; reflexivity|].
  apply Hin. vm_compute. reflexivity.
Defined.

(** A signal whose state is the empty string, whose company is new and
    whose text names Maharashtra: the lead's territory is the extracted
    location, whose officer gets the lead. *)
Lemma empty_state_witness :
  snd (process_signal Fuzz.ratio default_engine 0
         (signal_in "Acme Bitumen Works"
            "Tender for bitumen supply for highway project in Maharashtra"
            "gem.gov.in" "")
         officers_only) = Some 1%nat /\
  exists lead,
    In lead
       (leads (committed
                 (fst (process_signal Fuzz.ratio default_engine 0
                         (signal_in "Acme Bitumen Works"
                            "Tender for bitumen supply for highway project in Maharashtra"
                            "gem.gov.in" "")
                         officers_only)))) /\
    Lead.id lead = 1%nat /\
    Lead.territory_state lead = Some "Maharashtra" /\
    Lead.assigned_officer_id lead = Some 1%nat.
Proof.
  assert (H : snd (process_signal Fuzz.ratio default_engine 0
                     (signal_in "Acme Bitumen Works"
                        "Tender for bitumen supply for highway project in Maharashtra"
                        "gem.gov.in" "")
                     officers_only) = Some 1%nat)
    by (vm_compute; reflexivity).
  split; [exact H|].
  destruct (empty_state_is_no_territory Fuzz.ratio default_engine 0 _ _ _ H)
    as (company & text & lead & Hc & Ht & Hin & Hid & Hterr & _ & Hoff & _).
  vm_compute in Hc. injection Hc as <-.
  vm_compute in Ht. injection Ht as <-.
  exists lead. split; [exact Hin|]. split; [exact Hid|].
  assert (Hterr' : Lead.territory_state lead = Some "Maharashtra")
    by (rewrite Hterr; vm_compute; reflexivity).
  split; [exact Hterr'|].
  rewrite Hoff, Hterr'. vm_compute. reflexivity.
Defined.

(** The same signal on a database without officers and with a text that
    names no state: the lead has no territory and no officer. *)
Example empty_state_and_no_location :
  map (fun lead => (Lead.territory_state lead, Lead.assigned_officer_id lead))
    (leads (committed
              (fst (process_signal Fuzz.ratio default_engine 0
                      (signal_in "Acme Bitumen Works"
                         "Tender for bitumen supply for highway project"
                         "gem.gov.in" "")
                      officers_only))))
  = [(None, None)].
Proof. vm_compute. reflexivity. Qed.

(** The score gate at its two boundary values, with an engine that reports
    the score as given. *)
Example score_29_99_is_rejected :
  composite_score Fuzz.ratio (fixed_score_engine 29.99) (plain_signal "Acme" "x" "d")
    empty_state = Some 29.99%float /\
  snd (process_signal Fuzz.ratio (fixed_score_engine 29.99) 0
         (plain_signal "Acme" "x" "d") empty_state) = None /\
  leads (committed
           (fst (process_signal Fuzz.ratio (fixed_score_engine 29.99) 0
                   (plain_signal "Acme" "x" "d") empty_state))) = [].
Proof. repeat split; vm_compute; reflexivity. Qed.

Example score_30_is_accepted :
  composite_score Fuzz.ratio (fixed_score_engine 30.0) (plain_signal "Acme" "x" "d")
    empty_state = Some 30.0%float /\
  snd (process_signal Fuzz.ratio (fixed_score_engine 30.0) 0
         (plain_signal "Acme" "x" "d") empty_state) = Some 1%nat /\
  map Lead.lead_score
    (leads (committed
              (fst (process_signal Fuzz.ratio (fixed_score_engine 30.0) 0
                      (plain_signal "Acme" "x" "d") empty_state))))
    = [30.0%float].
Proof. repeat split; vm_compute; reflexivity. Qed.

(** With the real engine: one keyword (0.4) and one equipment term (0.3)
    of two products score exactly 30.0 and pass; one industry term of two
    products scores 24.0 and is dropped. *)
Example real_signal_at_the_gate :
  composite_score Fuzz.ratio default_engine
    (plain_signal "Acme" "kerosene paver" "d") empty_state = Some 30.0%float /\
  snd (process_signal Fuzz.ratio default_engine 0
         (plain_signal "Acme" "kerosene paver" "d") empty_state) = Some 1%nat /\
  composite_score Fuzz.ratio default_engine
    (plain_signal "Acme" "paint" "d") empty_state = Some 24.0%float /\
  snd (process_signal Fuzz.ratio default_engine 0
         (plain_signal "Acme" "paint" "d") empty_state) = None.
Proof. repeat split; vm_compute; reflexivity. Qed.

(** ** The batch entry point *)

Lemma batch_loop_counts (fuzz_ratio : string -> string -> Z)
    (engine : InferenceEngine) (utcnow : nat) (signals : list Signal.t) :
  forall (st : State) (results : BatchResults),
    let r := snd (batch_loop fuzz_ratio engine utcnow signals st results) in
    errors r = errors results /\
    processed r = (processed results + length signals)%nat /\
    (created r + skipped r
     = created results + skipped results + length signals)%nat.
Proof.
  induction signals as [|signal rest IH]; intros st results; simpl.
  - lia.
  - destruct (process_signal fuzz_ratio engine utcnow signal st)
      as [st' lead_id].
    destruct (lead_id_truthy lead_id);
      match goal with
      | |- context [batch_loop _ _ _ rest st' ?R] =>
          specialize (IH st' R); cbv zeta in IH; simpl in IH
      end; lia.
Qed.

(** Whatever the signals do, the batch reports no error: every signal is
    either created or skipped. *)
Lemma batch_never_counts_errors (fuzz_ratio : string -> string -> Z)
    (engine : InferenceEngine) (utcnow : nat) (signals : list Signal.t)
    (st : State) :
  errors (snd (batch_process_signals fuzz_ratio engine utcnow signals st)) = 0%nat /\
  processed (snd (batch_process_signals fuzz_ratio engine utcnow signals st))
    = length signals /\
  (created (snd (batch_process_signals fuzz_ratio engine utcnow signals st))
   + skipped (snd (batch_process_signals fuzz_ratio engine utcnow signals st))
   = length signals)%nat.
Proof.
  unfold batch_process_signals.
  pose proof (batch_loop_counts fuzz_ratio engine utcnow signals st
                (mkResults 0 0 0 0)) as H.
  cbv zeta in H. simpl in H. exact H.
Qed.

(** C2, the code on the batch of the statement. Of the five signals the
    second and the fourth score 24 and stop at the score gate, the third
    raises [KeyError] inside [process_signal], the other two become
    leads; the batch reports 3 skipped and 0 errors. *)
Theorem batch_counts_the_error_as_skipped :
  composite_score Fuzz.ratio default_engine (nth 1 batch_of_five (name_only ""))
    (state_after 1) = Some 24.0%float /\
  snd (process_signal_body Fuzz.ratio default_engine 0
         (nth 2 batch_of_five (name_only "")) (state_after 2))
    = Raised (KeyError "source_domain") /\
  composite_score Fuzz.ratio default_engine (nth 3 batch_of_five (name_only ""))
    (state_after 3) = Some 24.0%float /\
  snd (batch_process_signals Fuzz.ratio default_engine 0 batch_of_five
         empty_state)
    = mkResults 5 2 3 0.
Proof. repeat split; vm_compute; reflexivity. Qed.

(** ** The classifier: ranking *)

(** C5, the code on a text where two products tie at 0.6. SKO, declared
    fifth, matches two equipment terms (0.3 + 0.3); Bitumen, declared
    tenth, matches a keyword and an industry term (0.4 + 0.2).  In binary
    floating point the second sum is the larger, so Bitumen is ranked
    first although both confidences are 0.6. *)
Theorem tie_ranked_against_declaration_order :
  map (fun r => (product r, confidence r))
    (recommended_products
       (analyze_text
          "Road contractor needs bitumen for highway work, plus burner and lamp sets"))
    = [("Bitumen", 0.6%float); ("SKO", 0.6%float)] /\
  declaration_index "SKO" = Some 4%nat /\
  declaration_index "Bitumen" = Some 9%nat /\
  raw_score 0 2 0 = (0.3 + 0.3)%float /\
  raw_score 1 0 1 = (0.4 + 0.2)%float /\
  (raw_score 0 2 0 <? raw_score 1 0 1)%float = true /\
  PyFloat.round2 (raw_score 0 2 0) = PyFloat.round2 (raw_score 1 0 1).
Proof. repeat split; vm_compute; reflexivity. Qed.

(** ** The classifier: which scores it can produce *)

Lemma bump_succ_first (w : float) (n : nat) (s : float) :
  bump w n (s + w)%float = bump w (S n) s.
Proof.
  unfold bump. induction n as [|n IH]; simpl; [reflexivity|].
  rewrite IH. reflexivity.
Qed.

(** An inner loop adds its weight once per term found, and nothing else. *)
Lemma scan_terms_score (text : string) (w : float) (label : string -> string)
    (terms : list string) :
  forall (s : float) (reasons found : list string),
  exists n, (n <= length terms)%nat /\
    fst (fst (scan_terms text w label terms s reasons found)) = bump w n s.
Proof.
  induction terms as [|t rest IH]; intros s reasons found; simpl.
  - exists 0%nat. split; [lia | reflexivity].
  - destruct (PyStr.contains (PyStr.lower t) text).
    + destruct (IH (s + w)%float (reasons ++ [label t]) (found ++ [t]))
        as (n & Hn & ->).
      exists (S n). split; [lia | apply bump_succ_first].
    + destruct (IH s reasons found) as (n & Hn & ->).
      exists n. split; [lia | reflexivity].
Qed.

Lemma score_product_raw (text : string) (data : ProductData)
    (dk de : list string) :
  exists k e i,
    (k <= length (keywords data))%nat /\
    (e <= length (equipment data))%nat /\
    (i <= length (industries data))%nat /\
    fst (fst (fst (score_product text data dk de))) = raw_score k e i.
Proof.
  unfold score_product, raw_score.
  destruct (scan_terms_score text 0.4 keyword_reason (keywords data)
              0%float [] dk) as (k & Hk & Ek).
  destruct (scan_terms text 0.4 keyword_reason (keywords data) 0%float [] dk)
    as [[s1 r1] dk1].
  simpl in Ek. subst s1.
  destruct (scan_terms_score text 0.3 equipment_reason (equipment data)
              (bump 0.4 k 0) r1 de) as (e & He & Ee).
  destruct (scan_terms text 0.3 equipment_reason (equipment data)
              (bump 0.4 k 0) r1 de) as [[s2 r2] de2].
  simpl in Ee. subst s2.
  destruct (scan_terms_score text 0.2 industry_reason (industries data)
              (bump 0.3 e (bump 0.4 k 0)) r2 []) as (i & Hi & Ei).
  destruct (scan_terms text 0.2 industry_reason (industries data)
              (bump 0.3 e (bump 0.4 k 0)) r2 []) as [[s3 r3] x3].
  simpl in Ei. subst s3.
  exists k, e, i. simpl. auto.
Qed.

(** No product of the catalogue has more than 6 keywords, 6 equipment
    terms or 5 industry terms. *)
Lemma catalogue_lengths :
  Forall (fun entry =>
            (length (keywords (snd entry)) <= 6)%nat /\
            (length (equipment (snd entry)) <= 6)%nat /\
            (length (industries (snd entry)) <= 5)%nat)
         product_keywords.
Proof. unfold product_keywords. repeat constructor; simpl; lia. Qed.

Lemma scan_products_reachable (text : string)
    (catalogue : list (string * ProductData)) :
  Forall (fun entry =>
            (length (keywords (snd entry)) <= 6)%nat /\
            (length (equipment (snd entry)) <= 6)%nat /\
            (length (industries (snd entry)) <= 5)%nat)
         catalogue ->
  forall (acc : list Scored) (dk de : list string),
    Forall reachable acc ->
    Forall reachable (fst (fst (scan_products text catalogue acc dk de))).
Proof.
  intros Hcat. induction Hcat as [|[name data] rest Hlen _ IH];
    intros acc dk de Hacc; simpl.
  - exact Hacc.
  - destruct (score_product_raw text data dk de)
      as (k & e & i & Hk & He & Hi & Hraw).
    destruct (score_product text data dk de) as [[[score reasons] dk'] de'].
    simpl in Hraw. subst score. simpl in Hlen.
    apply IH.
    destruct (0 <? raw_score k e i)%float eqn:Hpos; [| exact Hacc].
    apply Forall_app. split; [exact Hacc|].
    constructor; [| constructor].
    exists k, e, i. repeat split; try lia; assumption.
Qed.

Lemma insert_desc_in (x y : Scored) (l : list Scored) :
  In y (insert_desc x l) -> y = x \/ In y l.
Proof.
  induction l as [|z l IH]; simpl.
  - intros [H | []]. left. symmetry. exact H.
  - destruct (scored_score x <? scored_score z)%float; simpl.
    + intros [H | H]; [right; left; exact H|].
      destruct (IH H) as [H' | H']; [left | right; right]; exact H'.
    + intros [H | H]; [left; symmetry; exact H | right; exact H].
Qed.

Lemma sorted_desc_in (y : Scored) (l : list Scored) :
  In y (sorted_desc l) -> In y l.
Proof.
  unfold sorted_desc. induction l as [|x l IH]; simpl; [auto|].
  intros H. destruct (insert_desc_in _ _ _ H) as [-> | H']; auto.
Qed.

Lemma firstn_in {A : Type} (n : nat) (l : list A) (x : A) :
  In x (firstn n l) -> In x l.
Proof.
  revert l. induction n as [|n IH]; intros [|a l]; simpl; try tauto.
  intros [H | H]; [left; exact H | right; apply IH; exact H].
Qed.

(** Splits on the value of a natural number that the context bounds. *)
Ltac cases_upto n :=
  first [ solve [exfalso; lia]
        | destruct n as [|n]; [ | cases_upto n ] ].

(** The confidence of a stored item is one of 0.2, 0.3, ..., 1.0. *)
Lemma reachable_confidence (x : Scored) :
  reachable x -> In (PyFloat.round2 (scored_score x)) confidence_values.
Proof.
  intros (k & e & i & Hk & He & Hi & Hpos & ->).
  revert Hpos.
  cases_upto k; cases_upto e; cases_upto i;
  clear; intros Hpos;
  first [ discriminate Hpos
        | vm_compute; repeat first [left; reflexivity | right] ].
Qed.

Lemma lists_upto_complete {A : Type} (values : list A) (n : nat) :
  forall l : list A,
    (length l <= n)%nat -> Forall (fun x => In x values) l ->
    In l (lists_upto n values).
Proof.
  induction n as [|n IH]; intros l Hlen Hall.
  - destruct l; [left; reflexivity | simpl in Hlen; lia].
  - destruct l as [|x l]; [left; reflexivity|].
    right. apply in_flat_map. exists x.
    inversion Hall as [|? ? Hx Hl]; subst.
    split; [exact Hx|].
    apply in_map. apply IH; [simpl in Hlen; lia | exact Hl].
Qed.

(** The recommendations of any text: at most three, each with one of the
    nine confidences. *)
Lemma analyze_text_confidences (text : string) :
  In (map confidence (recommended_products (analyze_text text)))
     (lists_upto 3 confidence_values).
Proof.
  unfold analyze_text.
  pose proof (scan_products_reachable (PyStr.lower text) product_keywords
                catalogue_lengths [] [] [] (Forall_nil _)) as Hreach.
  destruct (scan_products (PyStr.lower text) product_keywords [] [] [])
    as [[ps dk] de].
  simpl in Hreach. cbn [recommended_products].
  apply lists_upto_complete.
  - rewrite !length_map. apply firstn_le_length.
  - rewrite map_map. apply Forall_map. apply Forall_forall.
    intros x Hx. simpl.
    apply reachable_confidence.
    rewrite Forall_forall in Hreach. apply Hreach.
    apply sorted_desc_in. apply (firstn_in 3). exact Hx.
Qed.

Lemma analyze_text_intent (text : string) :
  In (intent_bucket (intent_strength (analyze_text text))) intent_values.
Proof.
  rewrite analyze_text_intent_strength.
  unfold _calculate_intent_strength.
  destruct (0 <? _)%nat; [left; reflexivity|].
  destruct (0 <? _)%nat; [right; left | right; right; left]; reflexivity.
Qed.

Lemma calculate_urgency_values (text : string) :
  In (_calculate_urgency text) urgency_values.
Proof.
  unfold _calculate_urgency, urgency_keywords.
  cbn [fold_left fst snd].
  repeat match goal with
         | |- context [PyStr.contains ?k text] =>
             destruct (PyStr.contains k text)
         end;
    vm_compute; repeat first [left; reflexivity | right].
Qed.

Lemma analyze_text_urgency (text : string) :
  In (urgency_score (analyze_text text)) urgency_values.
Proof.
  unfold analyze_text.
  destruct (scan_products (PyStr.lower text) product_keywords [] [] [])
    as [[ps dk] de].
  simpl. apply calculate_urgency_values.
Qed.

Lemma size_bucket_values (size : string) : In (size_bucket size) size_values.
Proof.
  unfold size_bucket, size_values.
  repeat match goal with
         | |- context [String.eqb size ?k] => destruct (String.eqb size k)
         end; simpl; auto 6.
Qed.

Lemma intent_scores_bucket (intent : string) :
  dict_get intent_scores intent 10%float = intent_bucket intent.
Proof.
  unfold dict_get, intent_scores, intent_bucket.
  rewrite !(String.eqb_sym _ intent).
  destruct (String.eqb intent "high"); [reflexivity|].
  destruct (String.eqb intent "medium"); [reflexivity|].
  destruct (String.eqb intent "low"); reflexivity.
Qed.

Lemma size_scores_bucket (size : string) :
  dict_get size_scores size 6%float = size_bucket size.
Proof.
  unfold dict_get, size_scores, size_bucket.
  rewrite !(String.eqb_sym _ size).
  destruct (String.eqb size "enterprise"); [reflexivity|].
  destruct (String.eqb size "large"); [reflexivity|].
  destruct (String.eqb size "medium"); [reflexivity|].
  destruct (String.eqb size "small"); reflexivity.
Qed.

Lemma sum_confidence_map (ps : list Recommendation) (acc : float) :
  fold_left (fun a p => (a + confidence p)%float) ps acc
  = fold_left PrimFloat.add (map confidence ps) acc.
Proof.
  revert acc. induction ps as [|p ps IH]; intros acc; simpl;
    [reflexivity | apply IH].
Qed.

(** [calculate_lead_score] is the weighted sum of the statement, clamped
    to 100 and then rounded to two decimals. *)
Lemma calculate_lead_score_formula (analysis : Analysis) (company_size : string) :
  calculate_lead_score analysis company_size
  = PyFloat.round2 (PyFloat.min (weighted_sum analysis company_size) 100).
Proof.
  unfold calculate_lead_score, weighted_sum.
  rewrite intent_scores_bucket, size_scores_bucket.
  destruct (recommended_products analysis) as [|p ps]; [reflexivity|].
  unfold confidence_part, mean_confidence, sum_confidence.
  rewrite sum_confidence_map, length_map. reflexivity.
Qed.

(** A property checked on every producible score holds of the score of
    every text and company size. *)
Lemma classifier_scores (P : float -> bool) :
  every_score P = true ->
  forall (text company_size : string),
    P (calculate_lead_score (analyze_text text) company_size) = true.
Proof.
  intros H text company_size.
  rewrite calculate_lead_score_formula. unfold weighted_sum.
  fold (score_of (map confidence (recommended_products (analyze_text text)))
          (intent_bucket (intent_strength (analyze_text text)))
          (urgency_score (analyze_text text)) (size_bucket company_size)).
  unfold every_score in H.
  rewrite forallb_forall in H.
  specialize (H _ (analyze_text_confidences text)).
  rewrite forallb_forall in H.
  specialize (H _ (analyze_text_intent text)).
  rewrite forallb_forall in H.
  specialize (H _ (analyze_text_urgency text)).
  rewrite forallb_forall in H.
  exact (H _ (size_bucket_values company_size)).
Qed.

(** Every producible score lies in [0, 100] and compares with 30: it is
    below 30 or at least 30. *)
Lemma every_score_gate_sound : every_score gate_sound = true.
Proof. vm_cast_no_check (eq_refl true). Qed.

Lemma gate_sound_split (x : float) :
  gate_sound x = true ->
  in_range x = true /\ ((x <? 30)%float = false -> (30 <=? x)%float = true).
Proof.
  unfold gate_sound. intros H. apply andb_true_iff in H. destruct H as [Hr Hc].
  split; [exact Hr|]. intros Hlt. rewrite Hlt in Hc. exact Hc.
Qed.

Lemma classifier_score_gate_sound (text company_size : string) :
  in_range (calculate_lead_score (analyze_text text) company_size) = true /\
  ((calculate_lead_score (analyze_text text) company_size <? 30)%float = false ->
   (30 <=? calculate_lead_score (analyze_text text) company_size)%float = true).
Proof.
  exact (gate_sound_split _
           (classifier_scores gate_sound every_score_gate_sound text
              company_size)).
Qed.

(** C6, as the code has it. For every analysis and company size the
    score is the weighted sum (mean confidence times 40, or 0 without
    recommendations; the intent bucket; urgency times 20; the size
    bucket), clamped to 100 and then rounded to two decimals; and the
    score of every analysis the classifier produces lies in [0, 100]. *)
Theorem lead_score_is_rounded_weighted_sum :
  (forall (analysis : Analysis) (company_size : string),
      calculate_lead_score analysis company_size
      = PyFloat.round2 (PyFloat.min (weighted_sum analysis company_size) 100)) /\
  (forall (text company_size : string),
      in_range (calculate_lead_score (analyze_text text) company_size) = true).
Proof.
  split.
  - exact calculate_lead_score_formula.
  - intros text company_size.
    apply (classifier_score_gate_sound text company_size).
Qed.

(** C6, the claim as stated fails: for the text below (confidences 1.0,
    0.4 and 0.3, low intent, no urgency, medium size) the weighted sum
    lies strictly between 38.66 and 38.67 (it is 38.666...), below the
    clamp, and the score returned is 38.67. *)
Lemma lead_score_is_not_the_plain_sum :
  map confidence
    (recommended_products (analyze_text "furnace oil boiler kiln kerosene"))
    = [1.0; 0.4; 0.3]%float /\
  (38.66 <?
   PyFloat.min
     (weighted_sum (analyze_text "furnace oil boiler kiln kerosene") "medium")
     100)%float = true /\
  (PyFloat.min
     (weighted_sum (analyze_text "furnace oil boiler kiln kerosene") "medium")
     100 <? 38.67)%float = true /\
  calculate_lead_score (analyze_text "furnace oil boiler kiln kerosene") "medium"
    = 38.67%float.
Proof. repeat split; vm_compute; reflexivity. Qed.

(** ** The score gate *)

Lemma composite_score_default (fuzz_ratio : string -> string -> Z)
    (signal_data : Signal.t) (st : State) (score : float) :
  composite_score fuzz_ratio default_engine signal_data st = Some score ->
  exists text company_size,
    score = calculate_lead_score (analyze_text text) company_size.
Proof.
  unfold composite_score.
  destruct (snd (_find_or_create_company fuzz_ratio signal_data st))
    as [company|]; [|discriminate].
  destruct (Signal.source_domain signal_data); [|discriminate].
  destruct (Signal.signal_text signal_data) as [text|]; [|discriminate].
  simpl.
  destruct (recommended_products (analyze_text text)); [discriminate|].
  intros [= <-]. eauto.
Qed.

(** C7. The gate sits at 30. Whatever the engine, a lead is persisted
    only when the composite score is not below 30, and then with that
    score; a signal whose score is below 30 returns [None] and adds no
    lead, one whose score is not below 30 gets its lead: a score of
    exactly 29.99 is rejected and a score of exactly 30.0 is accepted.
    With the engine the processor builds, the score of every persisted
    lead is at least 30 (and at most 100). *)
Theorem score_gate_at_30 (fuzz_ratio : string -> string -> Z) (utcnow : nat)
    (signal_data : Signal.t) (st : State) :
  (forall engine : InferenceEngine,
     (forall id,
         snd (process_signal fuzz_ratio engine utcnow signal_data st) = Some id ->
         exists score lead,
           composite_score fuzz_ratio engine signal_data st = Some score /\
           (score <? 30)%float = false /\
           Lead.id lead = id /\ Lead.lead_score lead = score /\
           leads (committed
                    (fst (process_signal fuzz_ratio engine utcnow signal_data st)))
             = leads (working st) ++ [lead]) /\
     (forall score,
         composite_score fuzz_ratio engine signal_data st = Some score ->
         (score <? 30)%float = true ->
         snd (process_signal fuzz_ratio engine utcnow signal_data st) = None /\
         leads (committed
                  (fst (process_signal fuzz_ratio engine utcnow signal_data st)))
           = leads (working st)) /\
     (forall score,
         composite_score fuzz_ratio engine signal_data st = Some score ->
         (score <? 30)%float = false ->
         exists id,
           snd (process_signal fuzz_ratio engine utcnow signal_data st) = Some id) /\
     (composite_score fuzz_ratio engine signal_data st = Some 29.99%float ->
      snd (process_signal fuzz_ratio engine utcnow signal_data st) = None /\
      leads (committed
               (fst (process_signal fuzz_ratio engine utcnow signal_data st)))
        = leads (working st)) /\
     (composite_score fuzz_ratio engine signal_data st = Some 30.0%float ->
      exists id,
        snd (process_signal fuzz_ratio engine utcnow signal_data st) = Some id)) /\
  (forall id,
      snd (process_signal fuzz_ratio default_engine utcnow signal_data st)
        = Some id ->
      exists lead,
        leads (committed
                 (fst (process_signal fuzz_ratio default_engine utcnow
                         signal_data st)))
          = leads (working st) ++ [lead] /\
        Lead.id lead = id /\
        (30 <=? Lead.lead_score lead)%float = true /\
        (Lead.lead_score lead <=? 100)%float = true).
Proof.
  split.
  - intros engine.
    exact (score_gate_any_engine fuzz_ratio engine utcnow signal_data st).
  - intros id Hid.
    destruct (proj1 (score_gate_any_engine fuzz_ratio default_engine utcnow
                       signal_data st) id Hid)
      as (score & lead & Hscore & Hge & Hlid & Hls & Hleads).
    exists lead. split; [exact Hleads|]. split; [exact Hlid|].
    destruct (composite_score_default _ _ _ _ Hscore)
      as (text & company_size & Heq).
    destruct (classifier_score_gate_sound text company_size) as [Hr Hc].
    rewrite <- Heq in Hr, Hc. clear Heq Hscore.
    rewrite Hls.
    split; [exact (Hc Hge)|].
    unfold in_range in Hr. apply andb_true_iff in Hr. exact (proj2 Hr).
Qed.

(** * Further properties of the code *)

Import Conditions.

(** ** Urgency *)

Lemma calculate_urgency_cases (text : string) :
  forallb (fun kv => implb (PyStr.contains (fst kv) text)
                       (snd kv <=? _calculate_urgency text)%float)
    urgency_keywords = true /\
  ((forall kw v, In (kw, v) urgency_keywords ->
                 PyStr.contains kw text = false) ->
   _calculate_urgency text = 0%float) /\
  (_calculate_urgency text = 0%float \/
   exists kw v, In (kw, v) urgency_keywords /\
                PyStr.contains kw text = true /\
                _calculate_urgency text = v).
Proof.
  unfold _calculate_urgency, urgency_keywords.
  cbn [fold_left forallb fst snd In].
  destruct (PyStr.contains "immediate" text) eqn:H1;
  destruct (PyStr.contains "urgent" text) eqn:H2;
  destruct (PyStr.contains "asap" text) eqn:H3;
  destruct (PyStr.contains "this month" text) eqn:H4;
  destruct (PyStr.contains "tender" text) eqn:H5;
  destruct (PyStr.contains "deadline" text) eqn:H6;
  destruct (PyStr.contains "soon" text) eqn:H7;
  destruct (PyStr.contains "upcoming" text) eqn:H8;
  (split; [vm_compute; reflexivity|]);
  (split;
   [ intros Hnone;
     first [ reflexivity
           | rewrite (Hnone "immediate" 1.0%float) in H1 by tauto; discriminate H1
           | rewrite (Hnone "urgent" 0.9%float) in H2 by tauto; discriminate H2
           | rewrite (Hnone "asap" 0.9%float) in H3 by tauto; discriminate H3
           | rewrite (Hnone "this month" 0.8%float) in H4 by tauto; discriminate H4
           | rewrite (Hnone "tender" 0.7%float) in H5 by tauto; discriminate H5
           | rewrite (Hnone "deadline" 0.7%float) in H6 by tauto; discriminate H6
           | rewrite (Hnone "soon" 0.6%float) in H7 by tauto; discriminate H7
           | rewrite (Hnone "upcoming" 0.5%float) in H8 by tauto; discriminate H8 ]
   | first [ left; vm_compute; reflexivity
           | right; exists "immediate", 1.0%float; split; [tauto|]; split; [exact H1 | vm_compute; reflexivity]
           | right; exists "urgent", 0.9%float; split; [tauto|]; split; [exact H2 | vm_compute; reflexivity]
           | right; exists "this month", 0.8%float; split; [tauto|]; split; [exact H4 | vm_compute; reflexivity]
           | right; exists "asap", 0.9%float; split; [tauto|]; split; [exact H3 | vm_compute; reflexivity]
           | right; exists "tender", 0.7%float; split; [tauto|]; split; [exact H5 | vm_compute; reflexivity]
           | right; exists "deadline", 0.7%float; split; [tauto|]; split; [exact H6 | vm_compute; reflexivity]
           | right; exists "soon", 0.6%float; split; [tauto|]; split; [exact H7 | vm_compute; reflexivity]
           | right; exists "upcoming", 0.5%float; split; [tauto|]; split; [exact H8 | vm_compute; reflexivity] ] ]).
Qed.

(** X1. The urgency of a text is the largest weight among the urgency phrases
    that occur in it: every phrase that occurs has a weight at most the
    result, the result is the weight of a phrase that occurs, and it is 0
    when none occurs. *)
Theorem urgency_is_maximum (text : string) :
  (forall kw v, In (kw, v) urgency_keywords ->
                PyStr.contains kw text = true ->
                (v <=? _calculate_urgency text)%float = true) /\
  ((forall kw v, In (kw, v) urgency_keywords ->
                 PyStr.contains kw text = false) ->
   _calculate_urgency text = 0%float) /\
  (_calculate_urgency text = 0%float \/
   exists kw v, In (kw, v) urgency_keywords /\
                PyStr.contains kw text = true /\
                _calculate_urgency text = v).
Proof.
  destruct (calculate_urgency_cases text) as (Hmax & Hnone & Hsome).
  split; [| split; [exact Hnone | exact Hsome]].
  intros kw v Hin Hc.
  rewrite forallb_forall in Hmax. specialize (Hmax (kw, v) Hin).
  simpl in Hmax. rewrite Hc in Hmax. exact Hmax.
Qed.

(** ** Letter case *)

Lemma lower_ascii_idempotent (c : ascii) :
  PyStr.lower_ascii (PyStr.lower_ascii c) = PyStr.lower_ascii c.
Proof.
  destruct c as [[] [] [] [] [] [] [] []]; vm_compute; reflexivity.
Qed.

Lemma lower_idempotent (s : string) : PyStr.lower (PyStr.lower s) = PyStr.lower s.
Proof.
  induction s as [|c t IH]; simpl; [reflexivity|].
  rewrite lower_ascii_idempotent, IH. reflexivity.
Qed.

Lemma states_distinct : NoDup states.
Proof.
  unfold states.
  repeat (constructor; [simpl; intuition discriminate|]). constructor.
Qed.

(** X2. The analysis and the extracted locations depend on the text only
    through its lower-cased form: two texts that differ in letter case
    only get the same analysis and the same locations. *)
Theorem classification_ignores_case (text other : string) :
  PyStr.lower text = PyStr.lower other ->
  analyze_text text = analyze_text other /\
  extract_location text = extract_location other /\
  analyze_text (PyStr.lower text) = analyze_text text /\
  extract_location (PyStr.lower text) = extract_location text.
Proof.
  intros H. unfold analyze_text, extract_location.
  rewrite lower_idempotent, H. auto.
Qed.

Lemma classification_ignores_case_witness :
  analyze_text "TENDER for Furnace Oil in GUJARAT"
    = analyze_text "tender for furnace oil in gujarat" /\
  extract_location "TENDER for Furnace Oil in GUJARAT" = ["Gujarat"].
Proof.
  destruct (classification_ignores_case "TENDER for Furnace Oil in GUJARAT"
              "tender for furnace oil in gujarat" eq_refl)
    as (Ha & Hl & _).
  split; [exact Ha|]. rewrite Hl. vm_compute. reflexivity.
Defined.

(** X3. [extract_location] returns exactly the states of its list whose
    lower-cased name occurs in the lower-cased text, each once, and the
    empty list exactly when no state occurs. *)
Theorem extract_location_finds_the_states (text : string) :
  (forall state, In state (extract_location text) <->
     In state states /\
     PyStr.contains (PyStr.lower state) (PyStr.lower text) = true) /\
  NoDup (extract_location text) /\
  (extract_location text = [] <->
     forall state, In state states ->
       PyStr.contains (PyStr.lower state) (PyStr.lower text) = false).
Proof.
  unfold extract_location. cbv zeta. split; [| split].
  - intros state.
    exact (filter_In (fun s => PyStr.contains (PyStr.lower s) (PyStr.lower text))
             state states).
  - apply NoDup_filter. exact states_distinct.
  - split.
    + intros Hnil state Hin.
      destruct (PyStr.contains (PyStr.lower state) (PyStr.lower text)) eqn:Hc;
        [| reflexivity].
      assert (Hf : In state (filter (fun s => PyStr.contains (PyStr.lower s) (PyStr.lower text)) states))
        by (apply filter_In; auto).
      rewrite Hnil in Hf. destruct Hf.
    + intros Hnone.
      destruct (filter _ states) as [|s l] eqn:Hf; [reflexivity|].
      assert (Hin : In s (filter (fun s => PyStr.contains (PyStr.lower s) (PyStr.lower text)) states))
        by (rewrite Hf; left; reflexivity).
      apply filter_In in Hin. destruct Hin as [Hin Hc].
      rewrite (Hnone s Hin) in Hc. discriminate Hc.
Qed.

(** ** The classifier: which products are recommended, and in which order *)

Lemma scan_terms_hits (text : string) (w : float) (label : string -> string)
    (terms : list string) :
  forall (s : float) (reasons found : list string),
    fst (fst (scan_terms text w label terms s reasons found))
    = bump w (hits text terms) s.
Proof.
  unfold hits.
  induction terms as [|t rest IH]; intros s reasons found; simpl;
    [reflexivity|].
  destruct (PyStr.contains (PyStr.lower t) text); simpl.
  - rewrite IH. apply bump_succ_first.
  - apply IH.
Qed.

Lemma hits_le_length (text : string) (terms : list string) :
  (hits text terms <= length terms)%nat.
Proof. unfold hits. apply filter_length_le. Qed.

Lemma hits_zero_iff (text : string) (terms : list string) :
  hits text terms = 0%nat <->
  forall t, In t terms -> PyStr.contains (PyStr.lower t) text = false.
Proof.
  unfold hits. induction terms as [|t rest IH]; simpl.
  - split; [intros _ t [] | reflexivity].
  - destruct (PyStr.contains (PyStr.lower t) text) eqn:Ht; simpl.
    + split; [discriminate|]. intros H. rewrite (H t) in Ht by auto.
      discriminate Ht.
    + rewrite IH. split.
      * intros H u [<- | Hu]; auto.
      * intros H u Hu. apply H. auto.
Qed.

(** The raw score of a product: its three counts of matched terms. *)
Lemma score_product_hits (text : string) (data : ProductData)
    (dk de : list string) :
  fst (fst (fst (score_product text data dk de)))
  = raw_score (hits text (keywords data)) (hits text (equipment data))
      (hits text (industries data)).
Proof.
  unfold score_product, raw_score.
  pose proof (scan_terms_hits text 0.4 keyword_reason (keywords data)
                0%float [] dk) as Ek.
  destruct (scan_terms text 0.4 keyword_reason (keywords data) 0%float [] dk)
    as [[s1 r1] dk1].
  simpl in Ek. subst s1.
  pose proof (scan_terms_hits text 0.3 equipment_reason (equipment data)
                (bump 0.4 (hits text (keywords data)) 0) r1 de) as Ee.
  destruct (scan_terms text 0.3 equipment_reason (equipment data) _ r1 de)
    as [[s2 r2] de2].
  simpl in Ee. subst s2.
  pose proof (scan_terms_hits text 0.2 industry_reason (industries data)
                (bump 0.3 (hits text (equipment data))
                   (bump 0.4 (hits text (keywords data)) 0)) r2 []) as Ei.
  destruct (scan_terms text 0.2 industry_reason (industries data) _ r2 [])
    as [[s3 r3] x3].
  simpl in Ei. subst s3. reflexivity.
Qed.

(** Within the catalogue's list lengths a raw score is positive exactly
    when some term matched. *)
Lemma raw_score_positive (k e i : nat) :
  (k <= 6)%nat -> (e <= 6)%nat -> (i <= 5)%nat ->
  (0 <? raw_score k e i)%float = negb ((k + e + i =? 0)%nat).
Proof.
  intros Hk He Hi.
  cases_upto k; cases_upto e; cases_upto i; vm_compute; reflexivity.
Qed.

Lemma scan_products_nil_iff (text : string)
    (catalogue : list (string * ProductData)) :
  Forall (fun entry =>
            (length (keywords (snd entry)) <= 6)%nat /\
            (length (equipment (snd entry)) <= 6)%nat /\
            (length (industries (snd entry)) <= 5)%nat)
         catalogue ->
  forall (acc : list Scored) (dk de : list string),
    fst (fst (scan_products text catalogue acc dk de)) = [] <->
    acc = [] /\
    forall entry, In entry catalogue ->
      hits text (keywords (snd entry)) = 0%nat /\
      hits text (equipment (snd entry)) = 0%nat /\
      hits text (industries (snd entry)) = 0%nat.
Proof.
  intros Hcat. induction Hcat as [|[name data] rest Hlen _ IH];
    intros acc dk de; simpl.
  - split; [intros ->; split; [reflexivity | intros _ []] | intros [-> _]; reflexivity].
  - pose proof (score_product_hits text data dk de) as Hraw.
    destruct (score_product text data dk de) as [[[score reasons] dk'] de'].
    simpl in Hraw. subst score. simpl in Hlen.
    destruct Hlen as (Lk & Le & Li).
    pose proof (hits_le_length text (keywords data)) as Bk.
    pose proof (hits_le_length text (equipment data)) as Be.
    pose proof (hits_le_length text (industries data)) as Bi.
    rewrite IH.
    rewrite raw_score_positive by lia.
    destruct (hits text (keywords data) + hits text (equipment data)
              + hits text (industries data) =? 0)%nat eqn:Hz; simpl.
    + apply Nat.eqb_eq in Hz. split.
      * intros [-> H]. split; [reflexivity|].
        intros entry [<- | Hin]; [simpl; lia | apply H; exact Hin].
      * intros [-> H]. split; [reflexivity|]. intros entry Hin. apply H. auto.
    + apply Nat.eqb_neq in Hz. split.
      * intros [Happ _]. destruct acc; discriminate Happ.
      * intros [-> H]. exfalso. specialize (H (name, data) (or_introl eq_refl)).
        simpl in H. lia.
Qed.

Lemma insert_desc_not_nil (x : Scored) (l : list Scored) : insert_desc x l <> [].
Proof.
  destruct l as [|y l]; simpl; [discriminate|].
  destruct (scored_score x <? scored_score y)%float; discriminate.
Qed.

Lemma sorted_desc_nil_iff (l : list Scored) : sorted_desc l = [] <-> l = [].
Proof.
  destruct l as [|x l]; simpl; [tauto|].
  split; [intros H; exfalso; exact (insert_desc_not_nil _ _ H) | discriminate].
Qed.

(** X4. [analyze_text] recommends no product exactly when no keyword,
    equipment term or industry term of the catalogue occurs in the text,
    letter case apart. *)
Theorem no_term_no_recommendation (text : string) :
  recommended_products (analyze_text text) = [] <-> ~ term_occurs text.
Proof.
  unfold analyze_text.
  pose proof (scan_products_nil_iff (PyStr.lower text) product_keywords
                catalogue_lengths [] [] []) as Hnil.
  destruct (scan_products (PyStr.lower text) product_keywords [] [] [])
    as [[ps dk] de].
  simpl in Hnil. cbn [recommended_products].
  assert (Hrec : map recommend (firstn 3 (sorted_desc ps)) = [] <-> ps = []).
  { rewrite <- sorted_desc_nil_iff.
    destruct (sorted_desc ps) as [|x l]; simpl; [tauto|].
    split; discriminate. }
  rewrite Hrec, Hnil. unfold term_occurs. split.
  - intros [_ H] (name & data & term & Hin & Hterm & Hc).
    destruct (H (name, data) Hin) as (Hk & He & Hi). simpl in *.
    rewrite hits_zero_iff in Hk, He, Hi.
    apply in_app_or in Hterm. destruct Hterm as [Ht | Ht].
    + rewrite (Hk term Ht) in Hc. discriminate Hc.
    + apply in_app_or in Ht. destruct Ht as [Ht | Ht].
      * rewrite (He term Ht) in Hc. discriminate Hc.
      * rewrite (Hi term Ht) in Hc. discriminate Hc.
  - intros Hno. split; [reflexivity|].
    intros [name data] Hin. simpl.
    rewrite !hits_zero_iff.
    repeat split; intros t Ht;
      destruct (PyStr.contains (PyStr.lower t) (PyStr.lower text)) eqn:Hc;
      try reflexivity; exfalso; apply Hno; exists name, data, t;
      (split; [exact Hin|]); (split; [| exact Hc]);
      apply in_or_app; auto using in_or_app.
Qed.

(** ** The classifier: the order of the recommendations *)

Lemma all_counts_complete (k e i : nat) :
  (k <= 6)%nat -> (e <= 6)%nat -> (i <= 5)%nat -> In (k, e, i) all_counts.
Proof.
  intros Hk He Hi. unfold all_counts.
  apply in_flat_map. exists k. split; [apply in_seq; lia|].
  apply in_flat_map. exists e. split; [apply in_seq; lia|].
  apply in_map. apply in_seq. lia.
Qed.

Lemma reachable_capped (x : Scored) :
  reachable x -> In (scored_score x) capped_scores.
Proof.
  intros (k & e & i & Hk & He & Hi & _ & ->).
  unfold capped_scores.
  apply (in_map (fun c => PyFloat.min
                            (raw_score (fst (fst c)) (snd (fst c)) (snd c)) 1.0)
           all_counts (k, e, i)).
  apply all_counts_complete; assumption.
Qed.

Lemma capped_scores_order : every_order_kept = true.
Proof. vm_cast_no_check (eq_refl true). Qed.

Lemma capped_order (x y : float) :
  In x capped_scores -> In y capped_scores ->
  ((x <? y)%float = true -> not_below y x) /\
  (not_below x y -> not_below (PyFloat.round2 x) (PyFloat.round2 y)).
Proof.
  intros Hx Hy. pose proof capped_scores_order as H.
  unfold every_order_kept in H. cbv zeta in H.
  rewrite forallb_forall in H.
  specialize (H (x, PyFloat.round2 x)
                (in_map (fun s => (s, PyFloat.round2 s)) capped_scores x Hx)).
  rewrite forallb_forall in H.
  specialize (H (y, PyFloat.round2 y)
                (in_map (fun s => (s, PyFloat.round2 s)) capped_scores y Hy)).
  unfold order_kept in H. cbn [fst snd] in H.
  apply andb_true_iff in H. destruct H as [Ha Hk].
  unfold not_below. split.
  - intros Hlt. rewrite Hlt in Ha. simpl in Ha.
    apply negb_true_iff in Ha. exact Ha.
  - intros Hnb. rewrite Hnb in Hk. simpl in Hk.
    apply negb_true_iff in Hk. exact Hk.
Qed.

Lemma insert_desc_hd (x y : Scored) (l : list Scored) :
  ranks y x -> HdRel ranks y l -> HdRel ranks y (insert_desc x l).
Proof.
  intros Hyx Hl. destruct l as [|z l]; simpl.
  - constructor. exact Hyx.
  - destruct (scored_score x <? scored_score z)%float.
    + constructor. inversion Hl; assumption.
    + constructor. exact Hyx.
Qed.

Lemma insert_desc_sorted (x : Scored) (l : list Scored) :
  capped x -> Forall capped l -> Sorted ranks l ->
  Sorted ranks (insert_desc x l).
Proof.
  intros Hx Hl Hs. induction l as [|y l IH]; simpl.
  - repeat constructor.
  - inversion Hl as [|? ? Hy Hl']; subst.
    inversion Hs as [|? ? Hs' Hhd]; subst.
    destruct (scored_score x <? scored_score y)%float eqn:Hlt.
    + constructor; [apply IH; assumption|].
      apply insert_desc_hd; [| exact Hhd].
      exact (proj1 (capped_order _ _ Hx Hy) Hlt).
    + constructor; [exact Hs|]. constructor. exact Hlt.
Qed.

Lemma sorted_desc_sorted (l : list Scored) :
  Forall capped l -> Sorted ranks (sorted_desc l).
Proof.
  unfold sorted_desc. induction l as [|x l IH]; intros Hl; simpl.
  - constructor.
  - inversion Hl as [|? ? Hx Hl']; subst.
    apply insert_desc_sorted; [exact Hx | | apply IH; exact Hl'].
    apply Forall_forall. intros y Hy.
    rewrite Forall_forall in Hl'. apply Hl'.
    apply sorted_desc_in. exact Hy.
Qed.

Lemma firstn_sorted (n : nat) (l : list Scored) :
  Sorted ranks l -> Sorted ranks (firstn n l).
Proof.
  revert l. induction n as [|n IH]; intros l Hs; simpl; [constructor|].
  destruct l as [|x l]; [constructor|].
  inversion Hs as [|? ? Hs' Hhd]; subst.
  constructor; [apply IH; exact Hs'|].
  destruct l as [|y l]; destruct n; simpl; constructor.
  inversion Hhd; assumption.
Qed.

Lemma recommend_sorted (l : list Scored) :
  Forall capped l -> Sorted ranks l ->
  Sorted not_below (map confidence (map recommend l)).
Proof.
  intros Hl Hs. induction l as [|x l IH]; simpl; [constructor|].
  inversion Hl as [|? ? Hx Hl']; subst.
  inversion Hs as [|? ? Hs' Hhd]; subst.
  constructor; [apply IH; assumption|].
  destruct l as [|y l]; simpl; constructor.
  inversion Hl' as [|? ? Hy _]; subst.
  inversion Hhd as [|? ? Hxy]; subst.
  exact (proj2 (capped_order _ _ Hx Hy) Hxy).
Qed.

Lemma confidence_values_transitive :
  forallb (fun a => forallb (fun b => forallb (fun c =>
     implb (negb (a <? b) && negb (b <? c)) (negb (a <? c)))%float
     confidence_values) confidence_values) confidence_values = true.
Proof. vm_compute. reflexivity. Qed.

Lemma not_below_transitive (a b c : float) :
  In a confidence_values -> In b confidence_values -> In c confidence_values ->
  not_below a b -> not_below b c -> not_below a c.
Proof.
  intros Ha Hb Hc Hab Hbc. pose proof confidence_values_transitive as H.
  rewrite forallb_forall in H. specialize (H a Ha).
  rewrite forallb_forall in H. specialize (H b Hb).
  rewrite forallb_forall in H. specialize (H c Hc).
  unfold not_below in *. rewrite Hab, Hbc in H. simpl in H.
  apply negb_true_iff in H. exact H.
Qed.

Lemma sorted_strongly (l : list float) :
  Forall (fun c => In c confidence_values) l ->
  Sorted not_below l -> StronglySorted not_below l.
Proof.
  intros Hl Hs. induction l as [|a l IH]; [constructor|].
  inversion Hl as [|? ? Ha Hl']; subst.
  inversion Hs as [|? ? Hs' Hhd]; subst.
  specialize (IH Hl' Hs').
  constructor; [exact IH|].
  destruct l as [|b l]; [constructor|].
  inversion Hhd as [|? ? Hab]; subst.
  inversion IH as [|? ? _ Hbl]; subst.
  inversion Hl' as [|? ? Hb Hl'']; subst.
  constructor; [exact Hab|].
  rewrite Forall_forall in *. intros c Hc.
  apply (not_below_transitive a b c); auto.
Qed.

(** X5. [analyze_text] recommends at most three products, and their
    confidences, as rounded to two decimals, never increase along the
    list: no recommendation has a confidence below that of a later one. *)
Theorem recommendations_are_ranked (text : string) :
  (length (recommended_products (analyze_text text)) <= 3)%nat /\
  Forall (fun c => In c confidence_values)
    (map confidence (recommended_products (analyze_text text))) /\
  StronglySorted not_below
    (map confidence (recommended_products (analyze_text text))).
Proof.
  unfold analyze_text.
  pose proof (scan_products_reachable (PyStr.lower text) product_keywords
                catalogue_lengths [] [] [] (Forall_nil _)) as Hreach.
  destruct (scan_products (PyStr.lower text) product_keywords [] [] [])
    as [[ps dk] de].
  simpl in Hreach. cbn [recommended_products].
  assert (Hin : forall x, In x (firstn 3 (sorted_desc ps)) -> reachable x).
  { intros x Hx. rewrite Forall_forall in Hreach. apply Hreach.
    apply sorted_desc_in. apply (firstn_in 3). exact Hx. }
  assert (Hvalues : Forall (fun c => In c confidence_values)
                      (map confidence (map recommend (firstn 3 (sorted_desc ps))))).
  { rewrite map_map. apply Forall_map. apply Forall_forall.
    intros x Hx. simpl. apply reachable_confidence. apply Hin. exact Hx. }
  split; [rewrite length_map; apply firstn_le_length|].
  split; [exact Hvalues|].
  apply sorted_strongly; [exact Hvalues|].
  apply recommend_sorted.
  - apply Forall_forall. intros x Hx. apply reachable_capped. apply Hin. exact Hx.
  - apply firstn_sorted. apply sorted_desc_sorted.
    apply Forall_forall. intros x Hx. apply reachable_capped.
    rewrite Forall_forall in Hreach. apply Hreach. exact Hx.
Qed.

(** ** The classifier: which products, which detected terms *)

Lemma firstn_distinct {A : Type} (n : nat) (l : list A) :
  NoDup l -> NoDup (firstn n l).
Proof.
  revert n. induction l as [|a l IH]; intros [|n] Hl; simpl; try constructor.
  - inversion Hl as [|? ? Ha Hl']; subst. intros Hin. apply Ha.
    exact (firstn_in _ _ _ Hin).
  - inversion Hl; subst. apply IH. assumption.
Qed.

Lemma hits_positive (text : string) (terms : list string) :
  hits text terms <> 0%nat ->
  exists t, In t terms /\ PyStr.contains (PyStr.lower t) text = true.
Proof.
  unfold hits. induction terms as [|t rest IH]; simpl.
  - intros H. contradiction H. reflexivity.
  - destruct (PyStr.contains (PyStr.lower t) text) eqn:Ht.
    + intros _. exists t. auto.
    + intros H. destruct (IH H) as (u & Hu & Hc). exists u. auto.
Qed.

Lemma scan_products_from (text : string)
    (catalogue : list (string * ProductData)) :
  Forall (fun entry =>
            (length (keywords (snd entry)) <= 6)%nat /\
            (length (equipment (snd entry)) <= 6)%nat /\
            (length (industries (snd entry)) <= 5)%nat)
         catalogue ->
  forall (acc : list Scored) (dk de : list string) (x : Scored),
    In x (fst (fst (scan_products text catalogue acc dk de))) ->
    In x acc \/
    exists data term,
      In (fst x, data) catalogue /\
      In term (keywords data ++ equipment data ++ industries data) /\
      PyStr.contains (PyStr.lower term) text = true.
Proof.
  intros Hcat. induction Hcat as [|[name data] rest Hlen _ IH];
    intros acc dk de x; simpl.
  - auto.
  - pose proof (score_product_hits text data dk de) as Hraw.
    destruct (score_product text data dk de) as [[[score reasons] dk'] de'].
    simpl in Hraw. subst score. simpl in Hlen.
    destruct Hlen as (Lk & Le & Li).
    pose proof (hits_le_length text (keywords data)) as Bk.
    pose proof (hits_le_length text (equipment data)) as Be.
    pose proof (hits_le_length text (industries data)) as Bi.
    rewrite raw_score_positive by lia.
    intros Hx. apply IH in Hx.
    destruct Hx as [Hx | (d & term & Hin & Hterm & Hc)].
    2:{ right. exists d, term. auto. }
    destruct (hits text (keywords data) + hits text (equipment data)
              + hits text (industries data) =? 0)%nat eqn:Hz; simpl in Hx;
      [left; exact Hx|].
    apply in_app_or in Hx. destruct Hx as [Hx | [<- | []]]; [left; exact Hx|].
    right. simpl. apply Nat.eqb_neq in Hz.
    assert (Hsome : hits text (keywords data) <> 0%nat \/
                    hits text (equipment data) <> 0%nat \/
                    hits text (industries data) <> 0%nat) by lia.
    destruct Hsome as [H | [H | H]];
      destruct (hits_positive _ _ H) as (t & Ht & Hc);
      exists data, t; (split; [left; reflexivity|]); (split; [| exact Hc]);
      apply in_or_app; auto using in_or_app.
Qed.

Lemma scan_products_names (text : string)
    (catalogue : list (string * ProductData)) :
  forall (acc : list Scored) (dk de : list string),
    NoDup (map fst acc ++ map fst catalogue) ->
    NoDup (map fst (fst (fst (scan_products text catalogue acc dk de)))).
Proof.
  induction catalogue as [|[name data] rest IH]; intros acc dk de Hnd; simpl.
  - rewrite app_nil_r in Hnd. exact Hnd.
  - destruct (score_product text data dk de) as [[[score reasons] dk'] de'].
    apply IH. simpl in Hnd.
    destruct (0 <? score)%float.
    + rewrite map_app, <- app_assoc. exact Hnd.
    + exact (NoDup_remove_1 _ _ _ Hnd).
Qed.

Lemma insert_desc_permutation (x : Scored) (l : list Scored) :
  Permutation (insert_desc x l) (x :: l).
Proof.
  induction l as [|y l IH]; simpl; [reflexivity|].
  destruct (scored_score x <? scored_score y)%float; [| reflexivity].
  rewrite IH. apply perm_swap.
Qed.

Lemma sorted_desc_permutation (l : list Scored) :
  Permutation (sorted_desc l) l.
Proof.
  unfold sorted_desc. induction l as [|x l IH]; simpl; [reflexivity|].
  rewrite insert_desc_permutation. constructor. exact IH.
Qed.

Lemma catalogue_names_distinct : NoDup (map fst product_keywords).
Proof.
  unfold product_keywords. cbn [map fst].
  repeat (constructor; [simpl; intuition discriminate|]). constructor.
Qed.

(** X6. No product is recommended twice, and every recommended product is a
    product of the catalogue one of whose keywords, equipment terms or
    industry terms occurs in the text. *)
Theorem recommended_products_are_distinct (text : string) :
  NoDup (map product (recommended_products (analyze_text text))) /\
  forall r, In r (recommended_products (analyze_text text)) ->
    exists data term,
      In (product r, data) product_keywords /\
      In term (keywords data ++ equipment data ++ industries data) /\
      PyStr.contains (PyStr.lower term) (PyStr.lower text) = true.
Proof.
  unfold analyze_text.
  pose proof (scan_products_names (PyStr.lower text) product_keywords [] [] []
                catalogue_names_distinct) as Hnames.
  pose proof (scan_products_from (PyStr.lower text) product_keywords
                catalogue_lengths [] [] []) as Hfrom.
  destruct (scan_products (PyStr.lower text) product_keywords [] [] [])
    as [[ps dk] de].
  simpl in Hnames, Hfrom. cbn [recommended_products]. split.
  - rewrite map_map. cbn [product recommend].
    rewrite <- firstn_map. apply firstn_distinct.
    apply (Permutation_NoDup (l := map fst ps)); [| exact Hnames].
    apply Permutation_map. symmetry. apply sorted_desc_permutation.
  - intros r Hr. apply in_map_iff in Hr. destruct Hr as (x & <- & Hx).
    apply firstn_in, sorted_desc_in, Hfrom in Hx.
    destruct Hx as [[] | Hx]. exact Hx.
Qed.

(** The terms a scan appends to the detected list. *)
Lemma scan_terms_found (text : string) (w : float) (label : string -> string)
    (terms : list string) :
  forall (s : float) (reasons found : list string),
    snd (scan_terms text w label terms s reasons found)
    = found ++ filter (fun t => PyStr.contains (PyStr.lower t) text) terms.
Proof.
  induction terms as [|t rest IH]; intros s reasons found; simpl.
  - rewrite app_nil_r. reflexivity.
  - destruct (PyStr.contains (PyStr.lower t) text); simpl.
    + rewrite IH, <- app_assoc. reflexivity.
    + apply IH.
Qed.

Lemma score_product_found (text : string) (data : ProductData)
    (dk de : list string) :
  snd (fst (score_product text data dk de))
  = dk ++ filter (fun t => PyStr.contains (PyStr.lower t) text) (keywords data)
  /\
  snd (score_product text data dk de)
  = de ++ filter (fun t => PyStr.contains (PyStr.lower t) text) (equipment data).
Proof.
  unfold score_product.
  pose proof (scan_terms_found text 0.4 keyword_reason (keywords data)
                0%float [] dk) as Ek.
  destruct (scan_terms text 0.4 keyword_reason (keywords data) 0%float [] dk)
    as [[s1 r1] dk1].
  simpl in Ek.
  pose proof (scan_terms_found text 0.3 equipment_reason (equipment data)
                s1 r1 de) as Ee.
  destruct (scan_terms text 0.3 equipment_reason (equipment data) s1 r1 de)
    as [[s2 r2] de2].
  simpl in Ee.
  destruct (scan_terms text 0.2 industry_reason (industries data) s2 r2 [])
    as [[s3 r3] x3].
  simpl. auto.
Qed.

Lemma scan_products_found (text : string)
    (catalogue : list (string * ProductData)) :
  forall (acc : list Scored) (dk de : list string),
    snd (fst (scan_products text catalogue acc dk de))
    = dk ++ flat_map (fun entry =>
                filter (fun t => PyStr.contains (PyStr.lower t) text)
                  (keywords (snd entry))) catalogue
    /\
    snd (scan_products text catalogue acc dk de)
    = de ++ flat_map (fun entry =>
                filter (fun t => PyStr.contains (PyStr.lower t) text)
                  (equipment (snd entry))) catalogue.
Proof.
  induction catalogue as [|[name data] rest IH]; intros acc dk de; simpl.
  - rewrite !app_nil_r. auto.
  - destruct (score_product_found text data dk de) as (Ek & Ee).
    destruct (score_product text data dk de) as [[[score reasons] dk'] de'].
    simpl in Ek, Ee. subst dk' de'.
    match goal with
    | |- context [scan_products text rest ?A _ _] =>
        destruct (IH A
                    (dk ++ filter (fun t => PyStr.contains (PyStr.lower t) text)
                             (keywords data))
                    (de ++ filter (fun t => PyStr.contains (PyStr.lower t) text)
                             (equipment data))) as (-> & ->)
    end.
    rewrite <- !app_assoc. auto.
Qed.

Lemma distinct_in (xs : list string) (x : string) :
  In x (PyStr.distinct xs) <-> In x xs.
Proof.
  induction xs as [|y t IH]; simpl; [tauto|].
  rewrite filter_In, IH. split.
  - intros [H | [H _]]; auto.
  - intros [H | H]; [left; exact H|].
    destruct (String.eqb_spec y x) as [He | Hne]; [left; exact He|].
    right. split; [exact H | reflexivity].
Qed.

Lemma distinct_nodup (xs : list string) : NoDup (PyStr.distinct xs).
Proof.
  induction xs as [|y t IH]; simpl; [constructor|].
  constructor.
  - intros Hin. apply filter_In in Hin. destruct Hin as [_ Hne].
    rewrite String.eqb_refl in Hne. discriminate Hne.
  - apply NoDup_filter. exact IH.
Qed.

(** X7. The detected keywords of an analysis are exactly the catalogue keywords
    that occur in the text, each listed once; likewise the detected
    equipment. *)
Theorem detected_terms_are_those_in_the_text (text : string) :
  NoDup (detected_keywords (analyze_text text)) /\
  NoDup (detected_equipment (analyze_text text)) /\
  (forall term,
     In term (detected_keywords (analyze_text text)) <->
     exists name data,
       In (name, data) product_keywords /\ In term (keywords data) /\
       PyStr.contains (PyStr.lower term) (PyStr.lower text) = true) /\
  (forall term,
     In term (detected_equipment (analyze_text text)) <->
     exists name data,
       In (name, data) product_keywords /\ In term (equipment data) /\
       PyStr.contains (PyStr.lower term) (PyStr.lower text) = true).
Proof.
  unfold analyze_text.
  destruct (scan_products_found (PyStr.lower text) product_keywords [] [] [])
    as (Ek & Ee).
  destruct (scan_products (PyStr.lower text) product_keywords [] [] [])
    as [[ps dk] de].
  cbn [fst snd app] in Ek, Ee. subst dk de.
  cbn [detected_keywords detected_equipment].
  split; [apply distinct_nodup|]. split; [apply distinct_nodup|].
  split; intros term; rewrite distinct_in, in_flat_map; split.
  - intros ([name data] & Hin & Hterm). apply filter_In in Hterm.
    exists name, data. simpl in Hterm. tauto.
  - intros (name & data & Hin & Hterm & Hc). exists (name, data).
    split; [exact Hin|]. apply filter_In. auto.
  - intros ([name data] & Hin & Hterm). apply filter_In in Hterm.
    exists name, data. simpl in Hterm. tauto.
  - intros (name & data & Hin & Hterm & Hc). exists (name, data).
    split; [exact Hin|]. apply filter_In. auto.
Qed.

(** ** Urgency in days *)

Lemma urgency_days_values :
  forallb (fun a => forallb (fun b =>
     implb (a <=? b)%float
       (_calculate_urgency_days b <=? _calculate_urgency_days a)%nat)
     urgency_values) urgency_values = true.
Proof. vm_compute. reflexivity. Qed.

(** X8. The urgency in days is 7, 14, 30 or 60, and a text whose urgency score
    is at least that of another gets at most as many days. *)
Theorem more_urgent_text_has_fewer_days (text other : string) :
  (urgency_score (analyze_text text) <=? urgency_score (analyze_text other))%float
  = true ->
  (_calculate_urgency_days (urgency_score (analyze_text other))
   <= _calculate_urgency_days (urgency_score (analyze_text text)))%nat /\
  In (_calculate_urgency_days (urgency_score (analyze_text text))) [7; 14; 30; 60]%nat.
Proof.
  intros Hle.
  pose proof (analyze_text_urgency text) as Ha.
  pose proof (analyze_text_urgency other) as Hb.
  pose proof urgency_days_values as H.
  rewrite forallb_forall in H. specialize (H _ Ha).
  rewrite forallb_forall in H. specialize (H _ Hb).
  rewrite Hle in H. simpl in H. apply Nat.leb_le in H. split; [exact H|].
  clear - Ha. unfold urgency_values in Ha. simpl in Ha.
  repeat (destruct Ha as [<- | Ha]; [vm_compute; tauto|]). destruct Ha.
Qed.

Lemma more_urgent_witness :
  (_calculate_urgency_days
     (urgency_score (analyze_text "Urgent tender for bitumen")) <= 
   _calculate_urgency_days
     (urgency_score (analyze_text "Upcoming road project")))%nat.
Proof.
  apply (more_urgent_text_has_fewer_days "Upcoming road project"
           "Urgent tender for bitumen").
  vm_compute. reflexivity.
Defined.

(** ** A tender *)

(** X9. A text that mentions a tender, in any letter case, has high intent
    and an urgency score of at least 0.7, so its lead is due within 14
    days and its next action is to contact the company immediately. *)
Theorem tender_is_urgent_and_high_intent (text : string) :
  PyStr.contains "tender" (PyStr.lower text) = true ->
  intent_strength (analyze_text text) = "high" /\
  (0.7 <=? urgency_score (analyze_text text))%float = true /\
  (_calculate_urgency_days (urgency_score (analyze_text text)) <= 14)%nat /\
  _suggest_next_action (analyze_text text)
  = "Contact immediately - High intent signal detected (tender/procurement)".
Proof.
  intros Htender.
  assert (Hintent : intent_strength (analyze_text text) = "high").
  { rewrite analyze_text_intent_strength. unfold _calculate_intent_strength.
    assert (Hpos : (0 < count_matches high_intent_keywords (PyStr.lower text))%nat).
    { apply count_matches_positive. exists "tender". split; [left; reflexivity|].
      exact Htender. }
    apply Nat.ltb_lt in Hpos. rewrite Hpos. reflexivity. }
  assert (Hurgency : urgency_score (analyze_text text)
                     = _calculate_urgency (PyStr.lower text)).
  { unfold analyze_text.
    destruct (scan_products (PyStr.lower text) product_keywords [] [] [])
      as [[ps dk] de]. reflexivity. }
  split; [exact Hintent|].
  pose proof (proj1 (calculate_urgency_cases (PyStr.lower text))) as Hmax.
  rewrite forallb_forall in Hmax.
  specialize (Hmax ("tender", 0.7%float)). simpl in Hmax.
  rewrite Htender in Hmax.
  assert (Hge : (0.7 <=? _calculate_urgency (PyStr.lower text))%float = true).
  { apply Hmax. unfold urgency_keywords. simpl. tauto. }
  rewrite Hurgency. split; [exact Hge|]. split.
  - pose proof (calculate_urgency_values (PyStr.lower text)) as Hval.
    revert Hge. unfold urgency_values in Hval. simpl in Hval.
    repeat (destruct Hval as [<- | Hval];
            [vm_compute; first [intros _; lia | discriminate]|]).
    destruct Hval.
  - unfold _suggest_next_action. rewrite Hintent. reflexivity.
Qed.

Lemma tender_witness :
  intent_strength (analyze_text "GeM Tender: supply of furnace oil") = "high" /\
  (_calculate_urgency_days
     (urgency_score (analyze_text "GeM Tender: supply of furnace oil")) <= 14)%nat.
Proof.
  destruct (tender_is_urgent_and_high_intent "GeM Tender: supply of furnace oil")
    as (Hintent & _ & Hdays & _).
  - vm_compute. reflexivity.
  - split; [exact Hintent | exact Hdays].
Defined.

(** * Further properties of the pipeline *)

(** ** The pipeline, step by step *)

(** The five ways through [process_signal]. *)
Lemma process_signal_cases (fuzz_ratio : string -> string -> Z)
    (engine : InferenceEngine) (utcnow : nat)
    (signal_data : Signal.t) (st : State) :
  let s1 := fst (_find_or_create_company fuzz_ratio signal_data st) in
  (snd (_find_or_create_company fuzz_ratio signal_data st) = None /\
   process_signal fuzz_ratio engine utcnow signal_data st = (s1, None)) \/
  (exists company,
     snd (_find_or_create_company fuzz_ratio signal_data st) = Some company /\
     ((Signal.source_domain signal_data = None /\
       process_signal fuzz_ratio engine utcnow signal_data st
         = (db_rollback s1, None)) \/
      exists domain source,
        Signal.source_domain signal_data = Some domain /\
        snd (_get_or_create_source utcnow domain s1) = Some source /\
        let s2 := fst (_get_or_create_source utcnow domain s1) in
        ((Signal.signal_text signal_data = None /\
          process_signal fuzz_ratio engine utcnow signal_data st
            = (db_rollback s2, None)) \/
         exists text,
           Signal.signal_text signal_data = Some text /\
           let analysis := engine_analyze_text engine text in
           let score := engine_calculate_lead_score engine analysis (size_of company) in
           ((recommended_products analysis = [] /\
             process_signal fuzz_ratio engine utcnow signal_data st = (s2, None)) \/
            (recommended_products analysis <> [] /\
             (score <? 30)%float = true /\
             process_signal fuzz_ratio engine utcnow signal_data st = (s2, None)) \/
            exists top rest,
              recommended_products analysis = top :: rest /\
              (score <? 30)%float = false /\
              let locations := engine_extract_location engine text in
              let territory := territory_of signal_data company locations in
              let assigned := officer_for territory s2 in
              let lead :=
                new_lead utcnow signal_data company source text analysis top
                  score locations territory assigned s2 in
              process_signal fuzz_ratio engine utcnow signal_data st
                = (notify lead assigned (add_lead lead s2), Some (Lead.id lead)))))).
Proof.
  cbv zeta. unfold process_signal, process_signal_body.
  destruct (_find_or_create_company fuzz_ratio signal_data st)
    as [s1 [company|]]; cbv beta iota zeta; simpl fst; simpl snd;
    [| left; auto].
  right. exists company. split; [reflexivity|].
  destruct (Signal.source_domain signal_data) as [domain|];
    cbv beta iota zeta; [| left; auto].
  right.
  destruct (get_or_create_source_frame utcnow domain s1)
    as (_ & _ & _ & _ & _ & (source & Hsource)).
  exists domain, source. split; [reflexivity|]. split; [exact Hsource|].
  destruct (_get_or_create_source utcnow domain s1) as [s2 o];
    simpl fst; simpl snd in *. subst o. cbv beta iota zeta.
  destruct (Signal.signal_text signal_data) as [text|];
    cbv beta iota zeta; [| left; auto].
  right. exists text. split; [reflexivity|].
  destruct (recommended_products (engine_analyze_text engine text))
    as [|top rest] eqn:Hrec; cbv beta iota zeta; [left; auto|].
  right.
  destruct (engine_calculate_lead_score engine
              (engine_analyze_text engine text) (size_of company) <? 30)%float
    eqn:Hgate; cbv beta iota zeta.
  - left. split; [discriminate|]. auto.
  - right. exists top, rest. auto.
Qed.

(** ** Keys *)

Lemma NoDup_snoc {A : Type} (l : list A) (x : A) :
  NoDup l -> ~ In x l -> NoDup (l ++ [x]).
Proof.
  intros Hl Hx. induction Hl as [|a l Ha Hl IH]; simpl.
  - constructor; [intros [] | constructor].
  - constructor.
    + intros Hin. apply in_app_or in Hin. destruct Hin as [Hin | [-> | []]].
      * exact (Ha Hin).
      * apply Hx. left. reflexivity.
    + apply IH. intros Hin. apply Hx. right. exact Hin.
Qed.

Lemma find_none_key {A : Type} (key : A -> string) (k : string) (l : list A) :
  find (fun x => String.eqb (key x) k) l = None -> ~ In k (map key l).
Proof.
  intros Hfind Hin. apply in_map_iff in Hin. destruct Hin as (x & Hk & Hx).
  pose proof (find_none _ _ Hfind x Hx) as Hne. simpl in Hne.
  rewrite Hk, String.eqb_refl in Hne. discriminate Hne.
Qed.

Lemma find_unique_key {A : Type} (key : A -> string) (l : list A) (x : A) :
  NoDup (map key l) -> In x l ->
  find (fun y => String.eqb (key y) (key x)) l = Some x.
Proof.
  induction l as [|a l IH]; simpl; intros Hnd Hin; [destruct Hin|].
  inversion Hnd as [|? ? Ha Hl]; subst.
  destruct Hin as [-> | Hin].
  - rewrite String.eqb_refl. reflexivity.
  - destruct (String.eqb (key a) (key x)) eqn:He.
    + apply String.eqb_eq in He. exfalso. apply Ha. rewrite He.
      apply in_map. exact Hin.
    + apply IH; assumption.
Qed.

Lemma same_id_same_row {A : Type} (id : A -> nat) (l : list A) (x y : A) :
  NoDup (map id l) -> In x l -> In y l -> id x = id y -> x = y.
Proof.
  induction l as [|a l IH]; simpl; intros Hnd Hx Hy Hid; [destruct Hx|].
  inversion Hnd as [|? ? Ha Hl]; subst.
  destruct Hx as [-> | Hx]; destruct Hy as [-> | Hy].
  - reflexivity.
  - exfalso. apply Ha. rewrite Hid. apply in_map. exact Hy.
  - exfalso. apply Ha. rewrite <- Hid. apply in_map. exact Hx.
  - apply IH; assumption.
Qed.

(** Company resolution keeps ids and names unique. *)
Lemma find_or_create_company_unique (fuzz_ratio : string -> string -> Z)
    (signal_data : Signal.t) (st : State) :
  NoDup (map Company.id (companies (working st))) ->
  NoDup (map Company.name (companies (working st))) ->
  NoDup (map Company.id
           (companies (working (fst (_find_or_create_company fuzz_ratio
                                       signal_data st))))) /\
  NoDup (map Company.name
           (companies (working (fst (_find_or_create_company fuzz_ratio
                                       signal_data st))))).
Proof.
  intros Hid Hname. unfold _find_or_create_company.
  destruct (PyStr.truthy _); simpl negb; cbv iota; [| auto].
  destruct (find _ (companies (working st))) as [c|] eqn:Hexact; [auto|].
  destruct (fuzzy_match _ _ _) as [c|]; [auto|].
  simpl. rewrite !map_app. simpl. split.
  - apply NoDup_snoc; [exact Hid | apply next_id_fresh].
  - apply NoDup_snoc; [exact Hname|].
    exact (find_none_key Company.name _ _ Hexact).
Qed.

Section Sources.

Variable utcnow : nat.

Lemma touch_rows_id (source : Source.t) (l : list Source.t) :
  map Source.id
    (map (fun s => if (Source.id s =? Source.id source)%nat then source else s) l)
  = map Source.id l.
Proof.
  rewrite map_map. apply map_ext. intros s.
  destruct (Source.id s =? Source.id source)%nat eqn:He; [| reflexivity].
  apply Nat.eqb_eq in He. symmetry. exact He.
Qed.

Lemma touch_rows_domain (source : Source.t) (l : list Source.t) :
  NoDup (map Source.id l) -> In source l ->
  map Source.domain
    (map (fun s =>
            if (Source.id s =? Source.id (touch_source utcnow source))%nat
            then touch_source utcnow source else s) l)
  = map Source.domain l.
Proof.
  intros Hnd Hin. rewrite map_map. apply map_ext_in. intros s Hs. simpl.
  destruct (Source.id s =? Source.id source)%nat eqn:He; [| reflexivity].
  apply Nat.eqb_eq in He.
  rewrite (same_id_same_row Source.id l s source Hnd Hs Hin He). reflexivity.
Qed.

Lemma get_or_create_source_found (domain : string) (st : State)
    (s : Source.t) :
  find (fun x => String.eqb (Source.domain x) domain) (sources (working st))
    = Some s ->
  _get_or_create_source utcnow domain st
  = (db_commit
       (with_working st
          (mkTables (companies (working st))
             (map (fun x =>
                     if (Source.id x =? Source.id (touch_source utcnow s))%nat
                     then touch_source utcnow s else x)
                  (sources (working st)))
             (leads (working st)) (officers (working st)))),
     Some (touch_source utcnow s)).
Proof.
  intros Hfind. unfold _get_or_create_source. rewrite Hfind. reflexivity.
Qed.

Lemma find_fresh_last {A : Type} (key : A -> string) (l : list A) (x : A) :
  find (fun y => String.eqb (key y) (key x)) l = None ->
  find (fun y => String.eqb (key y) (key x)) (l ++ [x]) = Some x.
Proof.
  induction l as [|a l IH]; simpl; intros Hfind.
  - rewrite String.eqb_refl. reflexivity.
  - destruct (String.eqb (key a) (key x)); [discriminate Hfind | exact (IH Hfind)].
Qed.

Lemma get_or_create_source_missing (domain : string) (st : State) :
  find (fun x => String.eqb (Source.domain x) domain) (sources (working st))
    = None ->
  _get_or_create_source utcnow domain st
  = _get_or_create_source utcnow domain
      (db_commit
         (with_working st
            (mkTables (companies (working st))
               (sources (working st)
                ++ [Source.mk (next_id (map Source.id (sources (working st))))
                      domain ("https://" ++ domain) "unknown" 0.5%float None
                      true])
               (leads (working st)) (officers (working st))))).
Proof.
  intros Hfind. symmetry.
  erewrite get_or_create_source_found.
  - unfold _get_or_create_source. rewrite Hfind. reflexivity.
  - exact (find_fresh_last Source.domain (sources (working st))
             (Source.mk (next_id (map Source.id (sources (working st))))
                domain ("https://" ++ domain) "unknown" 0.5%float None true)
             Hfind).
Qed.

Lemma source_found_upsert (domain : string) (st : State) (s : Source.t) :
  find (fun x => String.eqb (Source.domain x) domain) (sources (working st))
    = Some s ->
  NoDup (map Source.id (sources (working st))) ->
  NoDup (map Source.domain (sources (working st))) ->
  let st' := fst (_get_or_create_source utcnow domain st) in
  snd (_get_or_create_source utcnow domain st) = Some (touch_source utcnow s) /\
  Source.domain s = domain /\
  In (touch_source utcnow s) (sources (committed st')) /\
  map Source.id (sources (working st')) = map Source.id (sources (working st)) /\
  map Source.domain (sources (working st'))
  = map Source.domain (sources (working st)) /\
  find (fun x => String.eqb (Source.domain x) domain) (sources (working st'))
  = Some (touch_source utcnow s).
Proof.
  intros Hfind Hid Hdom.
  rewrite (get_or_create_source_found domain st s Hfind).
  cbv zeta. cbn [fst snd].
  pose proof (find_some _ _ Hfind) as [Hin Hsd]. simpl in Hsd.
  apply String.eqb_eq in Hsd.
  set (l' := map (fun x =>
                    if (Source.id x =? Source.id (touch_source utcnow s))%nat
                    then touch_source utcnow s else x) (sources (working st))).
  assert (Hin' : In (touch_source utcnow s) l').
  { apply in_map_iff. exists s. split; [| exact Hin].
    simpl. rewrite Nat.eqb_refl. reflexivity. }
  assert (Hids : map Source.id l' = map Source.id (sources (working st)))
    by (apply touch_rows_id).
  assert (Hdoms : map Source.domain l' = map Source.domain (sources (working st)))
    by (apply touch_rows_domain; assumption).
  split; [reflexivity|]. split; [exact Hsd|]. split; [exact Hin'|].
  split; [exact Hids|]. split; [exact Hdoms|].
  unfold db_commit, with_working.
  cbn [working committed outbox companies sources leads officers].
  fold l'. rewrite <- Hsd.
  change (Source.domain s) with (Source.domain (touch_source utcnow s)).
  apply (find_unique_key Source.domain); [| exact Hin'].
  rewrite Hdoms. exact Hdom.
Qed.

End Sources.

(** X10. [_get_or_create_source] returns a committed source with the domain
    asked for and the crawl time set to the time of the call.  On a table
    whose ids and domains are unique it keeps them unique and adds a row
    only when the domain is new.  A second call for the same domain, at
    whatever time [later], adds no row: it returns the row of the first
    call with the crawl time set to [later], and commits it. *)
Theorem source_upsert_keeps_domains_unique (utcnow later : nat)
    (domain : string) (st : State) :
  NoDup (map Source.id (sources (working st))) ->
  NoDup (map Source.domain (sources (working st))) ->
  let st' := fst (_get_or_create_source utcnow domain st) in
  let st'' := fst (_get_or_create_source later domain st') in
  exists source,
    snd (_get_or_create_source utcnow domain st) = Some source /\
    Source.domain source = domain /\
    Source.last_crawled source = Some utcnow /\
    In source (sources (committed st')) /\
    NoDup (map Source.id (sources (working st'))) /\
    NoDup (map Source.domain (sources (working st'))) /\
    (exists added,
        map Source.domain (sources (working st'))
        = map Source.domain (sources (working st)) ++ added /\
        (In domain (map Source.domain (sources (working st))) -> added = []) /\
        (~ In domain (map Source.domain (sources (working st))) ->
         added = [domain])) /\
    (exists again,
        snd (_get_or_create_source later domain st') = Some again /\
        Source.id again = Source.id source /\
        Source.domain again = domain /\
        Source.last_crawled again = Some later /\
        again = touch_source later source /\
        In again (sources (committed st'')) /\
        map Source.id (sources (working st''))
        = map Source.id (sources (working st')) /\
        map Source.domain (sources (working st''))
        = map Source.domain (sources (working st'))).
Proof.
  intros Hid Hdom.
  assert (Hfound : forall (st0 : State) (s : Source.t),
    find (fun x => String.eqb (Source.domain x) domain) (sources (working st0))
      = Some s ->
    NoDup (map Source.id (sources (working st0))) ->
    NoDup (map Source.domain (sources (working st0))) ->
    let st' := fst (_get_or_create_source utcnow domain st0) in
    let st'' := fst (_get_or_create_source later domain st') in
    snd (_get_or_create_source utcnow domain st0)
    = Some (touch_source utcnow s) /\
    Source.domain s = domain /\
    In (touch_source utcnow s) (sources (committed st')) /\
    map Source.id (sources (working st'))
    = map Source.id (sources (working st0)) /\
    map Source.domain (sources (working st'))
    = map Source.domain (sources (working st0)) /\
    (exists again,
        snd (_get_or_create_source later domain st') = Some again /\
        Source.id again = Source.id (touch_source utcnow s) /\
        Source.domain again = domain /\
        Source.last_crawled again = Some later /\
        again = touch_source later (touch_source utcnow s) /\
        In again (sources (committed st'')) /\
        map Source.id (sources (working st''))
        = map Source.id (sources (working st')) /\
        map Source.domain (sources (working st''))
        = map Source.domain (sources (working st')))).
  { intros st0 s Hfind Hid0 Hdom0.
    destruct (source_found_upsert utcnow domain st0 s Hfind Hid0 Hdom0)
      as (Hsnd & Hsd & Hin & Hids & Hdoms & Hfind').
    cbv zeta in *.
    assert (Hid' : NoDup (map Source.id
                     (sources (working
                        (fst (_get_or_create_source utcnow domain st0))))))
      by (rewrite Hids; exact Hid0).
    assert (Hdom' : NoDup (map Source.domain
                      (sources (working
                         (fst (_get_or_create_source utcnow domain st0))))))
      by (rewrite Hdoms; exact Hdom0).
    destruct (source_found_upsert later domain _ _ Hfind' Hid' Hdom')
      as (Hsnd2 & _ & Hin2 & Hids2 & Hdoms2 & _).
    cbv zeta in *.
    repeat (split; [assumption|]).
    exists (touch_source later (touch_source utcnow s)).
    split; [exact Hsnd2|]. split; [reflexivity|]. split; [exact Hsd|].
    split; [reflexivity|]. split; [reflexivity|].
    split; [exact Hin2|]. split; [exact Hids2 | exact Hdoms2]. }
  destruct (find (fun x => String.eqb (Source.domain x) domain)
              (sources (working st))) as [s|] eqn:Hfind.
  - destruct (Hfound st s Hfind Hid Hdom)
      as (Hsnd & Hsd & Hin & Hids & Hdoms & Hagain).
    cbv zeta in *. exists (touch_source utcnow s).
    split; [exact Hsnd|]. split; [exact Hsd|]. split; [reflexivity|].
    split; [exact Hin|]. split; [rewrite Hids; exact Hid|].
    split; [rewrite Hdoms; exact Hdom|]. split; [| exact Hagain].
    exists []. rewrite app_nil_r. split; [exact Hdoms|].
    split; [reflexivity|]. intros Hnot. exfalso. apply Hnot.
    rewrite <- Hsd. apply in_map.
    exact (proj1 (find_some _ _ Hfind)).
  - pose proof (find_none_key Source.domain _ _ Hfind) as Hfresh.
    rewrite (get_or_create_source_missing utcnow domain st Hfind).
    set (new := Source.mk (next_id (map Source.id (sources (working st))))
                  domain ("https://" ++ domain) "unknown" 0.5%float None true).
    set (st1 := db_commit (with_working st _)).
    assert (Hsrc : sources (working st1) = sources (working st) ++ [new])
      by reflexivity.
    assert (Hid1 : NoDup (map Source.id (sources (working st1)))).
    { rewrite Hsrc, map_app. apply NoDup_snoc; [exact Hid | apply next_id_fresh]. }
    assert (Hdom1 : NoDup (map Source.domain (sources (working st1)))).
    { rewrite Hsrc, map_app. apply NoDup_snoc; [exact Hdom | exact Hfresh]. }
    assert (Hfind1 : find (fun x => String.eqb (Source.domain x) domain)
                       (sources (working st1)) = Some new).
    { rewrite Hsrc.
      exact (find_fresh_last Source.domain (sources (working st)) new Hfind). }
    destruct (Hfound st1 new Hfind1 Hid1 Hdom1)
      as (Hsnd & Hsd & Hin & Hids & Hdoms & Hagain).
    cbv zeta in *. exists (touch_source utcnow new).
    split; [exact Hsnd|]. split; [reflexivity|]. split; [reflexivity|].
    split; [exact Hin|]. split; [rewrite Hids; exact Hid1|].
    split; [rewrite Hdoms; exact Hdom1|]. split; [| exact Hagain].
    exists [domain]. split; [rewrite Hdoms, Hsrc, map_app; reflexivity|].
    split; [intros Hd; contradiction | reflexivity].
Qed.

Lemma source_upsert_witness :
  exists source again,
    snd (_get_or_create_source 7 "gem.gov.in" empty_state) = Some source /\
    Source.last_crawled source = Some 7%nat /\
    snd (_get_or_create_source 8 "gem.gov.in"
           (fst (_get_or_create_source 7 "gem.gov.in" empty_state)))
    = Some again /\
    Source.id again = Source.id source /\
    Source.last_crawled again = Some 8%nat /\
    map Source.last_crawled
      (sources
         (committed
            (fst (_get_or_create_source 8 "gem.gov.in"
                    (fst (_get_or_create_source 7 "gem.gov.in" empty_state))))))
    = [Some 8%nat].
Proof.
  destruct (source_upsert_keeps_domains_unique 7 8 "gem.gov.in" empty_state)
    as (source & Hsnd & _ & Hcrawled & _ & _ & _ & _
        & (again & Hsnd2 & Hsame & _ & Hcrawled2 & _)).
  - simpl. constructor.
  - simpl. constructor.
  - exists source, again. split; [exact Hsnd|]. split; [exact Hcrawled|].
    split; [exact Hsnd2|]. split; [exact Hsame|]. split; [exact Hcrawled2|].
    vm_compute. reflexivity.
Defined.

(** ** A variant of a stored name *)

Lemma fuzzy_match_some (fuzz_ratio : string -> string -> Z) (norm : string)
    (l : list Company.t) (c : Company.t) :
  In c l -> (85 < fuzz_ratio norm (stored_normalized c))%Z ->
  exists c', fuzzy_match fuzz_ratio norm l = Some c' /\ In c' l /\
             (85 < fuzz_ratio norm (stored_normalized c'))%Z.
Proof.
  induction l as [|e l IH]; simpl; intros Hin Hc; [destruct Hin|].
  fold (stored_normalized e).
  destruct (Z.ltb_spec 85 (fuzz_ratio norm (stored_normalized e))) as [He|He].
  - exists e. auto.
  - destruct Hin as [-> | Hin]; [lia|].
    destruct (IH Hin Hc) as (c' & Hf & Hin' & Hc'). exists c'. auto.
Qed.

(** X11. When some company's stored normalized name equals the normalized
    candidate (the candidate differs from it in letter case and spaces
    only) and the similarity of that string to itself is above 85, the
    resolver creates no company: the session is unchanged and the result
    is an existing company that has the candidate's name or is more than
    85 similar to it. *)
Theorem stored_variant_creates_no_company
    (fuzz_ratio : string -> string -> Z) (signal_data : Signal.t)
    (st : State) (c : Company.t) :
  In c (companies (working st)) ->
  stored_normalized c = normalize (candidate_name signal_data) ->
  (85 < fuzz_ratio (normalize (candidate_name signal_data))
          (normalize (candidate_name signal_data)))%Z ->
  blank (get_or (Signal.company_name signal_data) "") = false ->
  fst (_find_or_create_company fuzz_ratio signal_data st) = st /\
  exists c',
    snd (_find_or_create_company fuzz_ratio signal_data st) = Some c' /\
    In c' (companies (working st)) /\
    (Company.name c' = candidate_name signal_data \/
     (85 < similarity fuzz_ratio signal_data c')%Z).
Proof.
  intros Hin Hnorm Hself Hblank.
  unfold similarity, _find_or_create_company.
  fold (candidate_name signal_data).
  fold (normalize (candidate_name signal_data)).
  destruct (PyStr.truthy (candidate_name signal_data)) eqn:Ht.
  2:{ apply truthy_false_iff in Ht. unfold candidate_name in Ht.
      apply strip_empty_iff in Ht. congruence. }
  simpl negb. cbv iota.
  destruct (find _ (companies (working st))) as [e|] eqn:Hexact.
  - destruct (find_some _ _ Hexact) as (He & Hname).
    apply String.eqb_eq in Hname. split; [reflexivity|]. exists e. auto.
  - rewrite <- Hnorm in Hself at 2.
    destruct (fuzzy_match_some fuzz_ratio _ _ c Hin Hself)
      as (c' & Hf & Hin' & Hc').
    rewrite Hf. split; [reflexivity|]. exists c'. auto.
Qed.

Lemma stored_variant_witness :
  fst (_find_or_create_company Fuzz.ratio (name_only "  TATA Steel  limited ")
         (state_of_companies [adani_power; tata_steel]))
  = state_of_companies [adani_power; tata_steel] /\
  snd (_find_or_create_company Fuzz.ratio (name_only "  TATA Steel  limited ")
         (state_of_companies [adani_power; tata_steel]))
  = Some tata_steel.
Proof.
  destruct (stored_variant_creates_no_company Fuzz.ratio
              (name_only "  TATA Steel  limited ")
              (state_of_companies [adani_power; tata_steel]) tata_steel)
    as (Hst & _).
  - simpl. right. left. reflexivity.
  - vm_compute. reflexivity.
  - vm_compute. reflexivity.
  - vm_compute. reflexivity.
  - split; [exact Hst|]. vm_compute. reflexivity.
Defined.

(** ** Officer assignment *)

(** X12. [_assign_officer] returns an active officer of the table; it returns
    one whose territory is the state asked for whenever such an active
    officer exists, and returns none only when no officer is active. *)
Theorem assign_officer_prefers_the_territory (state : string) (st : State) :
  match _assign_officer state st with
  | Some o =>
      In o (officers (working st)) /\ Officer.is_active o = true /\
      ((exists o', In o' (officers (working st)) /\
                   Officer.is_active o' = true /\
                   Officer.territory_state o' = Some state) ->
       Officer.territory_state o = Some state)
  | None =>
      forall o, In o (officers (working st)) -> Officer.is_active o = false
  end.
Proof.
  unfold _assign_officer.
  destruct (find (fun o => opt_string_eqb (Officer.territory_state o) state
                           && Officer.is_active o) (officers (working st)))
    as [o|] eqn:Hfirst.
  - destruct (find_some _ _ Hfirst) as (Hin & Hp).
    apply andb_true_iff in Hp. destruct Hp as (Ht & Ha).
    split; [exact Hin|]. split; [exact Ha|]. intros _.
    unfold opt_string_eqb in Ht.
    destruct (Officer.territory_state o) as [t|]; [| discriminate Ht].
    apply String.eqb_eq in Ht. rewrite Ht. reflexivity.
  - destruct (find Officer.is_active (officers (working st))) as [o|] eqn:Hany.
    + destruct (find_some _ _ Hany) as (Hin & Ha).
      split; [exact Hin|]. split; [exact Ha|].
      intros (o' & Hin' & Ha' & Ht').
      pose proof (find_none _ _ Hfirst o' Hin') as Hno. simpl in Hno.
      rewrite Ht', Ha' in Hno. simpl in Hno.
      rewrite String.eqb_refl in Hno. discriminate Hno.
    + intros o Hin. pose proof (find_none _ _ Hany o Hin) as Hno.
      exact Hno.
Qed.

(** ** The tables along the pipeline *)

Lemma find_or_create_company_named (fuzz_ratio : string -> string -> Z)
    (signal_data : Signal.t) (st : State) (c : Company.t) :
  snd (_find_or_create_company fuzz_ratio signal_data st) = Some c ->
  exists name, Signal.company_name signal_data = Some name.
Proof.
  unfold _find_or_create_company.
  destruct (Signal.company_name signal_data) as [name|].
  - intros _. exists name. reflexivity.
  - simpl. discriminate.
Qed.

Lemma get_or_create_source_keys (utcnow : nat) (domain : string) (st : State) :
  NoDup (map Source.id (sources (working st))) ->
  NoDup (map Source.domain (sources (working st))) ->
  let st' := fst (_get_or_create_source utcnow domain st) in
  NoDup (map Source.id (sources (working st'))) /\
  NoDup (map Source.domain (sources (working st'))) /\
  (forall id, In id (map Source.id (sources (working st))) ->
              In id (map Source.id (sources (working st')))) /\
  (forall source, snd (_get_or_create_source utcnow domain st) = Some source ->
                  In source (sources (working st'))).
Proof.
  intros Hid Hdom.
  assert (Hclean : clean (fst (_get_or_create_source utcnow domain st)))
    by (apply get_or_create_source_frame).
  destruct (find (fun x => String.eqb (Source.domain x) domain)
              (sources (working st))) as [s|] eqn:Hfind.
  - destruct (source_found_upsert utcnow domain st s Hfind Hid Hdom)
      as (Hsnd & _ & Hin & Hids & Hdoms & _).
    cbv zeta. rewrite Hids, Hdoms. repeat split; auto.
    intros source Hs. rewrite Hsnd in Hs. injection Hs as <-.
    rewrite Hclean. exact Hin.
  - pose proof (find_none_key Source.domain _ _ Hfind) as Hfresh.
    revert Hclean. rewrite (get_or_create_source_missing utcnow domain st Hfind).
    set (new := Source.mk (next_id (map Source.id (sources (working st))))
                  domain ("https://" ++ domain) "unknown" 0.5%float None true).
    set (st1 := db_commit (with_working st _)).
    intros Hclean.
    assert (Hsrc : sources (working st1) = sources (working st) ++ [new])
      by reflexivity.
    assert (Hid1 : NoDup (map Source.id (sources (working st1)))).
    { rewrite Hsrc, map_app. apply NoDup_snoc; [exact Hid | apply next_id_fresh]. }
    assert (Hdom1 : NoDup (map Source.domain (sources (working st1)))).
    { rewrite Hsrc, map_app. apply NoDup_snoc; [exact Hdom | exact Hfresh]. }
    assert (Hfind1 : find (fun x => String.eqb (Source.domain x) domain)
                       (sources (working st1)) = Some new).
    { rewrite Hsrc.
      exact (find_fresh_last Source.domain (sources (working st)) new Hfind). }
    destruct (source_found_upsert utcnow domain st1 new Hfind1 Hid1 Hdom1)
      as (Hsnd & _ & Hin & Hids & Hdoms & _).
    cbv zeta. rewrite Hids, Hdoms. repeat split; auto.
    + intros id Hin0. rewrite Hsrc, map_app. apply in_or_app. left. exact Hin0.
    + intros source Hs. rewrite Hsnd in Hs. injection Hs as <-.
      rewrite Hclean. exact Hin.
Qed.

Lemma assign_officer_in (state : string) (st : State) (o : Officer.t) :
  _assign_officer state st = Some o -> In o (officers (working st)).
Proof.
  unfold _assign_officer.
  destruct (find (fun x => opt_string_eqb (Officer.territory_state x) state
                           && Officer.is_active x) (officers (working st)))
    as [first|] eqn:Hfirst.
  - intros [= <-]. exact (proj1 (find_some _ _ Hfirst)).
  - intros Hany. exact (proj1 (find_some _ _ Hany)).
Qed.

Lemma officer_for_in (territory : option string) (st : State) (o : Officer.t) :
  officer_for territory st = Some o -> In o (officers (working st)).
Proof.
  unfold officer_for. destruct territory as [state|]; [| discriminate].
  destruct (PyStr.truthy state); [| discriminate].
  apply assign_officer_in.
Qed.

Section Tables.

Variable fuzz_ratio : string -> string -> Z.
Variable engine : InferenceEngine.
Variable utcnow : nat.

Lemma company_step_keeps (signal_data : Signal.t) (st : State) :
  unique_keys (working st) -> references_kept (working st) ->
  let s1 := fst (_find_or_create_company fuzz_ratio signal_data st) in
  unique_keys (working s1) /\ references_kept (working s1).
Proof.
  intros (Hcid & Hcname & Hsid & Hsdom & Hlid) Href.
  destruct (find_or_create_company_frame fuzz_ratio signal_data st)
    as (Fl & Fo & Fs & _ & (cs & Fc) & _ & _).
  destruct (find_or_create_company_unique fuzz_ratio signal_data st Hcid Hcname)
    as (Hcid' & Hcname').
  cbv zeta. unfold unique_keys, references_kept. rewrite Fl, Fs, Fo.
  split; [repeat split; assumption|].
  intros lead Hl. destruct (Href lead Hl) as (Hc & Hs). split; [| exact Hs].
  rewrite Fc, map_app. apply in_or_app. left. exact Hc.
Qed.

Lemma source_step_keeps (domain : string) (st : State) :
  unique_keys (working st) -> references_kept (working st) ->
  let s2 := fst (_get_or_create_source utcnow domain st) in
  unique_keys (working s2) /\ references_kept (working s2).
Proof.
  intros (Hcid & Hcname & Hsid & Hsdom & Hlid) Href.
  destruct (get_or_create_source_frame utcnow domain st)
    as (Gl & Go & Gc & _ & _ & _).
  destruct (get_or_create_source_keys utcnow domain st Hsid Hsdom)
    as (Hsid' & Hsdom' & Hids & _).
  cbv zeta. unfold unique_keys, references_kept. rewrite Gl, Gc, Go.
  split; [repeat split; assumption|].
  intros lead Hl. destruct (Href lead Hl) as (Hc & Hs & Ho).
  split; [exact Hc|]. split; [| exact Ho].
  apply Hids. exact Hs.
Qed.

Lemma add_lead_keeps (lead : Lead.t) (assigned : option Officer.t)
    (st : State) :
  unique_keys (working st) -> references_kept (working st) ->
  Lead.id lead = next_id (map Lead.id (leads (working st))) ->
  In (Lead.company_id lead) (map Company.id (companies (working st))) ->
  In (Lead.source_id lead) (map Source.id (sources (working st))) ->
  (forall id, Lead.assigned_officer_id lead = Some id ->
              In id (map Officer.id (officers (working st)))) ->
  let st' := notify lead assigned (add_lead lead st) in
  clean st' /\ unique_keys (working st') /\ references_kept (working st') /\
  leads (working st') = leads (working st) ++ [lead].
Proof.
  intros (Hcid & Hcname & Hsid & Hsdom & Hlid) Href Hnew Hc Hs Ho.
  cbv zeta. unfold clean.
  rewrite (proj1 (notify_tables _ _ _)), (proj2 (notify_tables _ _ _)).
  unfold add_lead, unique_keys, references_kept. simpl.
  split; [reflexivity|]. split; [| split; [| reflexivity]].
  - repeat split; try assumption.
    rewrite map_app. simpl. apply NoDup_snoc; [exact Hlid|].
    rewrite Hnew. apply next_id_fresh.
  - intros l Hl. apply in_app_or in Hl. destruct Hl as [Hl | [<- | []]].
    + exact (Href l Hl).
    + split; [exact Hc|]. split; [exact Hs | exact Ho].
Qed.

(** What one call does to the tables. *)
Lemma process_signal_tables (signal_data : Signal.t) (st : State) :
  clean st -> unique_keys (working st) -> references_kept (working st) ->
  let st' := fst (process_signal fuzz_ratio engine utcnow signal_data st) in
  let lead_id := snd (process_signal fuzz_ratio engine utcnow signal_data st) in
  clean st' /\ unique_keys (working st') /\ references_kept (working st') /\
  length (leads (working st'))
  = (length (leads (working st)) + if lead_id_truthy lead_id then 1 else 0)%nat /\
  (lead_id_truthy lead_id = true ->
   exists name, Signal.company_name signal_data = Some name).
Proof.
  intros Hclean Hkeys Href.
  destruct (find_or_create_company_frame fuzz_ratio signal_data st)
    as (Fl & _ & _ & _ & _ & Fclean & Fin).
  specialize (Fclean Hclean).
  destruct (company_step_keeps signal_data st Hkeys Href) as (K1 & R1).
  pose proof (find_or_create_company_named fuzz_ratio signal_data st) as Hname.
  pose proof (process_signal_cases fuzz_ratio engine utcnow signal_data st)
    as Hcases.
  cbv zeta in Hcases.
  destruct Hcases as [(_ & ->) | (company & Hcompany & Hrest)];
    cbv zeta; simpl fst; simpl snd.
  { rewrite Fl, Nat.add_0_r.
    split; [exact Fclean|]. split; [exact K1|]. split; [exact R1|].
    split; [reflexivity | discriminate]. }
  specialize (Fin company Hcompany). specialize (Hname company Hcompany).
  set (s1 := fst (_find_or_create_company fuzz_ratio signal_data st)) in *.
  destruct Hrest as [(_ & ->) | (domain & source & _ & Hsource & Hrest)];
    simpl fst; simpl snd.
  { unfold clean, db_rollback. simpl. rewrite <- Fclean, Fl, Nat.add_0_r.
    split; [reflexivity|]. split; [exact K1|]. split; [exact R1|].
    split; [reflexivity | discriminate]. }
  destruct (get_or_create_source_frame utcnow domain s1)
    as (Gl & _ & Gc & _ & Gclean & _).
  destruct (source_step_keeps domain s1 K1 R1) as (K2 & R2).
  destruct (get_or_create_source_keys utcnow domain s1
              (proj1 (proj2 (proj2 K1)))
              (proj1 (proj2 (proj2 (proj2 K1))))) as (_ & _ & _ & Gin).
  specialize (Gin source Hsource).
  set (s2 := fst (_get_or_create_source utcnow domain s1)) in *.
  assert (Hsame : length (leads (working s2)) = length (leads (working st)))
    by (rewrite Gl, Fl; reflexivity).
  destruct Hrest as [(_ & ->) | (text & _ & Hrest)]; simpl fst; simpl snd.
  { unfold clean, db_rollback. simpl. rewrite <- Gclean, Hsame, Nat.add_0_r.
    split; [reflexivity|]. split; [exact K2|]. split; [exact R2|].
    split; [reflexivity | discriminate]. }
  destruct Hrest as [(_ & ->) | [(_ & _ & ->) | (top & rest & _ & _ & ->)]];
    simpl fst; simpl snd.
  1,2: rewrite Hsame, Nat.add_0_r;
    (split; [exact Gclean|]); (split; [exact K2|]); (split; [exact R2|]);
    (split; [reflexivity | discriminate]).
  match goal with
  | |- context [notify ?L ?A (add_lead ?L s2)] =>
      destruct (add_lead_keeps L A s2 K2 R2 eq_refl) as (C3 & K3 & R3 & L3)
  end.
  - simpl. rewrite Gc. apply in_map. exact Fin.
  - simpl. apply in_map. exact Gin.
  - simpl. intros id Hid.
    destruct (officer_for _ s2) as [o|] eqn:Hofficer; [| discriminate Hid].
    simpl in Hid. injection Hid as <-. apply in_map.
    exact (officer_for_in _ _ _ Hofficer).
  - rewrite L3, length_app, Hsame. simpl.
    split; [exact C3|]. split; [exact K3|]. split; [exact R3|].
    split; [reflexivity|]. intros _. exact Hname.
Qed.

(** X13. Started on a clean session whose database has unique company ids and
    names, source ids and domains and lead ids, and whose leads refer to
    existing companies, sources and officers, [process_signal] leaves a
    database with the same properties, whatever way it ends. *)
Theorem process_signal_keeps_keys_and_references (signal_data : Signal.t)
    (st : State) :
  clean st -> unique_keys (committed st) -> references_kept (committed st) ->
  let st' := fst (process_signal fuzz_ratio engine utcnow signal_data st) in
  unique_keys (committed st') /\ references_kept (committed st').
Proof.
  intros Hclean Hkeys Href. rewrite <- Hclean in Hkeys, Href.
  destruct (process_signal_tables signal_data st Hclean Hkeys Href)
    as (C & K & R & _).
  cbv zeta. rewrite <- C. split; assumption.
Qed.

End Tables.

Lemma keys_and_references_witness :
  unique_keys
    (committed
       (fst (process_signal Fuzz.ratio default_engine 7
               (signal_in "Tata Steel Limited"
                  "Tender for supply of furnace oil for boiler"
                  "gem.gov.in" "Gujarat")
               officers_only))) /\
  references_kept
    (committed
       (fst (process_signal Fuzz.ratio default_engine 7
               (signal_in "Tata Steel Limited"
                  "Tender for supply of furnace oil for boiler"
                  "gem.gov.in" "Gujarat")
               officers_only))).
Proof.
  apply (process_signal_keeps_keys_and_references Fuzz.ratio default_engine 7
           (signal_in "Tata Steel Limited"
              "Tender for supply of furnace oil for boiler"
              "gem.gov.in" "Gujarat")
           officers_only).
  - reflexivity.
  - simpl. repeat split; constructor.
  - simpl. intros lead Hin. destruct Hin.
Defined.

Section Counting.

Variable fuzz_ratio : string -> string -> Z.
Variable engine : InferenceEngine.
Variable utcnow : nat.

(** What one call does to the leads and to the outbox. *)
Lemma process_signal_leads (signal_data : Signal.t) (st : State) :
  clean st ->
  let st' := fst (process_signal fuzz_ratio engine utcnow signal_data st) in
  let lead_id := snd (process_signal fuzz_ratio engine utcnow signal_data st) in
  clean st' /\
  length (leads (committed st'))
  = (length (leads (committed st)) + if lead_id_truthy lead_id then 1 else 0)%nat /\
  (lead_id_truthy lead_id = true ->
   exists name, Signal.company_name signal_data = Some name).
Proof.
  intros Hclean.
  destruct (process_signal_effects fuzz_ratio engine utcnow signal_data st Hclean)
    as (Hclean' & Hnone & _).
  split; [exact Hclean'|].
  destruct (find_or_create_company_frame fuzz_ratio signal_data st)
    as (Fl & _ & _ & _ & _ & Fclean & _).
  specialize (Fclean Hclean).
  pose proof (find_or_create_company_named fuzz_ratio signal_data st) as Hname.
  pose proof (process_signal_cases fuzz_ratio engine utcnow signal_data st)
    as Hcases.
  cbv zeta in Hcases. cbv zeta.
  assert (Hskip : forall s,
    process_signal fuzz_ratio engine utcnow signal_data st = (s, None) ->
    length (leads (committed
              (fst (process_signal fuzz_ratio engine utcnow signal_data st))))
    = (length (leads (committed st))
       + if lead_id_truthy
              (snd (process_signal fuzz_ratio engine utcnow signal_data st))
         then 1 else 0)%nat /\
    (lead_id_truthy
       (snd (process_signal fuzz_ratio engine utcnow signal_data st)) = true ->
     exists name, Signal.company_name signal_data = Some name)).
  { intros s Hs. rewrite Hnone by (rewrite Hs; reflexivity).
    rewrite Hs. simpl. split; [lia | discriminate]. }
  clear Hnone Hclean'.
  destruct Hcases as [(_ & Heq) | (company & Hcompany & Hrest)];
    [exact (Hskip _ Heq)|].
  specialize (Hname company Hcompany).
  destruct Hrest as [(_ & Heq) | (domain & source & _ & _ & Hrest)];
    [exact (Hskip _ Heq)|].
  destruct (get_or_create_source_frame utcnow domain
              (fst (_find_or_create_company fuzz_ratio signal_data st)))
    as (Gl & _ & _ & _ & Gclean & _).
  destruct Hrest as [(_ & Heq) | (text & _ & Hrest)];
    [exact (Hskip _ Heq)|].
  destruct Hrest as [(_ & Heq) | [(_ & _ & Heq) | (top & rest & _ & _ & Heq)]];
    [exact (Hskip _ Heq) | exact (Hskip _ Heq) |].
  rewrite Heq. simpl fst. simpl snd.
  rewrite (proj1 (notify_tables _ _ _)). unfold add_lead. simpl.
  rewrite length_app, Gl, Fl, Hclean. simpl. split; [reflexivity|].
  intros _. exact Hname.
Qed.

Lemma batch_loop_leads (signals : list Signal.t) :
  forall (st : State) (results : BatchResults),
    clean st ->
    let st' := fst (batch_loop fuzz_ratio engine utcnow signals st results) in
    let r := snd (batch_loop fuzz_ratio engine utcnow signals st results) in
    clean st' /\
    (length (leads (committed st')) + created results
     = length (leads (committed st)) + created r)%nat.
Proof.
  induction signals as [|signal rest IH]; intros st results Hclean; simpl.
  - auto.
  - destruct (process_signal_leads signal st Hclean) as (C & Hlen & _).
    destruct (process_signal fuzz_ratio engine utcnow signal st)
      as [st1 lead_id]. simpl fst in *; simpl snd in *.
    destruct (lead_id_truthy lead_id);
      match goal with
      | |- context [batch_loop _ _ _ rest st1 ?res] =>
          destruct (IH st1 res C) as (C' & Hlen')
      end; simpl in Hlen'; (split; [exact C'|]); lia.
Qed.

(** X14. The [created] count of a batch is the number of leads the batch adds
    to the database, every signal is counted as created or as skipped,
    and the session is clean afterwards. *)
Theorem batch_created_is_the_leads_added (signals : list Signal.t)
    (st : State) :
  clean st ->
  let st' := fst (batch_process_signals fuzz_ratio engine utcnow signals st) in
  let r := snd (batch_process_signals fuzz_ratio engine utcnow signals st) in
  length (leads (committed st'))
  = (length (leads (committed st)) + created r)%nat /\
  (created r + skipped r = length signals)%nat /\
  processed r = length signals /\
  clean st'.
Proof.
  intros Hclean. cbv zeta.
  destruct (batch_loop_leads signals st (mkResults 0 0 0 0) Hclean)
    as (C & Hlen).
  destruct (batch_loop_counts fuzz_ratio engine utcnow signals st
              (mkResults 0 0 0 0)) as (_ & Hp & Hcs).
  unfold batch_process_signals. simpl in Hlen, Hp, Hcs.
  repeat split; try assumption; lia.
Qed.

(** The loops of the scheduler. *)
Lemma process_all_counts (signals : list Signal.t) :
  forall (st : State) (count : nat) (errs : list string),
    clean st ->
    let r := ScraperScheduler.process_all fuzz_ratio engine utcnow signals st
               count errs in
    clean (fst (fst r)) /\
    snd r = errs /\
    (length (leads (committed (fst (fst r)))) + count
     = length (leads (committed st)) + snd (fst r))%nat /\
    (snd (fst r) <= count + length signals)%nat.
Proof.
  induction signals as [|signal rest IH]; intros st count errs Hclean; simpl.
  - repeat split; auto. lia.
  - destruct (process_signal_leads signal st Hclean) as (C & Hlen & Hname).
    destruct (process_signal fuzz_ratio engine utcnow signal st)
      as [st1 lead_id]. simpl fst in *; simpl snd in *.
    destruct (lead_id_truthy lead_id).
    + destruct (Hname eq_refl) as (name & ->).
      destruct (IH st1 (S count) errs C) as (C' & He & Hlen' & Hle).
      cbv zeta in *. repeat split; try assumption; lia.
    + destruct (IH st1 count errs C) as (C' & He & Hlen' & Hle).
      cbv zeta in *. repeat split; try assumption; lia.
Qed.

Lemma process_all_tables (signals : list Signal.t) :
  forall (st : State) (count : nat) (errs : list string),
    clean st -> unique_keys (working st) -> references_kept (working st) ->
    let r := ScraperScheduler.process_all fuzz_ratio engine utcnow signals st
               count errs in
    clean (fst (fst r)) /\
    unique_keys (working (fst (fst r))) /\
    references_kept (working (fst (fst r))).
Proof.
  induction signals as [|signal rest IH]; intros st count errs Hclean K Rf;
    simpl.
  - auto.
  - destruct (process_signal_tables fuzz_ratio engine utcnow signal st
                Hclean K Rf) as (C1 & K1 & R1 & _).
    destruct (process_signal fuzz_ratio engine utcnow signal st)
      as [st1 lead_id]. simpl fst in *; simpl snd in *.
    destruct (lead_id_truthy lead_id);
      [destruct (Signal.company_name signal)|]; apply IH; assumption.
Qed.

(** X15. A scheduler run reports no error, whatever the scrapers return: the
    only line of its loops that could raise is the success log, which
    runs after a lead was created, hence for a signal that has a company
    name.  [leads_created] is the number of leads added to the database
    and is at most the number of signals. *)
Theorem run_all_scrapers_reports_no_error (gem et rss : list Signal.t)
    (db : Tables) (sent : list (string * nat)) :
  let run := ScraperScheduler.run_all_scrapers fuzz_ratio engine utcnow
               gem et rss db sent in
  let db' := fst (fst run) in
  let results := snd run in
  ScraperScheduler.errors results = [] /\
  length (leads db')
  = (length (leads db) + ScraperScheduler.leads_created results)%nat /\
  (ScraperScheduler.leads_created results
   <= ScraperScheduler.gem_tenders results + ScraperScheduler.et_news results
      + ScraperScheduler.rss_articles results)%nat /\
  ScraperScheduler.gem_tenders results = length gem /\
  ScraperScheduler.et_news results = length et /\
  ScraperScheduler.rss_articles results = length rss.
Proof.
  cbv zeta. unfold ScraperScheduler.run_all_scrapers.
  assert (C0 : clean (mkState db db sent)) by reflexivity.
  destruct (process_all_counts gem (mkState db db sent) 0 [] C0)
    as (C1 & E1 & L1 & B1).
  destruct (ScraperScheduler.process_all fuzz_ratio engine utcnow gem
              (mkState db db sent) 0 []) as [[st1 n1] e1].
  simpl fst in *; simpl snd in *. subst e1.
  destruct (process_all_counts et st1 n1 [] C1) as (C2 & E2 & L2 & B2).
  destruct (ScraperScheduler.process_all fuzz_ratio engine utcnow et st1 n1 [])
    as [[st2 n2] e2].
  simpl fst in *; simpl snd in *. subst e2.
  destruct (process_all_counts rss st2 n2 [] C2) as (C3 & E3 & L3 & B3).
  destruct (ScraperScheduler.process_all fuzz_ratio engine utcnow rss st2 n2 [])
    as [[st3 n3] e3].
  simpl fst in *; simpl snd in *. subst e3.
  simpl in L1. simpl. repeat split; try reflexivity; lia.
Qed.

(** X16. A scheduler run on a database with unique keys and valid references
    leaves a database with unique keys and valid references. *)
Theorem run_all_scrapers_keeps_keys_and_references
    (gem et rss : list Signal.t) (db : Tables) (sent : list (string * nat)) :
  unique_keys db -> references_kept db ->
  let db' := fst (fst (ScraperScheduler.run_all_scrapers fuzz_ratio engine
                         utcnow gem et rss db sent)) in
  unique_keys db' /\ references_kept db'.
Proof.
  intros K0 R0. cbv zeta. unfold ScraperScheduler.run_all_scrapers.
  assert (C0 : clean (mkState db db sent)) by reflexivity.
  destruct (process_all_tables gem (mkState db db sent) 0 [] C0 K0 R0)
    as (C1 & K1 & R1).
  destruct (ScraperScheduler.process_all fuzz_ratio engine utcnow gem
              (mkState db db sent) 0 []) as [[st1 n1] e1].
  simpl fst in *.
  destruct (process_all_tables et st1 n1 e1 C1 K1 R1) as (C2 & K2 & R2).
  destruct (ScraperScheduler.process_all fuzz_ratio engine utcnow et st1 n1 e1)
    as [[st2 n2] e2].
  simpl fst in *.
  destruct (process_all_tables rss st2 n2 e2 C2 K2 R2) as (C3 & K3 & R3).
  destruct (ScraperScheduler.process_all fuzz_ratio engine utcnow rss st2 n2 e2)
    as [[st3 n3] e3].
  simpl fst in *. simpl. rewrite <- C3. split; assumption.
Qed.

(** X17. [process_signal] sends no alert when it returns no lead.  When it
    returns a lead id, that lead is committed, its assigned officer is
    the one step 6 picks for its territory (none when it has no
    territory), and exactly one alert is sent, to that officer, if there
    is one and the officer has notifications enabled; otherwise none. *)
Theorem alert_goes_to_the_assigned_officer (signal_data : Signal.t)
    (st : State) :
  let st' := fst (process_signal fuzz_ratio engine utcnow signal_data st) in
  match snd (process_signal fuzz_ratio engine utcnow signal_data st) with
  | None => outbox st' = outbox st
  | Some id =>
      exists lead,
        In lead (leads (committed st')) /\
        Lead.id lead = id /\
        Lead.assigned_officer_id lead
        = option_map Officer.id (officer_for (Lead.territory_state lead) st) /\
        outbox st' = outbox st ++ alert_for lead st
  end.
Proof.
  destruct (find_or_create_company_frame fuzz_ratio signal_data st)
    as (_ & Fo & _ & Fout & _ & _ & _).
  pose proof (process_signal_cases fuzz_ratio engine utcnow signal_data st)
    as Hcases.
  cbv zeta in Hcases. cbv zeta.
  destruct Hcases as [(_ & ->) | (company & _ & Hrest)];
    simpl fst; simpl snd; [exact Fout|].
  destruct Hrest as [(_ & ->) | (domain & source & _ & _ & Hrest)];
    simpl fst in *; simpl snd in *; [exact Fout|].
  destruct (get_or_create_source_frame utcnow domain
              (fst (_find_or_create_company fuzz_ratio signal_data st)))
    as (_ & Go & _ & Gout & _ & _).
  assert (Hout : outbox (fst (_get_or_create_source utcnow domain
                    (fst (_find_or_create_company fuzz_ratio signal_data st))))
                 = outbox st) by (rewrite Gout; exact Fout).
  destruct Hrest as [(_ & ->) | (text & _ & Hrest)];
    simpl fst in *; simpl snd in *; [exact Hout|].
  destruct Hrest as [(_ & ->) | [(_ & _ & ->) | (top & rest & _ & _ & ->)]];
    simpl fst in *; simpl snd in *; try exact Hout.
  set (s2 := fst (_get_or_create_source utcnow domain
                    (fst (_find_or_create_company fuzz_ratio signal_data st))))
    in *.
  assert (Hoff : forall territory,
             officer_for territory s2 = officer_for territory st).
  { intros territory. apply officer_for_officers. rewrite Go. exact Fo. }
  match goal with
  | |- context [add_lead ?L s2] => exists L
  end.
  rewrite (proj1 (notify_tables _ _ _)).
  split; [unfold add_lead; simpl; apply in_or_app; right; left; reflexivity|].
  split; [reflexivity|]. rewrite <- !Hoff.
  split; [reflexivity|].
  unfold alert_for, notify, _send_lead_notification.
  cbn [Lead.territory_state Lead.id new_lead].
  rewrite !Hoff.
  destruct (officer_for _ st) as [o|]; simpl.
  - destruct (Officer.notification_enabled o); simpl.
    + rewrite Hout. reflexivity.
    + rewrite app_nil_r. exact Hout.
  - rewrite app_nil_r. exact Hout.
Qed.

End Counting.

Lemma scheduler_keys_witness :
  unique_keys
    (fst (fst (ScraperScheduler.run_all_scrapers Fuzz.ratio default_engine 7
                 [signal_in "Tata Steel Limited"
                    "Tender for supply of furnace oil for boiler"
                    "gem.gov.in" "Gujarat"]
                 [] [name_only "Adani Power Limited"]
                 (working officers_only) []))) /\
  references_kept
    (fst (fst (ScraperScheduler.run_all_scrapers Fuzz.ratio default_engine 7
                 [signal_in "Tata Steel Limited"
                    "Tender for supply of furnace oil for boiler"
                    "gem.gov.in" "Gujarat"]
                 [] [name_only "Adani Power Limited"]
                 (working officers_only) []))).
Proof.
  apply (run_all_scrapers_keeps_keys_and_references Fuzz.ratio default_engine 7
           [signal_in "Tata Steel Limited"
              "Tender for supply of furnace oil for boiler"
              "gem.gov.in" "Gujarat"]
           [] [name_only "Adani Power Limited"]
           (working officers_only) []).
  - simpl. repeat split; constructor.
  - simpl. intros lead Hin. destruct Hin.
Defined.

Lemma batch_created_witness :
  length
    (leads (committed
              (fst (batch_process_signals Fuzz.ratio default_engine 7
                      [signal_in "Tata Steel Limited"
                         "Tender for supply of furnace oil for boiler"
                         "gem.gov.in" "Gujarat";
                       name_only "Adani Power Limited"]
                      officers_only))))
  = 1%nat.
Proof.
  destruct (batch_created_is_the_leads_added Fuzz.ratio default_engine 7
              [signal_in "Tata Steel Limited"
                 "Tender for supply of furnace oil for boiler"
                 "gem.gov.in" "Gujarat";
               name_only "Adani Power Limited"]
              officers_only) as (Hleads & _).
  - reflexivity.
  - rewrite Hleads. vm_compute. reflexivity.
Defined.

(** ** The keyword filters of the RSS scraper *)

Lemma found_keywords_in (keywords : list string) (text_lower kw : string) :
  In kw (RSSFeedScraper.found_keywords keywords text_lower) <->
  In kw keywords /\ PyStr.contains kw text_lower = true.
Proof.
  induction keywords as [|k rest IH]; simpl.
  - tauto.
  - destruct (PyStr.contains k text_lower) eqn:Hk; simpl; rewrite IH.
    + split.
      * intros [<- | (Hin & Hc)]; auto.
      * intros ([<- | Hin] & Hc); auto.
    + split.
      * intros (Hin & Hc); auto.
      * intros ([<- | Hin] & Hc); [congruence | auto].
Qed.

Lemma found_keywords_distinct (keywords : list string) (text_lower : string) :
  NoDup keywords -> NoDup (RSSFeedScraper.found_keywords keywords text_lower).
Proof.
  induction 1 as [|k rest Hk Hrest IH]; simpl; [constructor|].
  destruct (PyStr.contains k text_lower); [| exact IH].
  constructor; [| exact IH].
  intros Hin. apply found_keywords_in in Hin. exact (Hk (proj1 Hin)).
Qed.

Lemma any_keyword_found (keywords : list string) (text_lower : string) :
  RSSFeedScraper.any_keyword keywords text_lower = true <->
  RSSFeedScraper.found_keywords keywords text_lower <> [].
Proof.
  induction keywords as [|k rest IH]; simpl.
  - split; [discriminate | intros H; contradiction H; reflexivity].
  - destruct (PyStr.contains k text_lower); [| exact IH].
    split; [discriminate | reflexivity].
Qed.

Lemma relevant_keywords_distinct : NoDup RSSFeedScraper.relevant_keywords.
Proof.
  unfold RSSFeedScraper.relevant_keywords.
  repeat (constructor; [simpl; intuition discriminate|]). constructor.
Qed.

(** X18. A text passes [_is_relevant] exactly when [_extract_keywords] finds a
    keyword in it.  The extracted keywords are at most five, distinct,
    and each is a relevant keyword that occurs in the lower-cased text. *)
Theorem extract_keywords_of_a_relevant_text (text : string) :
  (RSSFeedScraper._is_relevant text = true <->
   RSSFeedScraper._extract_keywords text <> []) /\
  (length (RSSFeedScraper._extract_keywords text) <= 5)%nat /\
  NoDup (RSSFeedScraper._extract_keywords text) /\
  (forall kw, In kw (RSSFeedScraper._extract_keywords text) ->
     In kw RSSFeedScraper.relevant_keywords /\
     PyStr.contains kw (PyStr.lower text) = true).
Proof.
  unfold RSSFeedScraper._is_relevant, RSSFeedScraper._extract_keywords.
  split; [| split; [| split]].
  - rewrite any_keyword_found.
    destruct (RSSFeedScraper.found_keywords RSSFeedScraper.relevant_keywords
                (PyStr.lower text)) as [|k l]; simpl.
    + tauto.
    + split; intros _; discriminate.
  - apply firstn_le_length.
  - apply firstn_distinct, found_keywords_distinct, relevant_keywords_distinct.
  - intros kw Hin. apply found_keywords_in.
    exact (firstn_in _ _ _ Hin).
Qed.
